(** * An LS-8 style emulator ([cpu_final.py]): shallow embedding and properties

    The emulator is a Python class [CPU] whose fields are mutated by every
    method.  The embedding passes the machine state explicitly and returns
    either the new state or the Python exception that ends the run.

    Python integers are unbounded, so register, memory, flag and program
    counter contents are modelled by [Z]; nothing in the source reduces a
    value modulo 256.  The only non-integer values the program can create are
    the floats produced by true division ([/=] in the DIV branch of [alu]);
    they are modelled with the IEEE-754 binary64 instance of [SpecFloat]. *)

From Stdlib Require Import ZArith Bool Lia String Ascii.
From Stdlib Require Import SpecFloat.
From Stdlib Require DecimalString HexadecimalString.
From stdpp Require Import base list.

Local Open Scope Z_scope.

(** ** Python values and exceptions *)

Inductive value : Type :=
| VInt (n : Z)
| VFloat (x : spec_float).

Inductive exn : Type :=
| IndexError
| TypeError
| ValueError
| ZeroDivisionError
| OverflowError
| Exception (msg : string).

Inductive result (A : Type) : Type :=
| Ok (a : A)
| Raise (e : exn).
Arguments Ok {A} a.
Arguments Raise {A} e.

#[global] Instance result_ret : MRet result := fun _ a => Ok a.
#[global] Instance result_bind : MBind result := fun _ _ f m =>
  match m with
  | Ok a => f a
  | Raise e => Raise e
  end.

(** ** Python arithmetic on values *)

Module Py.

Definition prec : Z := 53.
Definition emax : Z := 1024.

(** The float with exactly the value of the integer [n] (mantissa not yet
    rounded to 53 bits). *)
Definition exact (n : Z) : spec_float :=
  match n with
  | Z0 => S754_zero false
  | Zpos p => S754_finite false p 0
  | Zneg p => S754_finite true p 0
  end.

(** [float(n)]: round to nearest even, [OverflowError] past the largest
    double. *)
Definition float_of_int (n : Z) : result spec_float :=
  match binary_normalize prec emax n 0 false with
  | S754_infinity _ => Raise OverflowError
  | x => Ok x
  end.

Definition to_float (v : value) : result spec_float :=
  match v with
  | VInt n => float_of_int n
  | VFloat x => Ok x
  end.

Definition float_op (op : spec_float -> spec_float -> spec_float)
    (v w : value) : result value :=
  x ← to_float v; y ← to_float w; Ok (VFloat (op x y)).

Definition add (v w : value) : result value :=
  match v, w with
  | VInt a, VInt b => Ok (VInt (a + b))
  | _, _ => float_op (SFadd prec emax) v w
  end.

Definition sub (v w : value) : result value :=
  match v, w with
  | VInt a, VInt b => Ok (VInt (a - b))
  | _, _ => float_op (SFsub prec emax) v w
  end.

Definition mul (v w : value) : result value :=
  match v, w with
  | VInt a, VInt b => Ok (VInt (a * b))
  | _, _ => float_op (SFmul prec emax) v w
  end.

Definition is_zero (x : spec_float) : bool :=
  match x with
  | S754_zero _ => true
  | _ => false
  end.

(** [v / w], Python 3 true division: the quotient of two integers is the
    correctly rounded double. *)
Definition truediv (v w : value) : result value :=
  match v, w with
  | VInt a, VInt b =>
      if b =? 0 then Raise ZeroDivisionError
      else match SFdiv prec emax (exact a) (exact b) with
           | S754_infinity _ => Raise OverflowError
           | q => Ok (VFloat q)
           end
  | _, _ =>
      x ← to_float v; y ← to_float w;
      if is_zero y then Raise ZeroDivisionError
      else Ok (VFloat (SFdiv prec emax x y))
  end.

Definition int_op (op : Z -> Z -> Z) (v w : value) : result value :=
  match v, w with
  | VInt a, VInt b => Ok (VInt (op a b))
  | _, _ => Raise TypeError
  end.

Definition and_ : value -> value -> result value := int_op Z.land.
Definition or_ : value -> value -> result value := int_op Z.lor.
Definition xor : value -> value -> result value := int_op Z.lxor.

Definition lshift (v w : value) : result value :=
  match v, w with
  | VInt a, VInt b =>
      if b <? 0 then Raise ValueError else Ok (VInt (Z.shiftl a b))
  | _, _ => Raise TypeError
  end.

Definition rshift (v w : value) : result value :=
  match v, w with
  | VInt a, VInt b =>
      if b <? 0 then Raise ValueError else Ok (VInt (Z.shiftr a b))
  | _, _ => Raise TypeError
  end.

(** Comparison of a float with an integer is exact in Python. *)
Definition cmp_float_int (x : spec_float) (n : Z) : option comparison :=
  match x with
  | S754_nan => None
  | S754_infinity s => Some (if s then Lt else Gt)
  | S754_zero _ => Some (0 ?= n)
  | S754_finite s m e =>
      let v := if s then Zneg m else Zpos m in
      Some (if 0 <=? e then (v * 2 ^ e ?= n) else (v ?= n * 2 ^ (- e)))
  end.

Definition compare (v w : value) : option comparison :=
  match v, w with
  | VInt a, VInt b => Some (a ?= b)
  | VFloat x, VInt b => cmp_float_int x b
  | VInt a, VFloat y => CompOpp <$> cmp_float_int y a
  | VFloat x, VFloat y => SFcompare x y
  end.

Definition lt (v w : value) : bool :=
  match compare v w with Some Lt => true | _ => false end.

Definition gt (v w : value) : bool :=
  match compare v w with Some Gt => true | _ => false end.

(** Truth value of a number, as tested by [if], [not] and [or]. *)
Definition truthy (v : value) : bool :=
  match v with
  | VInt n => negb (n =? 0)
  | VFloat x => negb (is_zero x)
  end.

(** [str(n)] and [hex(n)] for an integer. *)
Definition str (n : Z) : string :=
  DecimalString.NilZero.string_of_int (Z.to_int n).

Definition hex (n : Z) : string :=
  ((if (n <? 0)%Z then "-" else "") ++ "0x"
     ++ HexadecimalString.NilZero.string_of_uint
          (N.to_hex_uint (Z.to_N (Z.abs n))))%string.

(** List subscripting [l[i]]: a negative index counts from the end, an index
    outside [-len, len) raises [IndexError], a float index [TypeError]. *)
Definition index (len : nat) (i : value) : result nat :=
  match i with
  | VFloat _ => Raise TypeError
  | VInt n =>
      let j := if n <? 0 then n + Z.of_nat len else n in
      if (j <? 0) || (Z.of_nat len <=? j) then Raise IndexError
      else Ok (Z.to_nat j)
  end.

Definition getitem {A} (l : list A) (i : value) : result A :=
  k ← index (length l) i;
  match l !! k with
  | Some x => Ok x
  | None => Raise IndexError
  end.

Definition setitem {A} (l : list A) (i : value) (x : A) : result (list A) :=
  k ← index (length l) i; Ok (<[k := x]> l).

End Py.

(** ** Constants of the instruction set *)

Definition ADD  : Z := 160. (* 0b10100000 *)
Definition AND  : Z := 168. (* 0b10101000 *)
Definition CALL : Z := 80. (* 0b01010000 *)
Definition CMP  : Z := 167. (* 0b10100111 *)
Definition DEC  : Z := 102. (* 0b01100110 *)
Definition DIV  : Z := 163. (* 0b10100011 *)
Definition HLT  : Z := 1. (* 0b00000001 *)
Definition INC  : Z := 101. (* 0b01100101 *)
Definition IRET : Z := 19. (* 0b00010011 *)
Definition JEQ  : Z := 85. (* 0b01010101 *)
Definition JLE  : Z := 89. (* 0b01011001 *)
Definition JLT  : Z := 88. (* 0b01011000 *)
Definition JMP  : Z := 84. (* 0b01010100 *)
Definition JNE  : Z := 86. (* 0b01010110 *)
Definition LD   : Z := 131. (* 0b10000011 *)
Definition LDI  : Z := 130. (* 0b10000010 *)
Definition MUL  : Z := 162. (* 0b10100010 *)
Definition OR   : Z := 170. (* 0b10101010 *)
Definition POP  : Z := 70. (* 0b01000110 *)
Definition PRA  : Z := 72. (* 0b01001000 *)
Definition PRN  : Z := 71. (* 0b01000111 *)
Definition PUSH : Z := 69. (* 0b01000101 *)
Definition RET  : Z := 17. (* 0b00010001 *)
Definition SHL  : Z := 172. (* 0b10101100 *)
Definition ST   : Z := 132. (* 0b10000100 *)
Definition SUB  : Z := 161. (* 0b10100001 *)
Definition XOR  : Z := 171. (* 0b10101011 *)

(** Reserved general-purpose register numbers. *)
Definition IM : Z := 5.
Definition IS : Z := 6.
Definition SP : Z := 7.

(** CMP flags. *)
Definition FL_LT : Z := 4. (* 0b100 *)
Definition FL_GT : Z := 2. (* 0b010 *)
Definition FL_EQ : Z := 1. (* 0b001 *)

(** IS flags. *)
Definition IS_TIMER    : Z := 1. (* 0b00000001 *)
Definition IS_KEYBOARD : Z := 2. (* 0b00000010 *)

(** ** Machine state: the fields of a [CPU] object *)

(** What the program writes to standard output (PRN and PRA); the
    diagnostic dump of [trace] is not recorded. *)
Inductive output : Type :=
| PrintLine (v : value)
| PrintChar (codepoint : Z).

Record CPU : Type := mkCPU {
  pc : value;
  fl : value;
  ie : Z;
  halted : bool;
  last_interrupt : option Z;
  ir_has_set_pc : bool;
  inst_set_pc : bool;
  ram : list value;
  reg : list value;
  stdout : list output
}.

Definition set_pc (v : value) (s : CPU) : CPU :=
  mkCPU v (fl s) (ie s) (halted s) (last_interrupt s) (ir_has_set_pc s)
        (inst_set_pc s) (ram s) (reg s) (stdout s).
Definition set_fl (v : value) (s : CPU) : CPU :=
  mkCPU (pc s) v (ie s) (halted s) (last_interrupt s) (ir_has_set_pc s)
        (inst_set_pc s) (ram s) (reg s) (stdout s).
Definition set_ie (n : Z) (s : CPU) : CPU :=
  mkCPU (pc s) (fl s) n (halted s) (last_interrupt s) (ir_has_set_pc s)
        (inst_set_pc s) (ram s) (reg s) (stdout s).
Definition set_halted (b : bool) (s : CPU) : CPU :=
  mkCPU (pc s) (fl s) (ie s) b (last_interrupt s) (ir_has_set_pc s)
        (inst_set_pc s) (ram s) (reg s) (stdout s).
Definition set_last_interrupt (t : option Z) (s : CPU) : CPU :=
  mkCPU (pc s) (fl s) (ie s) (halted s) t (ir_has_set_pc s)
        (inst_set_pc s) (ram s) (reg s) (stdout s).
Definition set_inst_set_pc (b : bool) (s : CPU) : CPU :=
  mkCPU (pc s) (fl s) (ie s) (halted s) (last_interrupt s) (ir_has_set_pc s)
        b (ram s) (reg s) (stdout s).
Definition set_ram (m : list value) (s : CPU) : CPU :=
  mkCPU (pc s) (fl s) (ie s) (halted s) (last_interrupt s) (ir_has_set_pc s)
        (inst_set_pc s) m (reg s) (stdout s).
Definition set_reg (r : list value) (s : CPU) : CPU :=
  mkCPU (pc s) (fl s) (ie s) (halted s) (last_interrupt s) (ir_has_set_pc s)
        (inst_set_pc s) (ram s) r (stdout s).
Definition print (o : output) (s : CPU) : CPU :=
  mkCPU (pc s) (fl s) (ie s) (halted s) (last_interrupt s) (ir_has_set_pc s)
        (inst_set_pc s) (ram s) (reg s) (stdout s ++ [o]).

(** [CPU.__init__].  The attribute [inst_set_pc] is first assigned in [run];
    it is given the value [false] before that. *)
Definition CPU_init : CPU :=
  mkCPU (VInt 0) (VInt 0) 1 false None false false
        (replicate 256 (VInt 0))
        (<[Z.to_nat SP := VInt 0xf4]> (replicate 8 (VInt 0)))
        [].

(** [range(n)] *)
Definition range (n : nat) : list Z := Z.of_nat <$> seq 0 n.

(** ** Memory and stack *)

Definition ram_write (mdr mar : value) (s : CPU) : result CPU :=
  m ← Py.setitem (ram s) mar mdr; Ok (set_ram m s).

Definition ram_read (mar : value) (s : CPU) : result value :=
  Py.getitem (ram s) mar.

(** [self.reg[i] = v] *)
Definition reg_write (i v : value) (s : CPU) : result CPU :=
  r ← Py.setitem (reg s) i v; Ok (set_reg r s).

Definition push_value (v : value) (s : CPU) : result CPU :=
  sp ← Py.getitem (reg s) (VInt SP);
  sp' ← Py.sub sp (VInt 1);
  s ← reg_write (VInt SP) sp' s;
  mar ← Py.getitem (reg s) (VInt 7);
  ram_write v mar s.

Definition pop_value (s : CPU) : result (value * CPU) :=
  mar ← Py.getitem (reg s) (VInt 7);
  v ← ram_read mar s;
  sp ← Py.getitem (reg s) (VInt SP);
  sp' ← Py.add sp (VInt 1);
  s ← reg_write (VInt SP) sp' s;
  Ok (v, s).

(** ** Interrupts *)

(** The two arguments are the readings of [datetime.now()], in microseconds:
    [t0] is the reading stored when [last_interrupt] is still [None], [t1]
    the reading called [now].  [difference.seconds] is the seconds field of
    the normalised [timedelta]. *)
Definition check_timer_interrupt (t0 t1 : Z) (s : CPU) : result CPU :=
  let last := default t0 (last_interrupt s) in
  let s := set_last_interrupt (Some last) s in
  let difference := t1 - last in
  if 1 <=? (difference / 1000000) mod 86400 then
    let s := set_last_interrupt (Some t1) s in
    status ← Py.getitem (reg s) (VInt IS);
    status' ← Py.or_ status (VInt IS_TIMER);
    reg_write (VInt IS) status' s
  else Ok s.

(** The inner loop [for regBit in range(7): self.push_value(self.reg[regBit])]. *)
Fixpoint push_registers (regBits : list Z) (s : CPU) : result CPU :=
  match regBits with
  | [] => Ok s
  | regBit :: rest =>
      v ← Py.getitem (reg s) (VInt regBit);
      s ← push_value v s;
      push_registers rest s
  end.

(** The body of the [if] inside the scan loop, up to the [break]. *)
Definition service_interrupt (i : Z) (s : CPU) : result CPU :=
  let s := set_ie 0 s in
  status ← Py.getitem (reg s) (VInt IS);
  status' ← Py.and_ status (VInt (Z.lnot (Z.shiftl 1 i)));
  s ← reg_write (VInt IS) status' s;
  s ← push_value (pc s) s;
  s ← push_value (fl s) s;
  s ← push_registers (range 7) s;
  v ← ram_read (VInt (0xf8 + i)) s;
  Ok (set_pc v s).

(** [for i in range(8): if masked_interrupts & (1 << i): ...; break] *)
Fixpoint scan_interrupts (lines : list Z) (masked_interrupts : value)
    (s : CPU) : result CPU :=
  match lines with
  | [] => Ok s
  | i :: rest =>
      t ← Py.and_ masked_interrupts (VInt (Z.shiftl 1 i));
      if Py.truthy t then service_interrupt i s
      else scan_interrupts rest masked_interrupts s
  end.

Definition handle_interrupts (s : CPU) : result CPU :=
  if ie s =? 0 then Ok s
  else
    mask ← Py.getitem (reg s) (VInt IM);
    status ← Py.getitem (reg s) (VInt IS);
    masked_interrupts ← Py.and_ mask status;
    scan_interrupts (range 8) masked_interrupts s.

(** The part of [load] after a line has been parsed: the values of the
    program image are stored from address 0 upwards. *)
Fixpoint load_from (address : Z) (program : list Z) (s : CPU) : result CPU :=
  match program with
  | [] => Ok s
  | val :: rest =>
      m ← Py.setitem (ram s) (VInt address) (VInt val);
      load_from (address + 1) rest (set_ram m s)
  end.

Definition load (program : list Z) (s : CPU) : result CPU :=
  load_from 0 program s.

(** ** The ALU *)

(** [self.reg[reg_b]] where [reg_b] may be Python's [None] (INC and DEC pass
    it); subscripting with [None] is a [TypeError]. *)
Definition reg_read (i : option value) (s : CPU) : result value :=
  match i with
  | Some i => Py.getitem (reg s) i
  | None => Raise TypeError
  end.

(** [self.reg[reg_a] op= rhs] *)
Definition reg_update (op : value -> value -> result value)
    (reg_a : value) (rhs : CPU -> result value) (s : CPU) : result CPU :=
  x ← Py.getitem (reg s) reg_a;
  y ← rhs s;
  z ← op x y;
  reg_write reg_a z s.

Definition alu (op : string) (reg_a : value) (reg_b : option value)
    (s : CPU) : result CPU :=
  if String.eqb op "ADD" then reg_update Py.add reg_a (reg_read reg_b) s
  else if String.eqb op "AND" then reg_update Py.and_ reg_a (reg_read reg_b) s
  else if String.eqb op "SUB" then reg_update Py.sub reg_a (reg_read reg_b) s
  else if String.eqb op "MUL" then reg_update Py.mul reg_a (reg_read reg_b) s
  else if String.eqb op "DIV" then
    reg_update Py.truediv reg_a (reg_read reg_b) s
  else if String.eqb op "DEC" then
    reg_update Py.sub reg_a (fun _ => Ok (VInt 1)) s
  else if String.eqb op "INC" then
    reg_update Py.add reg_a (fun _ => Ok (VInt 1)) s
  else if String.eqb op "CMP" then
    f ← Py.and_ (fl s) (VInt 0x11111000);
    let s := set_fl f s in
    x ← Py.getitem (reg s) reg_a;
    y ← reg_read reg_b s;
    if Py.lt x y then
      f ← Py.or_ (fl s) (VInt FL_LT); Ok (set_fl f s)
    else
      x ← Py.getitem (reg s) reg_a;
      y ← reg_read reg_b s;
      if Py.gt x y then
        f ← Py.or_ (fl s) (VInt FL_GT); Ok (set_fl f s)
      else
        f ← Py.or_ (fl s) (VInt FL_EQ); Ok (set_fl f s)
  else if String.eqb op "OR" then reg_update Py.or_ reg_a (reg_read reg_b) s
  else if String.eqb op "SHL" then
    reg_update Py.lshift reg_a (reg_read reg_b) s
  else if String.eqb op "XOR" then reg_update Py.xor reg_a (reg_read reg_b) s
  else Raise (Exception "Unsupported ALU operation").

(** ** Operation handlers *)

Definition handler : Type := value -> value -> CPU -> result CPU.

Definition op_ldi : handler := fun operand_a operand_b s =>
  reg_write operand_a operand_b s.

Definition op_prn : handler := fun operand_a operand_b s =>
  v ← Py.getitem (reg s) operand_a; Ok (print (PrintLine v) s).

(** [chr] accepts the code points below [0x110000]. *)
Definition op_pra : handler := fun operand_a operand_b s =>
  v ← Py.getitem (reg s) operand_a;
  match v with
  | VFloat _ => Raise TypeError
  | VInt n =>
      if (0 <=? n) && (n <? 0x110000) then Ok (print (PrintChar n) s)
      else Raise ValueError
  end.

Definition op_add : handler := fun operand_a operand_b =>
  alu "ADD" operand_a (Some operand_b).
Definition op_and : handler := fun operand_a operand_b =>
  alu "AND" operand_a (Some operand_b).
Definition op_sub : handler := fun operand_a operand_b =>
  alu "SUB" operand_a (Some operand_b).
Definition op_mul : handler := fun operand_a operand_b =>
  alu "MUL" operand_a (Some operand_b).
Definition op_div : handler := fun operand_a operand_b =>
  alu "DIV" operand_a (Some operand_b).
Definition op_dec : handler := fun operand_a operand_b =>
  alu "DEC" operand_a None.
Definition op_inc : handler := fun operand_a operand_b =>
  alu "INC" operand_a None.
Definition op_or : handler := fun operand_a operand_b =>
  alu "OR" operand_a (Some operand_b).
Definition op_xor : handler := fun operand_a operand_b =>
  alu "XOR" operand_a (Some operand_b).

Definition op_pop : handler := fun operand_a operand_b s =>
  '(v, s) ← pop_value s; reg_write operand_a v s.

Definition op_push : handler := fun operand_a operand_b s =>
  v ← Py.getitem (reg s) operand_a; push_value v s.

Definition op_call : handler := fun operand_a operand_b s =>
  ret ← Py.add (pc s) (VInt 2);
  s ← push_value ret s;
  v ← Py.getitem (reg s) operand_a;
  Ok (set_pc v s).

Definition op_ret : handler := fun operand_a operand_b s =>
  '(v, s) ← pop_value s; Ok (set_pc v s).

Definition op_ld : handler := fun operand_a operand_b s =>
  mar ← Py.getitem (reg s) operand_b;
  v ← ram_read mar s;
  reg_write operand_a v s.

Definition op_shl : handler := fun operand_a operand_b =>
  alu "SHL" operand_a (Some operand_b).

Definition op_st : handler := fun operand_a operand_b s =>
  mdr ← Py.getitem (reg s) operand_b;
  mar ← Py.getitem (reg s) operand_a;
  ram_write mdr mar s.

Definition op_jmp : handler := fun operand_a operand_b s =>
  v ← Py.getitem (reg s) operand_a; Ok (set_pc v s).

(** The shape shared by the four conditional jumps. *)
Definition jump_if (cond : bool) (operand_a : value) (s : CPU) : result CPU :=
  if cond then v ← Py.getitem (reg s) operand_a; Ok (set_pc v s)
  else Ok (set_inst_set_pc false s).

Definition op_jeq : handler := fun operand_a operand_b s =>
  t ← Py.and_ (fl s) (VInt FL_EQ);
  jump_if (Py.truthy t) operand_a s.

Definition op_jle : handler := fun operand_a operand_b s =>
  t ← Py.and_ (fl s) (VInt FL_LT);
  if Py.truthy t then jump_if true operand_a s
  else
    t ← Py.and_ (fl s) (VInt FL_EQ);
    jump_if (Py.truthy t) operand_a s.

Definition op_jlt : handler := fun operand_a operand_b s =>
  t ← Py.and_ (fl s) (VInt FL_LT);
  jump_if (Py.truthy t) operand_a s.

Definition op_jne : handler := fun operand_a operand_b s =>
  t ← Py.and_ (fl s) (VInt FL_EQ);
  jump_if (negb (Py.truthy t)) operand_a s.

Definition op_cmp : handler := fun operand_a operand_b =>
  alu "CMP" operand_a (Some operand_b).

(** [for i in range(6, -1, -1): self.reg[i] = self.pop_value()] *)
Fixpoint pop_registers (regs : list Z) (s : CPU) : result CPU :=
  match regs with
  | [] => Ok s
  | i :: rest =>
      '(v, s) ← pop_value s;
      s ← reg_write (VInt i) v s;
      pop_registers rest s
  end.

Definition op_iret : handler := fun operand_a operand_b s =>
  s ← pop_registers (reverse (range 7)) s;
  '(f, s) ← pop_value s;
  let s := set_fl f s in
  '(p, s) ← pop_value s;
  let s := set_pc p s in
  Ok (set_ie 1 s).

Definition op_hlt : handler := fun operand_a operand_b s =>
  Ok (set_halted true s).

(** The dictionary built in [__init__], in the order it is written. *)
Definition branch_table_items : list (Z * handler) :=
  [ (ADD, op_add); (AND, op_and); (CALL, op_call); (CMP, op_cmp);
    (DEC, op_dec); (DIV, op_div); (HLT, op_hlt); (INC, op_inc);
    (IRET, op_iret); (JEQ, op_jeq); (JLE, op_jle); (JLT, op_jlt);
    (JMP, op_jmp); (JNE, op_jne); (LD, op_ld); (LDI, op_ldi);
    (MUL, op_mul); (OR, op_or); (POP, op_pop); (PRA, op_pra);
    (PRN, op_prn); (PUSH, op_push); (RET, op_ret); (SHL, op_shl);
    (ST, op_st); (SUB, op_sub); (XOR, op_xor) ].

Fixpoint assoc {A} (k : Z) (items : list (Z * A)) : option A :=
  match items with
  | [] => None
  | (k', x) :: rest => if k =? k' then Some x else assoc k rest
  end.

Definition branch_table (ir : Z) : option handler :=
  assoc ir branch_table_items.

(** ** The execution loop *)

(** The conversion [%02X] accepts integers only; [%02d] and [%03d], applied
    afterwards to the same values, then succeed. *)
Definition format_X (v : value) : result unit :=
  match v with
  | VInt _ => Ok ()
  | VFloat _ => Raise TypeError
  end.

Fixpoint trace_registers (regs : list Z) (s : CPU) : result unit :=
  match regs with
  | [] => Ok ()
  | i :: rest =>
      v ← Py.getitem (reg s) (VInt i);
      _ ← format_X v;
      trace_registers rest s
  end.

(** [trace]: only what can make it raise is kept, the text it prints is
    diagnostic and is not recorded. *)
Definition trace (ir operand_a operand_b : value) (s : CPU) : result unit :=
  m0 ← ram_read (pc s) s;
  pc1 ← Py.add (pc s) (VInt 1);
  m1 ← ram_read pc1 s;
  pc2 ← Py.add (pc s) (VInt 2);
  m2 ← ram_read pc2 s;
  _ ← format_X (pc s);
  _ ← format_X ir;
  _ ← format_X (fl s);
  _ ← format_X m0;
  _ ← format_X m1;
  _ ← format_X m2;
  trace_registers (range 8) s.

(** [f"Invalid Instruction IR: {ir} HEX: {hex(ir)} at address {hex(self.pc)}"] *)
Definition invalid_instruction (ir pc : Z) : string :=
  ("Invalid Instruction IR: " ++ Py.str ir ++ " HEX: " ++ Py.hex ir
     ++ " at address " ++ Py.hex pc)%string.

(** The body of the [while] loop from the fetch onwards. *)
Definition execute (s : CPU) : result CPU :=
  ir ← Py.getitem (ram s) (pc s);
  pc1 ← Py.add (pc s) (VInt 1);
  operand_a ← ram_read pc1 s;
  pc2 ← Py.add (pc s) (VInt 2);
  operand_b ← ram_read pc2 s;
  t ← Py.rshift ir (VInt 6);
  t ← Py.and_ t (VInt 3);
  inst_size ← Py.add t (VInt 1);
  u ← Py.rshift ir (VInt 4);
  u ← Py.and_ u (VInt 1);
  let s := set_inst_set_pc (match u with VInt 1 => true | _ => false end) s in
  _ ← trace ir operand_a operand_b s;
  match ir, pc s with
  | VInt opcode, VInt address =>
      match branch_table opcode with
      | Some op =>
          s ← op operand_a operand_b s;
          if inst_set_pc s then Ok s
          else p ← Py.add (pc s) inst_size; Ok (set_pc p s)
      | None => Raise (Exception (invalid_instruction opcode address))
      end
  | _, _ => Raise TypeError
  end.

(** One iteration of the [while] loop. *)
Definition cycle (t0 t1 : Z) (s : CPU) : result CPU :=
  s ← check_timer_interrupt t0 t1 s;
  s ← handle_interrupts s;
  execute s.

(** [run]: one pair of clock readings is consumed per iteration; [None] means
    that the readings ran out while the machine was still running. *)
Fixpoint run (clock : list (Z * Z)) (s : CPU) : option (result CPU) :=
  if halted s then Some (Ok s)
  else
    match clock with
    | [] => None
    | (t0, t1) :: clock =>
        match cycle t0 t1 s with
        | Ok s => run clock s
        | Raise e => Some (Raise e)
        end
    end.

(** * Vocabulary of the statements *)

(** Subscript assignment never changes the length of a Python list, so the
    two lists keep the lengths given by [__init__]. *)
Definition wf (s : CPU) : Prop :=
  length (reg s) = 8%nat /\ length (ram s) = 256%nat.

(** The position addressed by the integer subscript [n] in a list of length
    [len], for [-len <= n < len]. *)
Definition at_index (len n : Z) : nat :=
  Z.to_nat (if n <? 0 then n + len else n).

Definition cell (n : Z) : nat := at_index 256 n.
Definition slot (n : Z) : nat := at_index 8 n.

(** What one push and one pop do to a state whose stack pointer is the
    integer [sp]. *)
Definition pushed (sp : Z) (v : value) (s : CPU) : CPU :=
  set_ram (<[cell (sp - 1) := v]> (ram s))
          (set_reg (<[7%nat := VInt (sp - 1)]> (reg s)) s).

Definition popped (sp : Z) (s : CPU) : CPU :=
  set_reg (<[7%nat := VInt (sp + 1)]> (reg s)) s.

(** A sequence of calls of [push_value], and [n] calls of [pop_value] with
    the values they return, in the order they are returned. *)
Fixpoint push_values (vs : list value) (s : CPU) : result CPU :=
  match vs with
  | [] => Ok s
  | v :: rest => s ← push_value v s; push_values rest s
  end.

Fixpoint pop_values (n : nat) (s : CPU) : result (list value * CPU) :=
  match n with
  | O => Ok ([], s)
  | S n =>
      '(v, s) ← pop_value s;
      '(vs, s) ← pop_values n s;
      Ok (v :: vs, s)
  end.

(** The fields a handler can change besides the two lists. *)
Definition control (s : CPU) : value * value * bool :=
  (pc s, fl s, inst_set_pc s).

(** [s'] differs from [s] in the two lists at most. *)
Definition same_but_lists (s s' : CPU) : Prop :=
  s' = set_ram (ram s') (set_reg (reg s') s).

(** The values saved on interrupt entry, in the order they are pushed. *)
Definition saved_frame (s : CPU) : list value :=
  pc s :: fl s :: take 7 (reg s).

(** The three reads at the head of the loop body: the opcode at PC and the
    bytes at [PC + 1] and [PC + 2]. *)
Definition fetch (s : CPU) : result (value * value * value) :=
  ir ← Py.getitem (ram s) (pc s);
  pc1 ← Py.add (pc s) (VInt 1);
  operand_a ← ram_read pc1 s;
  pc2 ← Py.add (pc s) (VInt 2);
  operand_b ← ram_read pc2 s;
  Ok (ir, operand_a, operand_b).

(** [f & mask] is true: the flag [mask] is set in [f]. *)
Definition flag_set (f mask : Z) : bool := negb (Z.land f mask =? 0).

(** For the four conditional jumps, whether the jump is taken when FL holds
    [f]; [None] for every other opcode. *)
Definition jump_condition (opcode f : Z) : option bool :=
  if opcode =? JEQ then Some (flag_set f FL_EQ)
  else if opcode =? JNE then Some (negb (flag_set f FL_EQ))
  else if opcode =? JLT then Some (flag_set f FL_LT)
  else if opcode =? JLE then Some (flag_set f FL_LT || flag_set f FL_EQ)
  else None.

(** The instruction width decoded from bits 7 and 6 of the opcode. *)
Definition inst_size (opcode : Z) : Z := Z.land (Z.shiftr opcode 6) 3 + 1.

(** The fields that are neither lists nor part of [control]. *)
Definition others (s : CPU) : Z * bool * option Z * bool * list output :=
  (ie s, halted s, last_interrupt s, ir_has_set_pc s, stdout s).

(** Some register holds a float. *)
Definition has_float_register (s : CPU) : Prop :=
  exists (k : nat) (x : spec_float), reg s !! k = Some (VFloat x).

Definition is_int (v : value) : Prop :=
  match v with
  | VInt _ => True
  | VFloat _ => False
  end.

(** Every number held by the machine is an integer. *)
Definition int_state (s : CPU) : Prop :=
  is_int (pc s) /\ is_int (fl s) /\
  Forall is_int (reg s) /\ Forall is_int (ram s).

(** A byte: an integer from 0 to 255. *)
Definition byte (n : Z) : Prop := 0 <= n < 256.

(** * Properties *)

(** ** List subscripting in well-formed states *)

Lemma index_in_range (len : nat) (n : Z) :
  - Z.of_nat len <= n < Z.of_nat len ->
  Py.index len (VInt n) = Ok (at_index (Z.of_nat len) n).
Proof.
  intros Hn. unfold Py.index, at_index.
  destruct (Z.ltb_spec n 0) as [Hneg | Hpos].
  - rewrite (proj2 (Z.ltb_ge (n + Z.of_nat len) 0)) by lia.
    rewrite (proj2 (Z.leb_gt (Z.of_nat len) (n + Z.of_nat len))) by lia.
    reflexivity.
  - rewrite (proj2 (Z.ltb_ge n 0)) by lia.
    rewrite (proj2 (Z.leb_gt (Z.of_nat len) n)) by lia.
    reflexivity.
Qed.

Lemma index_out_of_range (len : nat) (n : Z) :
  n < - Z.of_nat len \/ Z.of_nat len <= n ->
  Py.index len (VInt n) = Raise IndexError.
Proof.
  intros Hn. unfold Py.index.
  destruct (Z.ltb_spec n 0) as [Hneg | Hpos].
  - rewrite (proj2 (Z.ltb_lt (n + Z.of_nat len) 0)) by lia. reflexivity.
  - rewrite (proj2 (Z.ltb_ge n 0)) by lia.
    rewrite (proj2 (Z.leb_le (Z.of_nat len) n)) by lia. reflexivity.
Qed.

Lemma at_index_lt (len n : Z) :
  - len <= n < len -> (at_index len n < Z.to_nat len)%nat.
Proof. intros Hn. unfold at_index. destruct (Z.ltb_spec n 0); lia. Qed.

Lemma at_index_inj (len n m : Z) :
  - len <= n < len -> - len <= m < len ->
  n - m <> 0 -> n - m <> len -> m - n <> len ->
  at_index len n <> at_index len m.
Proof.
  intros Hn Hm H0 H1 H2. unfold at_index.
  destruct (Z.ltb_spec n 0), (Z.ltb_spec m 0); lia.
Qed.

Lemma getitem_in_range {A} (l : list A) (n : Z) (x : A) :
  - Z.of_nat (length l) <= n < Z.of_nat (length l) ->
  l !! at_index (Z.of_nat (length l)) n = Some x ->
  Py.getitem l (VInt n) = Ok x.
Proof.
  intros Hn Hx. unfold Py.getitem. rewrite index_in_range by assumption.
  simpl. rewrite Hx. reflexivity.
Qed.

Lemma getitem_out_of_range {A} (l : list A) (n : Z) :
  n < - Z.of_nat (length l) \/ Z.of_nat (length l) <= n ->
  Py.getitem l (VInt n) = Raise IndexError.
Proof.
  intros Hn. unfold Py.getitem. rewrite index_out_of_range by assumption.
  reflexivity.
Qed.

Lemma setitem_in_range {A} (l : list A) (n : Z) (x : A) :
  - Z.of_nat (length l) <= n < Z.of_nat (length l) ->
  Py.setitem l (VInt n) x = Ok (<[at_index (Z.of_nat (length l)) n := x]> l).
Proof.
  intros Hn. unfold Py.setitem. rewrite index_in_range by assumption.
  reflexivity.
Qed.

Lemma reg_getitem (s : CPU) (n : Z) (x : value) :
  wf s -> -8 <= n < 8 -> reg s !! slot n = Some x ->
  Py.getitem (reg s) (VInt n) = Ok x.
Proof.
  intros [Hr _] Hn Hx. apply getitem_in_range; rewrite Hr; [lia | exact Hx].
Qed.

Lemma reg_write_in_range (s : CPU) (n : Z) (x : value) :
  wf s -> -8 <= n < 8 ->
  reg_write (VInt n) x s = Ok (set_reg (<[slot n := x]> (reg s)) s).
Proof.
  intros [Hr _] Hn. unfold reg_write.
  rewrite setitem_in_range by (rewrite Hr; lia). rewrite Hr. reflexivity.
Qed.

Lemma ram_read_in_range (s : CPU) (n : Z) (x : value) :
  wf s -> -256 <= n < 256 -> ram s !! cell n = Some x ->
  ram_read (VInt n) s = Ok x.
Proof.
  intros [_ Hm] Hn Hx. apply getitem_in_range; rewrite Hm; [lia | exact Hx].
Qed.

Lemma ram_write_in_range (s : CPU) (n : Z) (x : value) :
  wf s -> -256 <= n < 256 ->
  ram_write x (VInt n) s = Ok (set_ram (<[cell n := x]> (ram s)) s).
Proof.
  intros [_ Hm] Hn. unfold ram_write.
  rewrite setitem_in_range by (rewrite Hm; lia). rewrite Hm. reflexivity.
Qed.

Lemma wf_set_reg (s : CPU) (k : nat) (x : value) :
  wf s -> wf (set_reg (<[k := x]> (reg s)) s).
Proof. intros [Hr Hm]. split; simpl; [rewrite length_insert |]; assumption. Qed.

Lemma wf_set_ram (s : CPU) (k : nat) (x : value) :
  wf s -> wf (set_ram (<[k := x]> (ram s)) s).
Proof. intros [Hr Hm]. split; simpl; [| rewrite length_insert]; assumption. Qed.

(** ** The stack *)

Lemma push_value_ok (s : CPU) (sp : Z) (v : value) :
  wf s -> reg s !! 7%nat = Some (VInt sp) -> -256 <= sp - 1 < 256 ->
  push_value v s = Ok (pushed sp v s).
Proof.
  intros Hwf Hsp Hr. unfold push_value.
  rewrite (reg_getitem s SP (VInt sp) Hwf) by first [exact Hsp | unfold SP; lia].
  simpl. rewrite (reg_write_in_range s SP _ Hwf) by (unfold SP; lia).
  simpl.
  rewrite (getitem_in_range _ 7 (VInt (sp - 1))).
  - simpl. rewrite ram_write_in_range;
      [reflexivity | apply wf_set_reg; assumption | assumption].
  - rewrite length_insert. destruct Hwf as [-> _]. lia.
  - rewrite length_insert. destruct Hwf as [Hl _]. rewrite Hl.
    change (slot SP) with 7%nat. change (at_index (Z.of_nat 8) 7) with 7%nat.
    apply list_lookup_insert_eq. rewrite Hl. lia.
Qed.

Lemma pop_value_ok (s : CPU) (sp : Z) (v : value) :
  wf s -> reg s !! 7%nat = Some (VInt sp) -> -256 <= sp < 256 ->
  ram s !! cell sp = Some v ->
  pop_value s = Ok (v, popped sp s).
Proof.
  intros Hwf Hsp Hr Hv. unfold pop_value.
  rewrite (reg_getitem s 7 (VInt sp) Hwf) by first [exact Hsp | lia].
  simpl. rewrite (ram_read_in_range s sp v) by assumption.
  simpl.
  rewrite (reg_getitem s SP (VInt sp) Hwf) by first [exact Hsp | unfold SP; lia].
  simpl. rewrite (reg_write_in_range s SP _ Hwf) by (unfold SP; lia).
  reflexivity.
Qed.

Lemma wf_pushed (s : CPU) (sp : Z) (v : value) : wf s -> wf (pushed sp v s).
Proof. intros [Hr Hm]. split; simpl; rewrite length_insert; assumption. Qed.

Lemma wf_popped (s : CPU) (sp : Z) : wf s -> wf (popped sp s).
Proof. intros [Hr Hm]. split; simpl; [rewrite length_insert |]; assumption. Qed.

Lemma pop_values_app (n m : nat) (s : CPU) :
  pop_values (n + m) s =
  '(l1, s1) ← pop_values n s; '(l2, s2) ← pop_values m s1; Ok (l1 ++ l2, s2).
Proof.
  revert s. induction n as [| n IH]; intros s; simpl.
  - destruct (pop_values m s) as [[l2 s2] | e]; reflexivity.
  - destruct (pop_value s) as [[v s1] | e]; simpl; [| reflexivity].
    rewrite IH.
    destruct (pop_values n s1) as [[l1 s2] | e]; simpl; [| reflexivity].
    destruct (pop_values m s2) as [[l2 s3] | e]; reflexivity.
Qed.

(** Pushing [vs] and popping as many values gives them back in reverse order
    and restores the registers; the memory cells that the pushes do not write
    keep their contents. *)
Lemma push_pop_values (vs : list value) :
  forall (s : CPU) (sp : Z),
    wf s -> reg s !! 7%nat = Some (VInt sp) ->
    Z.of_nat (length vs) <= 256 ->
    -256 <= sp - Z.of_nat (length vs) -> sp <= 256 ->
    exists s1 s2,
      push_values vs s = Ok s1 /\
      pop_values (length vs) s1 = Ok (reverse vs, s2) /\
      wf s2 /\ reg s2 = reg s /\
      (forall c : nat,
          (forall k, 1 <= k <= Z.of_nat (length vs) -> c <> cell (sp - k)) ->
          ram s2 !! c = ram s !! c).
Proof.
  induction vs as [| v vs IH]; intros s sp Hwf Hsp Hlen Hlo Hhi.
  - exists s, s. simpl. repeat split; try assumption; apply Hwf.
  - simpl length in *.
    destruct (IH (pushed sp v s) (sp - 1))
      as (s1 & s2 & Hpush & Hpop & Hwf2 & Hreg & Hram).
    + apply wf_pushed, Hwf.
    + simpl. apply list_lookup_insert_eq. destruct Hwf as [-> _]. lia.
    + lia.
    + lia.
    + lia.
    + assert (Htop : ram s2 !! cell (sp - 1) = Some v).
      { rewrite Hram.
        - simpl. apply list_lookup_insert_eq.
          destruct Hwf as [_ ->]. apply (at_index_lt 256). lia.
        - intros k Hk. apply (at_index_inj 256); lia. }
      assert (Hsp2 : reg s2 !! 7%nat = Some (VInt (sp - 1))).
      { rewrite Hreg. simpl. apply list_lookup_insert_eq.
        destruct Hwf as [-> _]. lia. }
      exists s1, (popped (sp - 1) s2). split; [| split; [| split; [| split]]].
      * simpl. rewrite (push_value_ok s sp v) by (assumption || lia).
        exact Hpush.
      * replace (S (length vs)) with (length vs + 1)%nat by lia.
        rewrite pop_values_app, Hpop. simpl.
        rewrite (pop_value_ok s2 (sp - 1) v) by (assumption || lia).
        simpl. rewrite reverse_cons. reflexivity.
      * apply wf_popped, Hwf2.
      * simpl. rewrite Hreg. simpl. rewrite list_insert_insert_eq.
        replace (sp - 1 + 1) with sp by lia. apply list_insert_id, Hsp.
      * intros c Hc. simpl. rewrite Hram.
        -- simpl. apply list_lookup_insert_ne.
           intros Heq. apply (Hc 1); [lia | congruence].
        -- intros k Hk. replace (sp - 1 - k) with (sp - (k + 1)) by lia.
           apply Hc. lia.
Qed.

Lemma push_then_pop (s : CPU) (sp : Z) (v : value) :
  wf s -> reg s !! 7%nat = Some (VInt sp) -> -256 <= sp - 1 < 256 ->
  pop_value (pushed sp v s) = Ok (v, set_ram (ram (pushed sp v s)) s).
Proof.
  intros Hwf Hsp Hr.
  rewrite (pop_value_ok _ (sp - 1) v).
  - unfold popped, pushed, set_ram, set_reg. simpl.
    rewrite list_insert_insert_eq. replace (sp - 1 + 1) with sp by lia.
    rewrite (list_insert_id _ _ _ Hsp). reflexivity.
  - apply wf_pushed, Hwf.
  - simpl. apply list_lookup_insert_eq. destruct Hwf as [-> _]. lia.
  - assumption.
  - simpl. apply list_lookup_insert_eq. destruct Hwf as [_ ->].
    apply (at_index_lt 256). lia.
Qed.

(** C4 (as amended): [push_value] decrements SP and then writes at the new
    SP, [pop_value] reads at SP and then increments it.  When at most 256
    values are pushed and every stack address used is a valid subscript of
    the 256-cell memory, popping as many values returns them in reverse
    order and restores SP (and every other register); PUSH of a register
    followed by POP into a register other than SP copies the value and
    leaves SP as it was. *)
Theorem stack_round_trip (s : CPU) (sp : Z) (vs : list value) :
  wf s -> reg s !! 7%nat = Some (VInt sp) ->
  Z.of_nat (length vs) <= 256 ->
  -256 <= sp - Z.of_nat (length vs) -> sp <= 256 ->
  (forall v, -256 <= sp - 1 -> push_value v s = Ok (pushed sp v s)) /\
  (forall v, sp < 256 -> ram s !! cell sp = Some v ->
             pop_value s = Ok (v, popped sp s)) /\
  (exists s1 s2,
      push_values vs s = Ok s1 /\
      pop_values (length vs) s1 = Ok (reverse vs, s2) /\
      reg s2 = reg s) /\
  (forall a b x y v,
      -8 <= a < 8 -> -8 <= b < 8 -> slot b <> 7%nat ->
      reg s !! slot a = Some v -> -256 <= sp - 1 ->
      exists s1 s2,
        op_push (VInt a) x s = Ok s1 /\
        op_pop (VInt b) y s1 = Ok s2 /\
        reg s2 !! slot b = Some v /\
        reg s2 !! 7%nat = Some (VInt sp)).
Proof.
  intros Hwf Hsp Hlen Hlo Hhi. split; [| split; [| split]].
  - intros v Hv. apply push_value_ok; try assumption. lia.
  - intros v Hv Hcell. apply pop_value_ok; try assumption. lia.
  - destruct (push_pop_values vs s sp) as (s1 & s2 & H1 & H2 & _ & H3 & _);
      try assumption.
    exists s1, s2. auto.
  - intros a b x y v Ha Hb Hb7 Hv Hsp1.
    exists (pushed sp v s).
    exists (set_reg (<[slot b := v]> (reg s)) (set_ram (ram (pushed sp v s)) s)).
    split; [| split; [| split]].
    + unfold op_push. rewrite (reg_getitem s a v) by assumption. simpl.
      apply push_value_ok; try assumption. lia.
    + unfold op_pop. rewrite push_then_pop by (assumption || lia). simpl.
      rewrite reg_write_in_range; [reflexivity | | assumption].
      split; simpl; [apply Hwf | rewrite length_insert; apply Hwf].
    + simpl. apply list_lookup_insert_eq. destruct Hwf as [-> _].
      apply (at_index_lt 8). lia.
    + simpl. rewrite list_lookup_insert_ne by assumption. exact Hsp.
Qed.

Lemma stack_round_trip_witness :
  exists s1 s2,
    push_values [VInt 1; VInt 2; VInt 3] CPU_init = Ok s1 /\
    pop_values 3 s1 = Ok ([VInt 3; VInt 2; VInt 1], s2) /\
    reg s2 = reg CPU_init.
Proof.
  refine (proj1 (proj2 (proj2
    (stack_round_trip CPU_init 0xf4 [VInt 1; VInt 2; VInt 3] _ _ _ _ _)))).
  - split; reflexivity.
  - reflexivity.
  - simpl; lia.
  - simpl; lia.
  - lia.
Defined.

(** C4 fails as stated.  From the initial state, 257 pushes and 257 pops all
    succeed, but the 257th push reuses the cell of the first one, so the last
    value popped is not the first value pushed; and with SP at 257 the first
    push already raises [IndexError]. *)
Lemma stack_round_trip_counterexample :
  (exists s1 l s2,
      push_values (VInt <$> range 257) CPU_init = Ok s1 /\
      pop_values 257 s1 = Ok (l, s2) /\
      l <> reverse (VInt <$> range 257)) /\
  push_value (VInt 42)
    (set_reg (<[7%nat := VInt 257]> (reg CPU_init)) CPU_init)
  = Raise IndexError.
Proof.
  split; [| reflexivity].
  destruct (push_values (VInt <$> range 257) CPU_init) as [s1 |] eqn:H1;
    [| vm_compute in H1; discriminate].
  destruct (pop_values 257 s1) as [[l s2] |] eqn:H2.
  - exists s1, l, s2. split; [reflexivity | split; [exact H2 |]].
    intros Heq. subst l.
    assert (H1' : Ok s1 = push_values (VInt <$> range 257) CPU_init)
      by (symmetry; exact H1).
    vm_compute in H1'. injection H1' as ->.
    vm_compute in H2. discriminate.
  - exfalso.
    assert (H1' : Ok s1 = push_values (VInt <$> range 257) CPU_init)
      by (symmetry; exact H1).
    vm_compute in H1'. injection H1' as ->.
    vm_compute in H2. discriminate.
Qed.

(** ** The compare operation *)

Lemma lt_int (x y : Z) : Py.lt (VInt x) (VInt y) = (x <? y).
Proof. unfold Py.lt, Z.ltb. simpl. destruct (x ?= y); reflexivity. Qed.

Lemma gt_int (x y : Z) : Py.gt (VInt x) (VInt y) = (x >? y).
Proof. unfold Py.gt, Z.gtb. simpl. destruct (x ?= y); reflexivity. Qed.

(** The mask written in the source, [0x11111000], has its twelve low bits
    clear, so it clears the three flag bits. *)
Lemma flags_after_mask (f c m : Z) :
  Z.land 0x11111000 m = 0 ->
  Z.land (Z.lor (Z.land f 0x11111000) c) m = Z.land c m.
Proof.
  intros Hm. rewrite Z.land_lor_distr_l, <- Z.land_assoc, Hm, Z.land_0_r.
  apply Z.lor_0_l.
Qed.

(** The flag CMP selects for the integers [x] and [y]. *)
Lemma op_cmp_ok (s : CPU) (a b x y f : Z) :
  wf s -> -8 <= a < 8 -> -8 <= b < 8 ->
  reg s !! slot a = Some (VInt x) ->
  reg s !! slot b = Some (VInt y) ->
  fl s = VInt f ->
  op_cmp (VInt a) (VInt b) s =
  Ok (set_fl (VInt (Z.lor (Z.land f 0x11111000)
                      (if x <? y then FL_LT
                       else if x >? y then FL_GT else FL_EQ))) s).
Proof.
  intros Hwf Ha Hb Hx Hy Hf. unfold op_cmp, alu. simpl String.eqb. cbv iota.
  rewrite Hf. simpl.
  rewrite (reg_getitem _ a (VInt x) Hwf) by assumption. simpl.
  rewrite (reg_getitem _ b (VInt y) Hwf) by assumption. simpl.
  rewrite lt_int. destruct (x <? y); [reflexivity |].
  rewrite gt_int. destruct (x >? y); reflexivity.
Qed.

(** C5: for all integer register contents [x] and [y] and every previous
    integer content of FL, CMP leaves exactly one of the bits LT, GT and EQ
    set in FL and the other two clear: LT exactly when [x < y], GT exactly
    when [x > y], EQ exactly when [x = y]. *)
Theorem cmp_sets_exactly_one_flag (s : CPU) (a b x y f : Z) :
  wf s -> -8 <= a < 8 -> -8 <= b < 8 ->
  reg s !! slot a = Some (VInt x) ->
  reg s !! slot b = Some (VInt y) ->
  fl s = VInt f ->
  exists f',
    op_cmp (VInt a) (VInt b) s = Ok (set_fl (VInt f') s) /\
    (Z.land f' (Z.lor FL_LT (Z.lor FL_GT FL_EQ)) = FL_LT \/
     Z.land f' (Z.lor FL_LT (Z.lor FL_GT FL_EQ)) = FL_GT \/
     Z.land f' (Z.lor FL_LT (Z.lor FL_GT FL_EQ)) = FL_EQ) /\
    (Z.land f' FL_LT = FL_LT <-> x < y) /\
    (Z.land f' FL_GT = FL_GT <-> x > y) /\
    (Z.land f' FL_EQ = FL_EQ <-> x = y) /\
    (Z.land f' FL_LT = 0 <-> ~ x < y) /\
    (Z.land f' FL_GT = 0 <-> ~ x > y) /\
    (Z.land f' FL_EQ = 0 <-> x <> y).
Proof.
  intros Hwf Ha Hb Hx Hy Hf.
  rewrite (op_cmp_ok s a b x y f) by assumption.
  eexists. split; [reflexivity |].
  change (Z.lor FL_LT (Z.lor FL_GT FL_EQ)) with 7.
  rewrite !flags_after_mask by reflexivity.
  assert (Hcases : (x <? y) = true /\ x < y \/
                   (x <? y) = false /\ (x >? y) = true /\ x > y \/
                   (x <? y) = false /\ (x >? y) = false /\ x = y).
  { destruct (Z.ltb_spec x y); [left; split; [reflexivity | lia] | right].
    destruct (Z.gtb_spec x y); [left | right]; repeat split; lia. }
  destruct Hcases as [[-> Hlt] | [(-> & -> & Hgt) | (-> & -> & Heq)]];
    (split; [vm_compute; tauto |]);
    repeat split; intros H; try reflexivity; try lia;
    try (vm_compute in H; discriminate); try (exfalso; lia).
Qed.

Lemma cmp_sets_exactly_one_flag_witness :
  exists f',
    op_cmp (VInt 0) (VInt 7) (set_fl (VInt 7) CPU_init)
    = Ok (set_fl (VInt f') (set_fl (VInt 7) CPU_init)) /\
    (Z.land f' (Z.lor FL_LT (Z.lor FL_GT FL_EQ)) = FL_LT \/
     Z.land f' (Z.lor FL_LT (Z.lor FL_GT FL_EQ)) = FL_GT \/
     Z.land f' (Z.lor FL_LT (Z.lor FL_GT FL_EQ)) = FL_EQ) /\
    (Z.land f' FL_LT = FL_LT <-> 0 < 0xf4) /\
    (Z.land f' FL_GT = FL_GT <-> 0 > 0xf4) /\
    (Z.land f' FL_EQ = FL_EQ <-> 0 = 0xf4) /\
    (Z.land f' FL_LT = 0 <-> ~ 0 < 0xf4) /\
    (Z.land f' FL_GT = 0 <-> ~ 0 > 0xf4) /\
    (Z.land f' FL_EQ = 0 <-> 0 <> 0xf4).
Proof.
  apply (cmp_sets_exactly_one_flag (set_fl (VInt 7) CPU_init) 0 7 0 0xf4 7).
  - split; reflexivity.
  - lia.
  - lia.
  - reflexivity.
  - reflexivity.
  - reflexivity.
Defined.

(** ** Arithmetic in the ALU *)

Lemma reg_update_ok (op : value -> value -> result value)
    (rhs : CPU -> result value) (s : CPU) (a : Z) (x y z : value) :
  wf s -> -8 <= a < 8 -> reg s !! slot a = Some x ->
  rhs s = Ok y -> op x y = Ok z ->
  reg_update op (VInt a) rhs s = Ok (set_reg (<[slot a := z]> (reg s)) s).
Proof.
  intros Hwf Ha Hx Hy Hz. unfold reg_update.
  rewrite (reg_getitem s a x Hwf) by assumption. simpl.
  rewrite Hy. simpl. rewrite Hz. simpl.
  apply reg_write_in_range; assumption.
Qed.

(** C6 (as amended): on integer register contents [x] and [y] the ALU stores
    the exact integer result in the destination register, [x + y], [x - y],
    [x * y], [x + 1], [x - 1], and [x * 2 ^ y] for SHL with a count [y >= 0]
    (a negative count raises [ValueError]); no result is reduced modulo 256
    or truncated to 8 bits. *)
Theorem alu_results_are_exact (s : CPU) (a b x y : Z) (operand_b : value) :
  wf s -> -8 <= a < 8 -> -8 <= b < 8 ->
  reg s !! slot a = Some (VInt x) ->
  reg s !! slot b = Some (VInt y) ->
  let stores (r : Z) := Ok (set_reg (<[slot a := VInt r]> (reg s)) s) in
  op_add (VInt a) (VInt b) s = stores (x + y) /\
  op_sub (VInt a) (VInt b) s = stores (x - y) /\
  op_mul (VInt a) (VInt b) s = stores (x * y) /\
  op_inc (VInt a) operand_b s = stores (x + 1) /\
  op_dec (VInt a) operand_b s = stores (x - 1) /\
  (0 <= y -> op_shl (VInt a) (VInt b) s = stores (x * 2 ^ y)) /\
  (y < 0 -> op_shl (VInt a) (VInt b) s = Raise ValueError).
Proof.
  intros Hwf Ha Hb Hx Hy stores. subst stores. cbv beta.
  assert (Hrb : reg_read (Some (VInt b)) s = Ok (VInt y))
    by (apply reg_getitem; assumption).
  unfold op_add, op_sub, op_mul, op_inc, op_dec, op_shl, alu.
  simpl String.eqb. cbv iota.
  repeat split.
  - apply (reg_update_ok _ _ s a (VInt x) (VInt y)); auto.
  - apply (reg_update_ok _ _ s a (VInt x) (VInt y)); auto.
  - apply (reg_update_ok _ _ s a (VInt x) (VInt y)); auto.
  - apply (reg_update_ok _ _ s a (VInt x) (VInt 1)); auto.
  - apply (reg_update_ok _ _ s a (VInt x) (VInt 1)); auto.
  - intros Hy0. apply (reg_update_ok _ _ s a (VInt x) (VInt y)); auto.
    unfold Py.lshift. rewrite (proj2 (Z.ltb_ge y 0)) by lia.
    rewrite Z.shiftl_mul_pow2 by lia. reflexivity.
  - intros Hy0. unfold reg_update.
    rewrite (reg_getitem s a (VInt x) Hwf) by assumption. simpl.
    rewrite (reg_getitem s b (VInt y) Hwf) by assumption. simpl.
    rewrite (proj2 (Z.ltb_lt y 0)) by lia. reflexivity.
Qed.

Lemma alu_results_are_exact_witness :
  let s := set_reg [VInt 255; VInt 1; VInt 0; VInt 0;
                    VInt 0; VInt 0; VInt 0; VInt 0xf4] CPU_init in
  let stores (r : Z) := Ok (set_reg (<[slot 0 := VInt r]> (reg s)) s) in
  op_add (VInt 0) (VInt 1) s = stores (255 + 1) /\
  op_sub (VInt 0) (VInt 1) s = stores (255 - 1) /\
  op_mul (VInt 0) (VInt 1) s = stores (255 * 1) /\
  op_inc (VInt 0) (VInt 0) s = stores (255 + 1) /\
  op_dec (VInt 0) (VInt 0) s = stores (255 - 1) /\
  (0 <= 1 -> op_shl (VInt 0) (VInt 1) s = stores (255 * 2 ^ 1)) /\
  (1 < 0 -> op_shl (VInt 0) (VInt 1) s = Raise ValueError).
Proof.
  apply (alu_results_are_exact
           (set_reg [VInt 255; VInt 1; VInt 0; VInt 0;
                     VInt 0; VInt 0; VInt 0; VInt 0xf4] CPU_init)
           0 1 255 1 (VInt 0)).
  - split; reflexivity.
  - lia.
  - lia.
  - reflexivity.
  - reflexivity.
Defined.

(** C6 fails as stated: with 255 in register 0 and 1 in register 1, ADD and
    INC leave 256 in register 0, not 0; SHL leaves 510; and DEC of a register
    holding 0 leaves -1. *)
Lemma alu_results_are_exact_counterexample :
  let s := set_reg [VInt 255; VInt 1; VInt 0; VInt 0;
                    VInt 0; VInt 0; VInt 0; VInt 0xf4] CPU_init in
  (exists s', op_add (VInt 0) (VInt 1) s = Ok s' /\
              reg s' !! 0%nat = Some (VInt 256) /\
              256 <> (255 + 1) mod 256 /\ 255 < 256) /\
  (exists s', op_inc (VInt 0) (VInt 1) s = Ok s' /\
              reg s' !! 0%nat = Some (VInt 256)) /\
  (exists s', op_shl (VInt 0) (VInt 1) s = Ok s' /\
              reg s' !! 0%nat = Some (VInt 510) /\
              510 <> Z.land (Z.shiftl 255 1) 255) /\
  (exists s', op_dec (VInt 2) (VInt 0) s = Ok s' /\
              reg s' !! 2%nat = Some (VInt (-1)) /\
              -1 <> (0 - 1) mod 256 /\ -1 < 0).
Proof.
  cbv zeta. repeat split;
    try (eexists; split; [reflexivity |]; repeat split; try reflexivity;
         try lia; vm_compute; discriminate).
Qed.

(** ** What the handlers leave unchanged *)

Lemma bind_ok {A B} (m : result A) (f : A -> result B) (y : B) :
  m ≫= f = Ok y -> exists x, m = Ok x /\ f x = Ok y.
Proof. destruct m as [x | e]; simpl; [eauto | discriminate]. Qed.

(** Invert one step of a computation that is known to return normally. *)
Ltac ok_step H :=
  lazymatch type of H with
  | Ok _ = Ok _ => injection H as H; try subst
  | Raise _ = Ok _ => discriminate H
  | ?m ≫= _ = Ok _ =>
      let x := fresh "x" in
      let E := fresh "E" in
      apply bind_ok in H; destruct H as (x & E & H); simpl in H
  | (let '(_, _) := ?p in _) = Ok _ => destruct p; simpl in H
  | (if ?c then _ else _) = Ok _ => destruct c eqn:?
  | match ?v with _ => _ end = Ok _ => destruct v eqn:?; simpl in H
  end.

Ltac ok_inv H := repeat ok_step H.

Lemma reg_write_control (i v : value) (s s' : CPU) :
  reg_write i v s = Ok s' -> control s' = control s.
Proof. unfold reg_write. intros H. ok_inv H. reflexivity. Qed.

Lemma ram_write_control (mdr mar : value) (s s' : CPU) :
  ram_write mdr mar s = Ok s' -> control s' = control s.
Proof. unfold ram_write. intros H. ok_inv H. reflexivity. Qed.

Lemma push_value_control (v : value) (s s' : CPU) :
  push_value v s = Ok s' -> control s' = control s.
Proof.
  unfold push_value. intros H. ok_inv H.
  apply ram_write_control in H. apply reg_write_control in E1. congruence.
Qed.

Lemma pop_value_control (s s' : CPU) (v : value) :
  pop_value s = Ok (v, s') -> control s' = control s.
Proof.
  unfold pop_value. intros H. ok_inv H.
  apply reg_write_control in E3. congruence.
Qed.

Lemma reg_update_control (op : value -> value -> result value)
    (reg_a : value) (rhs : CPU -> result value) (s s' : CPU) :
  reg_update op reg_a rhs s = Ok s' -> control s' = control s.
Proof.
  unfold reg_update. intros H. ok_inv H. apply reg_write_control in H. exact H.
Qed.

Ltac control_facts :=
  repeat match goal with
    | E : reg_write _ _ _ = Ok _ |- _ => apply reg_write_control in E
    | E : ram_write _ _ _ = Ok _ |- _ => apply ram_write_control in E
    | E : push_value _ _ = Ok _ |- _ => apply push_value_control in E
    | E : pop_value _ = Ok (_, _) |- _ => apply pop_value_control in E
    | E : reg_update _ _ _ _ = Ok _ |- _ => apply reg_update_control in E
    end.

(** Unfold a handler applied in [H] and collect what it preserves. *)
Ltac handler_frame H :=
  unfold op_add, op_and, op_call, op_cmp, op_dec, op_div, op_hlt, op_inc,
    op_iret, op_jeq, op_jle, op_jlt, op_jmp, op_jne, op_ld, op_ldi, op_mul,
    op_or, op_pop, op_pra, op_prn, op_push, op_ret, op_shl, op_st, op_sub,
    op_xor, alu, jump_if in H;
  simpl String.eqb in H; cbv iota in H;
  ok_inv H; control_facts; unfold control in *; simpl in *;
  try (intuition congruence).

(** Case analysis on the entry of the branch table that [H] selects. *)
Ltac table_cases H :=
  unfold branch_table, branch_table_items, assoc in H;
  repeat lazymatch type of H with
    | (if ?k =? ?c then _ else _) = Some _ =>
        let E := fresh "Hop" in
        destruct (Z.eqb_spec k c) as [E | E]; [injection H as <- |]
    | None = Some _ => discriminate H
    end.

(** C8 (as amended): the handlers of all opcodes except CMP and IRET leave
    FL as it was. *)
Theorem fl_frame (opcode : Z) (op : handler) (a b : value) (s s' : CPU) :
  branch_table opcode = Some op ->
  opcode <> CMP -> opcode <> IRET ->
  op a b s = Ok s' ->
  fl s' = fl s.
Proof.
  intros Htable Hcmp Hiret Hrun.
  table_cases Htable; try contradiction; handler_frame Hrun.
Qed.

Lemma fl_frame_witness :
  fl (set_reg (<[0%nat := VInt 8]> (reg CPU_init)) CPU_init) = fl CPU_init.
Proof.
  apply (fl_frame LDI op_ldi (VInt 0) (VInt 8) CPU_init).
  - reflexivity.
  - discriminate.
  - discriminate.
  - vm_compute. reflexivity.
Defined.

(** C8 fails as stated: IRET is not the compare operation and it writes FL.
    With the value 5 in the cell that holds the saved flags, IRET
    returns normally and FL changes from 0 to 5. *)
Lemma fl_frame_counterexample :
  let s := set_ram (<[0xfb%nat := VInt 5]> (ram CPU_init)) CPU_init in
  branch_table IRET = Some op_iret /\ IRET <> CMP /\
  fl s = VInt 0 /\
  exists s', op_iret (VInt 0) (VInt 0) s = Ok s' /\ fl s' = VInt 5.
Proof.
  cbv zeta. split; [reflexivity |]. split; [discriminate |].
  split; [reflexivity |]. eexists. split; [vm_compute; reflexivity |].
  reflexivity.
Qed.

(** ** Sequences of pushes and pops *)

Lemma ram_cell_is_Some (s : CPU) (n : Z) :
  wf s -> -256 <= n < 256 -> is_Some (ram s !! cell n).
Proof.
  intros [_ Hm] Hn. apply lookup_lt_is_Some. rewrite Hm.
  apply (at_index_lt 256). lia.
Qed.

Lemma slot_nonneg (k : Z) : 0 <= k -> slot k = Z.to_nat k.
Proof.
  intros Hk. unfold slot, at_index. rewrite (proj2 (Z.ltb_ge k 0)) by lia.
  reflexivity.
Qed.

Lemma push_values_ok (vs : list value) :
  forall (s : CPU) (sp : Z),
    wf s -> reg s !! 7%nat = Some (VInt sp) ->
    Z.of_nat (length vs) <= 256 ->
    -256 <= sp - Z.of_nat (length vs) -> sp <= 256 ->
    exists s1,
      push_values vs s = Ok s1 /\
      wf s1 /\ same_but_lists s s1 /\
      reg s1 = <[7%nat := VInt (sp - Z.of_nat (length vs))]> (reg s) /\
      (forall (k : nat) v, vs !! k = Some v ->
                           ram s1 !! cell (sp - 1 - Z.of_nat k) = Some v) /\
      (forall c : nat,
          (forall k, 1 <= k <= Z.of_nat (length vs) -> c <> cell (sp - k)) ->
          ram s1 !! c = ram s !! c).
Proof.
  induction vs as [| v vs IH]; intros s sp Hwf Hsp Hlen Hlo Hhi.
  - exists s. simpl. repeat split; try apply Hwf.
    + destruct s; reflexivity.
    + replace (sp - Z.of_nat 0) with sp by lia.
      symmetry. apply list_insert_id, Hsp.
    + intros k v Hk. rewrite lookup_nil in Hk. discriminate.
  - simpl length in *.
    destruct (IH (pushed sp v s) (sp - 1))
      as (s1 & Hpush & Hwf1 & Hsame & Hreg & Hvals & Hrest).
    + apply wf_pushed, Hwf.
    + simpl. apply list_lookup_insert_eq. destruct Hwf as [-> _]. lia.
    + lia.
    + lia.
    + lia.
    + exists s1. split; [| split; [| split; [| split; [| split]]]].
      * simpl. rewrite (push_value_ok s sp v) by (assumption || lia).
        exact Hpush.
      * exact Hwf1.
      * unfold same_but_lists in *. rewrite Hsame at 1. reflexivity.
      * rewrite Hreg. simpl. rewrite list_insert_insert_eq.
        f_equal. f_equal. lia.
      * intros [| k] w Hw; simpl in Hw.
        -- injection Hw as <-. replace (sp - 1 - Z.of_nat 0) with (sp - 1) by lia.
           rewrite Hrest.
           ++ simpl. apply list_lookup_insert_eq.
              destruct Hwf as [_ ->]. apply (at_index_lt 256). lia.
           ++ intros k Hk. apply (at_index_inj 256); lia.
        -- replace (sp - 1 - Z.of_nat (S k)) with (sp - 1 - 1 - Z.of_nat k) by lia.
           apply Hvals, Hw.
      * intros c Hc. rewrite Hrest.
        -- simpl. apply list_lookup_insert_ne.
           intros Heq. apply (Hc 1); [lia | congruence].
        -- intros k Hk. replace (sp - 1 - k) with (sp - (k + 1)) by lia.
           apply Hc. lia.
Qed.

Lemma push_value_regs (v : value) (s s' : CPU) :
  wf s -> push_value v s = Ok s' ->
  wf s' /\ forall k : nat, k <> 7%nat -> reg s' !! k = reg s !! k.
Proof.
  intros Hwf H. unfold push_value in H.
  apply bind_ok in H. destruct H as (sp & _ & H).
  apply bind_ok in H. destruct H as (sp' & _ & H).
  rewrite (reg_write_in_range s SP sp' Hwf) in H by (unfold SP; lia).
  simpl in H.
  apply bind_ok in H. destruct H as (mar & _ & H).
  unfold ram_write in H. apply bind_ok in H. destruct H as (m & Hm & H).
  injection H as <-. unfold Py.setitem in Hm.
  apply bind_ok in Hm. destruct Hm as (c & _ & Hm). injection Hm as <-.
  split.
  - split; simpl; rewrite length_insert; apply Hwf.
  - intros k Hk. simpl. apply list_lookup_insert_ne.
    change (slot SP) with 7%nat. congruence.
Qed.

(** The registers saved on interrupt entry are read one by one between the
    pushes; since a push changes register 7 only, the values are those the
    registers had before the first push. *)
Lemma push_registers_values (ks : list Z) :
  forall (vs : list value) (s : CPU),
    wf s ->
    Forall2 (fun k v => 0 <= k < 7 /\ reg s !! Z.to_nat k = Some v) ks vs ->
    push_registers ks s = push_values vs s.
Proof.
  induction ks as [| k ks IH]; intros vs s Hwf Hall.
  - apply Forall2_nil_inv_l in Hall. subst vs. reflexivity.
  - apply Forall2_cons_inv_l in Hall.
    destruct Hall as (v & vs' & [Hk Hv] & Hall & ->). simpl.
    rewrite (reg_getitem s k v Hwf) by (rewrite ?slot_nonneg; (lia || assumption)).
    simpl. destruct (push_value v s) as [s' |] eqn:Hpush; [| reflexivity].
    simpl. destruct (push_value_regs v s s' Hwf Hpush) as [Hwf' Hregs].
    apply IH; [exact Hwf' |].
    eapply Forall2_impl; [exact Hall |]. intros k' v' [Hk' Hv'].
    split; [exact Hk' |]. rewrite Hregs by lia. exact Hv'.
Qed.

Lemma pop_registers_ok (ks : list Z) :
  forall (s : CPU) (sp : Z),
    wf s -> reg s !! 7%nat = Some (VInt sp) ->
    Forall (fun k => 0 <= k < 7) ks -> NoDup ks ->
    -256 <= sp -> sp + Z.of_nat (length ks) <= 256 ->
    exists s',
      pop_registers ks s = Ok s' /\
      wf s' /\ s' = set_reg (reg s') s /\
      reg s' !! 7%nat = Some (VInt (sp + Z.of_nat (length ks))) /\
      (forall (j : nat) k, ks !! j = Some k ->
          reg s' !! Z.to_nat k = ram s !! cell (sp + Z.of_nat j)) /\
      (forall m : nat, m <> 7%nat -> Z.of_nat m ∉ ks ->
          reg s' !! m = reg s !! m).
Proof.
  induction ks as [| k ks IH]; intros s sp Hwf Hsp Hall Hnd Hlo Hhi.
  - exists s. simpl. repeat split; try apply Hwf.
    + destruct s; reflexivity.
    + rewrite Hsp. f_equal. f_equal. lia.
    + intros j k Hj. rewrite lookup_nil in Hj. discriminate.
  - simpl length in *.
    apply Forall_cons in Hall. destruct Hall as [Hk Hall].
    apply NoDup_cons in Hnd. destruct Hnd as [Hnotin Hnd].
    destruct (ram_cell_is_Some s sp Hwf) as [v Hv]; [lia |].
    pose (s2 := set_reg (<[slot k := v]> (reg (popped sp s))) (popped sp s)).
    assert (Hwf2 : wf s2).
    { split; simpl; [rewrite !length_insert |]; apply Hwf. }
    assert (Hslot : slot k <> 7%nat) by (rewrite slot_nonneg; lia).
    destruct (IH s2 (sp + 1)) as (s' & Hpop & Hwf' & Hsame & H7 & Hvals & Hrest);
      try assumption; try lia.
    { simpl. rewrite list_lookup_insert_ne by exact Hslot.
      apply list_lookup_insert_eq. destruct Hwf as [-> _]. lia. }
    exists s'. split; [| split; [| split; [| split; [| split]]]].
    + simpl. rewrite (pop_value_ok s sp v) by (assumption || lia). simpl.
      rewrite reg_write_in_range by (try apply wf_popped; assumption || lia).
      simpl. exact Hpop.
    + exact Hwf'.
    + rewrite Hsame at 1. reflexivity.
    + rewrite H7. f_equal. f_equal. lia.
    + intros [| j] k' Hj; simpl in Hj.
      * injection Hj as <-. replace (sp + Z.of_nat 0) with sp by lia.
        rewrite Hrest.
        -- simpl. rewrite <- (slot_nonneg k) by lia. rewrite Hv.
           apply list_lookup_insert_eq. rewrite length_insert.
           destruct Hwf as [-> _]. apply (at_index_lt 8). lia.
        -- lia.
        -- rewrite Z2Nat.id by lia. exact Hnotin.
      * rewrite (Hvals j k' Hj). simpl. f_equal. f_equal. lia.
    + intros m Hm Hnot. apply not_elem_of_cons in Hnot.
      destruct Hnot as [Hmk Hnot]. rewrite (Hrest m Hm Hnot). simpl.
      rewrite list_lookup_insert_ne by (rewrite slot_nonneg; lia).
      apply list_lookup_insert_ne. congruence.
Qed.

(** ** Interrupt entry and return *)

Lemma regs_eight (s : CPU) :
  wf s -> exists r0 r1 r2 r3 r4 r5 r6 r7,
            reg s = [r0; r1; r2; r3; r4; r5; r6; r7].
Proof.
  intros [Hr _].
  destruct (reg s) as [| r0 [| r1 [| r2 [| r3 [| r4 [| r5 [| r6 [| r7 [| r8 l]]]]]]]]];
    try discriminate Hr.
  repeat eexists.
Qed.

Lemma bind_Ok {A B} (x : A) (f : A -> result B) : Ok x ≫= f = f x.
Proof. reflexivity. Qed.

Lemma bind_Raise {A B} (e : exn) (f : A -> result B) :
  (Raise e : result A) ≫= f = Raise e.
Proof. reflexivity. Qed.

(** The nine pushes of the interrupt entry store [saved_frame]. *)
Lemma service_pushes {A} (K : CPU -> result A) (s : CPU) :
  wf s ->
  (push_value (pc s) s ≫= fun s1 =>
   push_value (fl s1) s1 ≫= fun s2 =>
   push_registers (range 7) s2 ≫= K)
  = push_values (saved_frame s) s ≫= K.
Proof.
  intros Hwf. unfold saved_frame.
  unfold push_values; fold push_values.
  destruct (push_value (pc s) s) as [s1 |] eqn:H1;
    [| rewrite !bind_Raise; reflexivity].
  rewrite !bind_Ok.
  destruct (push_value_regs _ _ _ Hwf H1) as [Hwf1 Hregs1].
  apply push_value_control in H1.
  replace (fl s1) with (fl s) by (unfold control in H1; congruence).
  destruct (push_value (fl s) s1) as [s2 |] eqn:H2;
    [| rewrite !bind_Raise; reflexivity].
  rewrite !bind_Ok.
  destruct (push_value_regs _ _ _ Hwf1 H2) as [Hwf2 Hregs2].
  rewrite (push_registers_values (range 7) (take 7 (reg s)) s2 Hwf2);
    [reflexivity |].
  destruct (regs_eight s Hwf) as (r0 & r1 & r2 & r3 & r4 & r5 & r6 & r7 & Hr).
  assert (Hlook : forall k : nat, k <> 7%nat -> reg s2 !! k = reg s !! k).
  { intros k Hk. rewrite Hregs2, Hregs1 by exact Hk. reflexivity. }
  rewrite Hr in *. simpl.
  repeat (constructor; [split; [lia | rewrite Hlook by lia; reflexivity] |]).
  constructor.
Qed.

Lemma truthy_bit (m i : Z) :
  0 <= i -> Py.truthy (VInt (Z.land m (Z.shiftl 1 i))) = Z.testbit m i.
Proof.
  intros Hi. simpl. rewrite Z.shiftl_1_l.
  destruct (Z.testbit m i) eqn:Hbit.
  - apply negb_true_iff, Z.eqb_neq. intros H0.
    assert (Hc : Z.testbit (Z.land m (2 ^ i)) i = true)
      by (rewrite Z.land_spec, Hbit, Z.pow2_bits_true by lia; reflexivity).
    rewrite H0, Z.bits_0 in Hc. discriminate.
  - apply negb_false_iff, Z.eqb_eq. apply Z.bits_inj'. intros n Hn.
    rewrite Z.land_spec, Z.bits_0, Z.pow2_bits_eqb by lia.
    destruct (Z.eqb_spec i n) as [-> | Hne];
      [rewrite Hbit; reflexivity | apply andb_false_r].
Qed.

Lemma scan_interrupts_skip (ks rest : list Z) (m : Z) (s : CPU) :
  (forall k, k ∈ ks -> 0 <= k /\ Z.testbit m k = false) ->
  scan_interrupts (ks ++ rest) (VInt m) s = scan_interrupts rest (VInt m) s.
Proof.
  induction ks as [| k ks IH]; intros Hks; [reflexivity |].
  destruct (Hks k) as [Hk Hbit]; [left |].
  simpl app. unfold scan_interrupts; fold scan_interrupts.
  unfold Py.and_, Py.int_op. rewrite bind_Ok.
  rewrite truthy_bit, Hbit by exact Hk.
  apply IH. intros k' Hk'. apply Hks. right. exact Hk'.
Qed.

Lemma range_split (n i : nat) :
  (i < n)%nat ->
  range n = range i ++ Z.of_nat i :: (Z.of_nat <$> seq (S i) (n - S i)).
Proof.
  intros Hi. unfold range.
  replace n with (i + S (n - S i))%nat at 1 by lia.
  rewrite seq_app, fmap_app. reflexivity.
Qed.

Lemma elem_of_range (n : nat) (k : Z) : k ∈ range n -> 0 <= k < Z.of_nat n.
Proof.
  unfold range. intros Hk. apply list_elem_of_fmap in Hk.
  destruct Hk as (j & -> & Hj). apply list_elem_of_In, in_seq in Hj. lia.
Qed.

(** The scan stops at the lowest line whose bit is set in the masked
    status, and runs through when none of the eight bits is set. *)
Lemma scan_interrupts_lowest (m i : Z) (s : CPU) :
  0 <= i < 8 -> Z.testbit m i = true ->
  (forall j, 0 <= j < i -> Z.testbit m j = false) ->
  scan_interrupts (range 8) (VInt m) s = service_interrupt i s.
Proof.
  intros Hi Hbit Hlow.
  rewrite (range_split 8 (Z.to_nat i)) by lia.
  rewrite scan_interrupts_skip.
  - rewrite Z2Nat.id by lia.
    unfold scan_interrupts; fold scan_interrupts.
    unfold Py.and_, Py.int_op. rewrite bind_Ok.
    rewrite truthy_bit, Hbit by lia. reflexivity.
  - intros k Hk. apply elem_of_range in Hk. split; [lia | apply Hlow; lia].
Qed.

Lemma scan_interrupts_none (m : Z) (s : CPU) :
  (forall j, 0 <= j < 8 -> Z.testbit m j = false) ->
  scan_interrupts (range 8) (VInt m) s = Ok s.
Proof.
  intros Hnone. rewrite <- (app_nil_r (range 8)).
  rewrite scan_interrupts_skip; [reflexivity |].
  intros k Hk. apply elem_of_range in Hk. split; [lia | apply Hnone; lia].
Qed.

Lemma length_saved_frame (s : CPU) : wf s -> length (saved_frame s) = 9%nat.
Proof.
  intros [Hr _]. unfold saved_frame. simpl. rewrite length_take, Hr.
  reflexivity.
Qed.

(** Interrupt entry on line [i], from a state whose IS register holds the
    integer [status] and whose stack has room for nine values. *)
Lemma service_interrupt_ok (s : CPU) (status sp i : Z) :
  wf s ->
  reg s !! 6%nat = Some (VInt status) ->
  reg s !! 7%nat = Some (VInt sp) ->
  -256 <= sp - 9 -> sp <= 256 -> 0 <= i < 8 ->
  let s0 := set_reg (<[6%nat := VInt (Z.clearbit status i)]> (reg s))
                    (set_ie 0 s) in
  exists s1 v,
    service_interrupt i s = Ok (set_pc v s1) /\
    wf s1 /\ same_but_lists s0 s1 /\
    reg s1 = <[7%nat := VInt (sp - 9)]> (reg s0) /\
    (forall (k : nat) w, saved_frame s0 !! k = Some w ->
                         ram s1 !! cell (sp - 1 - Z.of_nat k) = Some w) /\
    (forall c : nat,
        (forall k, 1 <= k <= 9 -> c <> cell (sp - k)) ->
        ram s1 !! c = ram s !! c) /\
    ram s1 !! cell (0xf8 + i) = Some v.
Proof.
  intros Hwf Hstatus Hsp Hlo Hhi Hi s0.
  assert (Hwf0 : wf s0).
  { split; simpl; [rewrite length_insert |]; apply Hwf. }
  assert (Hsp0 : reg s0 !! 7%nat = Some (VInt sp)).
  { simpl. rewrite list_lookup_insert_ne by lia. exact Hsp. }
  destruct (push_values_ok (saved_frame s0) s0 sp Hwf0 Hsp0)
    as (s1 & Hpush & Hwf1 & Hsame & Hreg & Hvals & Hrest);
    try (rewrite length_saved_frame by exact Hwf0; lia); try lia.
  rewrite length_saved_frame in * by exact Hwf0.
  destruct (ram_cell_is_Some s1 (0xf8 + i) Hwf1) as [v Hv]; [lia |].
  exists s1, v.
  split; [| split; [exact Hwf1 | split; [exact Hsame | split; [exact Hreg |
            split; [exact Hvals | split; [exact Hrest | exact Hv]]]]]].
  unfold service_interrupt.
  assert (Hwfe : wf (set_ie 0 s)) by exact Hwf.
  rewrite (reg_getitem (set_ie 0 s) IS (VInt status) Hwfe)
    by first [exact Hstatus | unfold IS; lia].
  rewrite bind_Ok. unfold Py.and_, Py.int_op. rewrite bind_Ok.
  rewrite (reg_write_in_range (set_ie 0 s) IS _ Hwfe) by (unfold IS; lia).
  rewrite bind_Ok. rewrite <- Z.ldiff_land.
  change (Z.ldiff status (Z.shiftl 1 i)) with (Z.clearbit status i).
  change (set_reg (<[slot IS := VInt (Z.clearbit status i)]>
                    (reg (set_ie 0 s))) (set_ie 0 s)) with s0.
  rewrite (service_pushes _ s0 Hwf0), Hpush, bind_Ok.
  rewrite (ram_read_in_range s1 (0xf8 + i) v Hwf1) by (lia || exact Hv).
  reflexivity.
Qed.

Lemma lowest_bit (m : Z) :
  (forall i, 0 <= i < 8 -> Z.testbit m i = false) \/
  (exists i, 0 <= i < 8 /\ Z.testbit m i = true /\
             forall j, 0 <= j < i -> Z.testbit m j = false).
Proof.
  assert (Hstep : forall n, 0 <= n ->
            (forall j, 0 <= j < n -> Z.testbit m j = false) ->
            (forall j, 0 <= j < n + 1 -> Z.testbit m j = false) \/
            Z.testbit m n = true).
  { intros n Hn Hbelow. destruct (Z.testbit m n) eqn:Hbit; [right; reflexivity |].
    left. intros j Hj. destruct (Z.eq_dec j n) as [-> | Hne];
      [exact Hbit | apply Hbelow; lia]. }
  assert (H0 : forall j, 0 <= j < 0 -> Z.testbit m j = false) by (intros; lia).
  destruct (Hstep 0 ltac:(lia) H0) as [H1 | Hb]; [| right; exists 0; auto with zarith].
  destruct (Hstep 1 ltac:(lia) H1) as [H2 | Hb]; [| right; exists 1; auto with zarith].
  destruct (Hstep 2 ltac:(lia) H2) as [H3 | Hb]; [| right; exists 2; auto with zarith].
  destruct (Hstep 3 ltac:(lia) H3) as [H4 | Hb]; [| right; exists 3; auto with zarith].
  destruct (Hstep 4 ltac:(lia) H4) as [H5 | Hb]; [| right; exists 4; auto with zarith].
  destruct (Hstep 5 ltac:(lia) H5) as [H6 | Hb]; [| right; exists 5; auto with zarith].
  destruct (Hstep 6 ltac:(lia) H6) as [H7 | Hb]; [| right; exists 6; auto with zarith].
  destruct (Hstep 7 ltac:(lia) H7) as [H8 | Hb]; [| right; exists 7; auto with zarith].
  left. exact H8.
Qed.

Lemma push_values_regs (vs : list value) :
  forall s s' : CPU,
    wf s -> push_values vs s = Ok s' ->
    forall k : nat, k <> 7%nat -> reg s' !! k = reg s !! k.
Proof.
  induction vs as [| v vs IH]; intros s s' Hwf H k Hk; simpl in H.
  - injection H as <-. reflexivity.
  - apply bind_ok in H. destruct H as (s1 & H1 & H).
    destruct (push_value_regs v s s1 Hwf H1) as [Hwf1 Hregs].
    rewrite (IH s1 s' Hwf1 H k Hk). apply Hregs, Hk.
Qed.

(** The IS register after a successful interrupt entry on line [i]. *)
Lemma service_interrupt_status (s s' : CPU) (status i : Z) :
  wf s -> reg s !! 6%nat = Some (VInt status) ->
  service_interrupt i s = Ok s' ->
  reg s' !! 6%nat = Some (VInt (Z.clearbit status i)).
Proof.
  intros Hwf Hstatus H. unfold service_interrupt in H.
  assert (Hwfe : wf (set_ie 0 s)) by exact Hwf.
  rewrite (reg_getitem (set_ie 0 s) IS (VInt status) Hwfe) in H
    by first [exact Hstatus | unfold IS; lia].
  rewrite bind_Ok in H. unfold Py.and_, Py.int_op in H. rewrite bind_Ok in H.
  rewrite (reg_write_in_range (set_ie 0 s) IS _ Hwfe) in H by (unfold IS; lia).
  rewrite bind_Ok in H. rewrite <- Z.ldiff_land in H.
  change (Z.ldiff status (Z.shiftl 1 i)) with (Z.clearbit status i) in H.
  match type of H with
  | context [push_value (pc ?st) ?st] => set (s0 := st) in H
  end.
  assert (Hwf0 : wf s0).
  { split; simpl; [rewrite length_insert |]; apply Hwf. }
  rewrite (service_pushes _ s0 Hwf0) in H.
  apply bind_ok in H. destruct H as (s1 & Hpush & H).
  apply bind_ok in H. destruct H as (v & _ & H). injection H as <-.
  simpl. rewrite (push_values_regs _ s0 s1 Hwf0 Hpush) by lia.
  subst s0. simpl. apply list_lookup_insert_eq. destruct Hwf as [-> _].
  change (slot IS) with 6%nat. lia.
Qed.

Lemma handle_interrupts_scan (s : CPU) (mask status : Z) :
  wf s -> ie s <> 0 ->
  reg s !! 5%nat = Some (VInt mask) ->
  reg s !! 6%nat = Some (VInt status) ->
  handle_interrupts s = scan_interrupts (range 8) (VInt (Z.land mask status)) s.
Proof.
  intros Hwf Hie Hmask Hstatus. unfold handle_interrupts.
  rewrite (proj2 (Z.eqb_neq (ie s) 0) Hie).
  rewrite (reg_getitem s IM (VInt mask) Hwf)
    by first [exact Hmask | unfold IM; lia].
  rewrite bind_Ok.
  rewrite (reg_getitem s IS (VInt status) Hwf)
    by first [exact Hstatus | unfold IS; lia].
  rewrite bind_Ok. reflexivity.
Qed.

(** C1 (as amended): with integers in IM, IS and SP, no interrupt is
    serviced when IE is 0 or when [IM & IS] has none of its bits 0 to 7 set;
    otherwise the line serviced is the lowest of the bits 0 to 7 set in
    [IM & IS], and, when the nine stack addresses below SP are valid, the
    entry sets IE to 0, clears that bit of IS, pushes PC, FL and registers 0
    to 6 in this order, and loads PC from address [0xF8 + i]; FL and the
    registers below IS keep their values and no other bit of IS is cleared.
    The IS bit of a line whose IM bit is 0 is never cleared. *)
Theorem interrupt_dispatch (s : CPU) (mask status sp : Z) :
  wf s ->
  reg s !! 5%nat = Some (VInt mask) ->
  reg s !! 6%nat = Some (VInt status) ->
  reg s !! 7%nat = Some (VInt sp) ->
  let masked := Z.land mask status in
  (ie s = 0 -> handle_interrupts s = Ok s) /\
  ((forall i, 0 <= i < 8 -> Z.testbit masked i = false) ->
   handle_interrupts s = Ok s) /\
  (forall i,
      ie s <> 0 -> 0 <= i < 8 -> Z.testbit masked i = true ->
      (forall j, 0 <= j < i -> Z.testbit masked j = false) ->
      -256 <= sp - 9 -> sp <= 256 ->
      exists s',
        handle_interrupts s = Ok s' /\
        ie s' = 0 /\
        reg s' !! 6%nat = Some (VInt (Z.clearbit status i)) /\
        reg s' !! 7%nat = Some (VInt (sp - 9)) /\
        (forall k : nat, (k < 6)%nat -> reg s' !! k = reg s !! k) /\
        ram s' !! cell (sp - 1) = Some (pc s) /\
        ram s' !! cell (sp - 2) = Some (fl s) /\
        (forall k : nat, (k < 7)%nat ->
            ram s' !! cell (sp - 3 - Z.of_nat k) = reg s' !! k) /\
        ram s' !! cell (0xf8 + i) = Some (pc s') /\
        fl s' = fl s /\ halted s' = halted s) /\
  (forall i s' status',
      0 <= i < 8 -> Z.testbit mask i = false ->
      handle_interrupts s = Ok s' ->
      reg s' !! 6%nat = Some (VInt status') ->
      Z.testbit status' i = Z.testbit status i).
Proof.
  intros Hwf Hmask Hstatus Hsp masked.
  split; [| split; [| split]].
  - intros Hie. unfold handle_interrupts. rewrite Hie. reflexivity.
  - intros Hnone. destruct (Z.eq_dec (ie s) 0) as [Hie | Hie].
    { unfold handle_interrupts. rewrite Hie. reflexivity. }
    rewrite (handle_interrupts_scan s mask status) by assumption.
    apply scan_interrupts_none, Hnone.
  - intros i Hie Hi Hbit Hlow Hlo Hhi.
    rewrite (handle_interrupts_scan s mask status) by assumption.
    rewrite (scan_interrupts_lowest _ i) by assumption.
    destruct (service_interrupt_ok s status sp i Hwf Hstatus Hsp Hlo Hhi Hi)
      as (s1 & v & Hrun & Hwf1 & Hsame & Hreg & Hvals & Hrest & Hv).
    exists (set_pc v s1). split; [exact Hrun |].
    assert (Hlen : length (reg s) = 8%nat) by apply Hwf.
    assert (Hregs : forall k : nat, (k < 7)%nat ->
              reg s1 !! k =
              (<[6%nat := VInt (Z.clearbit status i)]> (reg s)) !! k).
    { intros k Hk. rewrite Hreg. simpl.
      apply list_lookup_insert_ne. lia. }
    unfold same_but_lists in Hsame.
    repeat split.
    + rewrite Hsame. reflexivity.
    + simpl. rewrite Hregs by lia. apply list_lookup_insert_eq. lia.
    + simpl. rewrite Hreg. apply list_lookup_insert_eq. simpl.
      rewrite length_insert. lia.
    + intros k Hk. simpl. rewrite Hregs by lia.
      apply list_lookup_insert_ne. lia.
    + simpl. replace (sp - 1) with (sp - 1 - Z.of_nat 0) by lia.
      apply Hvals. reflexivity.
    + simpl. replace (sp - 2) with (sp - 1 - Z.of_nat 1) by lia.
      apply Hvals. reflexivity.
    + intros k Hk. simpl. rewrite Hregs by lia.
      replace (sp - 3 - Z.of_nat k) with (sp - 1 - Z.of_nat (S (S k))) by lia.
      destruct ((<[6%nat := VInt (Z.clearbit status i)]> (reg s)) !! k)
        as [w |] eqn:Hw.
      * apply Hvals. simpl. rewrite lookup_take_lt by exact Hk. exact Hw.
      * apply lookup_ge_None in Hw. rewrite length_insert in Hw. lia.
    + simpl. exact Hv.
    + rewrite Hsame. reflexivity.
    + rewrite Hsame. reflexivity.
  - intros i s' status' Hi Hbit Hrun Hstatus'.
    destruct (Z.eq_dec (ie s) 0) as [Hie | Hie].
    { unfold handle_interrupts in Hrun. rewrite Hie in Hrun.
      injection Hrun as <-. congruence. }
    rewrite (handle_interrupts_scan s mask status) in Hrun by assumption.
    destruct (lowest_bit masked) as [Hnone | (j & Hj & Hjbit & Hlow)].
    + rewrite scan_interrupts_none in Hrun by exact Hnone.
      injection Hrun as <-. congruence.
    + rewrite (scan_interrupts_lowest _ j) in Hrun by assumption.
      apply (service_interrupt_status s s' status j Hwf Hstatus) in Hrun.
      rewrite Hrun in Hstatus'. injection Hstatus' as <-.
      apply Z.clearbit_neq. intros ->.
      subst masked. rewrite Z.land_spec, Hbit in Hjbit. discriminate.
Qed.

Lemma interrupt_dispatch_witness :
  let s := set_reg [VInt 10; VInt 11; VInt 12; VInt 13;
                    VInt 14; VInt 1; VInt 1; VInt 0xf4] CPU_init in
  exists s',
    handle_interrupts s = Ok s' /\
    ie s' = 0 /\
    reg s' !! 6%nat = Some (VInt (Z.clearbit 1 0)) /\
    reg s' !! 7%nat = Some (VInt (0xf4 - 9)) /\
    (forall k : nat, (k < 6)%nat -> reg s' !! k = reg s !! k) /\
    ram s' !! cell (0xf4 - 1) = Some (pc s) /\
    ram s' !! cell (0xf4 - 2) = Some (fl s) /\
    (forall k : nat, (k < 7)%nat ->
        ram s' !! cell (0xf4 - 3 - Z.of_nat k) = reg s' !! k) /\
    ram s' !! cell (0xf8 + 0) = Some (pc s') /\
    fl s' = fl s /\ halted s' = halted s.
Proof.
  intros s.
  destruct (interrupt_dispatch s 1 1 0xf4) as (_ & _ & Hserviced & _).
  - split; reflexivity.
  - reflexivity.
  - reflexivity.
  - reflexivity.
  - apply (Hserviced 0).
    + discriminate.
    + lia.
    + reflexivity.
    + intros j Hj. lia.
    + lia.
    + lia.
Defined.

(** C1 fails as stated: with 256 in both IM and IS and IE enabled,
    [IM & IS] is 256, which is not zero, and no interrupt is serviced.  The
    state is reached by a program: after [LDI R5,255; INC R5; LDI R6,255;
    INC R6; HLT] has run, IS still holds 256, IE is still 1 and nothing was
    pushed. *)
Lemma interrupt_dispatch_counterexample :
  let s := set_reg [VInt 0; VInt 0; VInt 0; VInt 0;
                    VInt 0; VInt 256; VInt 256; VInt 0xf4] CPU_init in
  (ie s = 1 /\
   Py.and_ (VInt 256) (VInt 256) = Ok (VInt 256) /\ 256 <> 0 /\
   handle_interrupts s = Ok s) /\
  (exists s0 s',
      load [LDI; 5; 255; INC; 5; LDI; 6; 255; INC; 6; HLT] CPU_init = Ok s0 /\
      run (replicate 5 (0, 0)) s0 = Some (Ok s') /\
      ie s' = 1 /\ reg s' = reg s).
Proof.
  cbv zeta. split.
  - split; [reflexivity |]. split; [reflexivity |]. split; [lia |].
    vm_compute. reflexivity.
  - eexists. eexists. split; [vm_compute; reflexivity |].
    split; [vm_compute; reflexivity |]. split; reflexivity.
Qed.

Lemma reverse_range_7 : reverse (range 7) = [6; 5; 4; 3; 2; 1; 0].
Proof. reflexivity. Qed.

(** Return from interrupt, from a state whose stack pointer is the integer
    [sp] with nine valid addresses from [sp] upwards. *)
Lemma op_iret_ok (s : CPU) (sp : Z) (a b : value) :
  wf s -> reg s !! 7%nat = Some (VInt sp) ->
  -256 <= sp -> sp + 9 <= 256 ->
  exists s',
    op_iret a b s = Ok s' /\
    (forall k : nat, (k < 7)%nat ->
        reg s' !! k = ram s !! cell (sp + 6 - Z.of_nat k)) /\
    Some (fl s') = ram s !! cell (sp + 7) /\
    Some (pc s') = ram s !! cell (sp + 8) /\
    reg s' !! 7%nat = Some (VInt (sp + 9)) /\
    ie s' = 1.
Proof.
  intros Hwf Hsp Hlo Hhi. unfold op_iret. rewrite reverse_range_7.
  destruct (pop_registers_ok [6; 5; 4; 3; 2; 1; 0] s sp Hwf Hsp)
    as (s1 & Hpop & Hwf1 & Hsame & H7 & Hvals & _).
  { repeat (constructor; [lia |]). constructor. }
  { apply (bool_decide_unpack _). vm_compute. exact I. }
  { lia. }
  { simpl. lia. }
  simpl length in H7.
  assert (Hram1 : ram s1 = ram s) by (rewrite Hsame; reflexivity).
  destruct (ram_cell_is_Some s (sp + 7) Hwf) as [f Hf]; [lia |].
  destruct (ram_cell_is_Some s (sp + 8) Hwf) as [p Hp]; [lia |].
  rewrite Hpop, bind_Ok.
  rewrite (pop_value_ok s1 (sp + 7) f) by (rewrite ?Hram1; assumption || lia).
  rewrite bind_Ok. cbv beta iota.
  rewrite (pop_value_ok (set_fl f (popped (sp + 7) s1)) (sp + 7 + 1) p).
  - rewrite bind_Ok. cbv beta iota. eexists. split; [reflexivity |].
    simpl. repeat split.
    + intros k Hk.
      rewrite !list_lookup_insert_ne by lia.
      assert (Hj : [6; 5; 4; 3; 2; 1; 0] !! (6 - k)%nat = Some (Z.of_nat k)).
      { do 7 (destruct k as [| k]; [vm_compute; reflexivity |]). lia. }
      replace (sp + 6 - Z.of_nat k) with (sp + Z.of_nat (6 - k)) by lia.
      rewrite <- (Hvals _ _ Hj). rewrite Nat2Z.id. reflexivity.
    + symmetry. exact Hf.
    + symmetry. exact Hp.
    + rewrite list_insert_insert_eq.
      replace (sp + 7 + 1 + 1) with (sp + 9) by lia.
      apply list_lookup_insert_eq. destruct Hwf1 as [-> _]. lia.
  - split; simpl; [rewrite length_insert |]; apply Hwf1.
  - simpl. apply list_lookup_insert_eq. destruct Hwf1 as [-> _]. lia.
  - lia.
  - simpl. rewrite Hram1. replace (sp + 7 + 1) with (sp + 8) by lia. exact Hp.
Qed.

(** C2 (as amended): after an interrupt entry on line [i] and a return from
    interrupt that finds SP and the nine saved cells as the entry left them,
    PC, FL, registers 0 to 5 and SP have their values from before the
    interrupt and IE is 1; register 6 (IS) has its value from before the
    interrupt with bit [i] cleared, since the entry clears that bit before it
    saves the registers. *)
Theorem interrupt_round_trip (s : CPU) (mask status sp i : Z) :
  wf s ->
  reg s !! 5%nat = Some (VInt mask) ->
  reg s !! 6%nat = Some (VInt status) ->
  reg s !! 7%nat = Some (VInt sp) ->
  ie s <> 0 -> 0 <= i < 8 ->
  Z.testbit (Z.land mask status) i = true ->
  (forall j, 0 <= j < i -> Z.testbit (Z.land mask status) j = false) ->
  -256 <= sp - 9 -> sp <= 256 ->
  exists s1,
    handle_interrupts s = Ok s1 /\
    forall (s2 : CPU) (a b : value),
      wf s2 ->
      reg s2 !! 7%nat = reg s1 !! 7%nat ->
      (forall k, 1 <= k <= 9 -> ram s2 !! cell (sp - k) = ram s1 !! cell (sp - k)) ->
      exists s3,
        op_iret a b s2 = Ok s3 /\
        pc s3 = pc s /\
        fl s3 = fl s /\
        (forall k : nat, (k < 6)%nat -> reg s3 !! k = reg s !! k) /\
        reg s3 !! 6%nat = Some (VInt (Z.clearbit status i)) /\
        reg s3 !! 7%nat = Some (VInt sp) /\
        ie s3 = 1.
Proof.
  intros Hwf Hmask Hstatus Hsp Hie Hi Hbit Hlow Hlo Hhi.
  rewrite (handle_interrupts_scan s mask status) by assumption.
  rewrite (scan_interrupts_lowest _ i) by assumption.
  destruct (service_interrupt_ok s status sp i Hwf Hstatus Hsp Hlo Hhi Hi)
    as (s1 & v & Hrun & Hwf1 & Hsame & Hreg & Hvals & Hrest & Hv).
  exists (set_pc v s1). split; [exact Hrun |].
  intros s2 a b Hwf2 Hsp2 Hcells. simpl in Hsp2, Hcells.
  assert (Hlen : length (reg s) = 8%nat) by apply Hwf.
  rewrite Hreg in Hsp2. simpl in Hsp2.
  rewrite list_lookup_insert_eq in Hsp2 by (rewrite length_insert; lia).
  destruct (op_iret_ok s2 (sp - 9) a b Hwf2 Hsp2)
    as (s3 & Hiret & Hregs3 & Hfl3 & Hpc3 & Hsp3 & Hie3); try lia.
  exists s3. split; [exact Hiret |].
  assert (Hsaved : forall (k : nat) w,
            (k < 7)%nat ->
            (<[6%nat := VInt (Z.clearbit status i)]> (reg s)) !! k = Some w ->
            reg s3 !! k = Some w).
  { intros k w Hk Hw. rewrite Hregs3 by exact Hk.
    replace (sp - 9 + 6 - Z.of_nat k) with (sp - (3 + Z.of_nat k)) by lia.
    rewrite Hcells by lia.
    replace (sp - (3 + Z.of_nat k)) with (sp - 1 - Z.of_nat (S (S k))) by lia.
    apply Hvals. simpl. rewrite lookup_take_lt by exact Hk. exact Hw. }
  repeat split.
  - assert (H : Some (pc s3) = Some (pc s)); [| congruence].
    rewrite Hpc3. replace (sp - 9 + 8) with (sp - 1) by lia.
    rewrite Hcells by lia.
    replace (sp - 1) with (sp - 1 - Z.of_nat 0) by lia.
    apply Hvals. reflexivity.
  - assert (H : Some (fl s3) = Some (fl s)); [| congruence].
    rewrite Hfl3. replace (sp - 9 + 7) with (sp - 2) by lia.
    rewrite Hcells by lia.
    replace (sp - 2) with (sp - 1 - Z.of_nat 1) by lia.
    apply Hvals. reflexivity.
  - intros k Hk.
    destruct (reg s !! k) as [w |] eqn:Hw.
    + apply Hsaved; [lia |]. rewrite list_lookup_insert_ne by lia. exact Hw.
    + apply lookup_ge_None in Hw. lia.
  - apply Hsaved; [lia |]. apply list_lookup_insert_eq. lia.
  - rewrite Hsp3. f_equal. f_equal. lia.
  - exact Hie3.
Qed.

Lemma interrupt_round_trip_witness :
  let s := set_reg [VInt 10; VInt 11; VInt 12; VInt 13;
                    VInt 14; VInt 1; VInt 1; VInt 0xf4]
                   (set_fl (VInt 4) (set_pc (VInt 33) CPU_init)) in
  exists s1,
    handle_interrupts s = Ok s1 /\
    forall (s2 : CPU) (a b : value),
      wf s2 ->
      reg s2 !! 7%nat = reg s1 !! 7%nat ->
      (forall k, 1 <= k <= 9 ->
                 ram s2 !! cell (0xf4 - k) = ram s1 !! cell (0xf4 - k)) ->
      exists s3,
        op_iret a b s2 = Ok s3 /\
        pc s3 = pc s /\
        fl s3 = fl s /\
        (forall k : nat, (k < 6)%nat -> reg s3 !! k = reg s !! k) /\
        reg s3 !! 6%nat = Some (VInt (Z.clearbit 1 0)) /\
        reg s3 !! 7%nat = Some (VInt 0xf4) /\
        ie s3 = 1.
Proof.
  intros s.
  apply (interrupt_round_trip s 1 1 0xf4 0).
  - split; reflexivity.
  - reflexivity.
  - reflexivity.
  - reflexivity.
  - discriminate.
  - lia.
  - reflexivity.
  - intros j Hj. lia.
  - lia.
  - lia.
Defined.

(** C2 fails as stated for register 6: the timer line is pending and
    enabled (IM = 1, IS = 1); after the interrupt entry and the return from
    interrupt, IS holds 0, not its value 1 from before the interrupt. *)
Lemma interrupt_round_trip_counterexample :
  let s := set_reg [VInt 10; VInt 11; VInt 12; VInt 13;
                    VInt 14; VInt 1; VInt 1; VInt 0xf4]
                   (set_fl (VInt 4) (set_pc (VInt 33) CPU_init)) in
  exists s1 s3,
    handle_interrupts s = Ok s1 /\
    ie s1 = 0 /\ reg s1 !! 7%nat = Some (VInt (0xf4 - 9)) /\
    op_iret (VInt 0) (VInt 0) s1 = Ok s3 /\
    reg s !! 6%nat = Some (VInt 1) /\
    reg s3 !! 6%nat = Some (VInt 0) /\
    pc s3 = pc s /\ fl s3 = fl s /\ ie s3 = 1.
Proof.
  cbv zeta. eexists. eexists.
  split; [vm_compute; reflexivity |].
  split; [reflexivity |]. split; [reflexivity |].
  split; [vm_compute; reflexivity |].
  repeat split.
Qed.

(** ** Subroutine call and return *)

(** C10: CALL pushes [PC + 2], the address of the instruction after the
    two-byte CALL, and loads PC from the operand register; a RET that finds
    SP and the top of the stack as CALL left them loads PC with that address
    and leaves SP at its value from before the CALL. *)
Theorem call_ret_round_trip (s : CPU) (p sp a : Z) (b : value) :
  wf s -> pc s = VInt p ->
  reg s !! 7%nat = Some (VInt sp) ->
  -256 <= sp - 1 < 256 -> -8 <= a < 8 ->
  exists s1,
    op_call (VInt a) b s = Ok s1 /\
    reg s1 !! 7%nat = Some (VInt (sp - 1)) /\
    ram s1 !! cell (sp - 1) = Some (VInt (p + 2)) /\
    reg s1 !! slot a = Some (pc s1) /\
    (slot a <> 7%nat -> reg s !! slot a = Some (pc s1)) /\
    forall (s2 : CPU) (a' b' : value),
      wf s2 ->
      reg s2 !! 7%nat = reg s1 !! 7%nat ->
      ram s2 !! cell (sp - 1) = ram s1 !! cell (sp - 1) ->
      exists s3,
        op_ret a' b' s2 = Ok s3 /\
        pc s3 = VInt (p + 2) /\
        reg s3 !! 7%nat = Some (VInt sp).
Proof.
  intros Hwf Hpc Hsp Hrange Ha.
  assert (Hlen : length (reg s) = 8%nat) by apply Hwf.
  assert (Hwf1 : wf (pushed sp (VInt (p + 2)) s)) by (apply wf_pushed, Hwf).
  assert (Hslot : (slot a < 8)%nat) by (apply (at_index_lt 8); lia).
  destruct (lookup_lt_is_Some_2 (reg (pushed sp (VInt (p + 2)) s)) (slot a))
    as [target Htarget].
  { simpl. rewrite length_insert. lia. }
  assert (Htop : ram (pushed sp (VInt (p + 2)) s) !! cell (sp - 1)
                 = Some (VInt (p + 2))).
  { simpl. apply list_lookup_insert_eq. destruct Hwf as [_ ->].
    apply (at_index_lt 256). lia. }
  assert (Hsp1 : reg (pushed sp (VInt (p + 2)) s) !! 7%nat
                 = Some (VInt (sp - 1))).
  { simpl. apply list_lookup_insert_eq. lia. }
  exists (set_pc target (pushed sp (VInt (p + 2)) s)).
  split; [| split; [| split; [| split; [| split]]]].
  - unfold op_call. rewrite Hpc. unfold Py.add. rewrite bind_Ok.
    rewrite (push_value_ok s sp) by assumption. rewrite bind_Ok.
    rewrite (reg_getitem _ a target Hwf1) by assumption. reflexivity.
  - exact Hsp1.
  - exact Htop.
  - exact Htarget.
  - intros Hne. simpl in Htarget.
    rewrite list_lookup_insert_ne in Htarget by congruence. exact Htarget.
  - intros s2 a' b' Hwf2 Hsp2 Htop2.
    change (reg (set_pc target (pushed sp (VInt (p + 2)) s)))
      with (reg (pushed sp (VInt (p + 2)) s)) in Hsp2.
    change (ram (set_pc target (pushed sp (VInt (p + 2)) s)))
      with (ram (pushed sp (VInt (p + 2)) s)) in Htop2.
    rewrite Hsp1 in Hsp2. rewrite Htop in Htop2.
    exists (set_pc (VInt (p + 2)) (popped (sp - 1) s2)).
    split; [| split].
    + unfold op_ret.
      rewrite (pop_value_ok s2 (sp - 1) (VInt (p + 2))) by assumption.
      reflexivity.
    + reflexivity.
    + simpl. replace (sp - 1 + 1) with sp by lia.
      apply list_lookup_insert_eq. destruct Hwf2 as [-> _]. lia.
Qed.

Lemma call_ret_round_trip_witness :
  let s := set_reg [VInt 40; VInt 0; VInt 0; VInt 0;
                    VInt 0; VInt 0; VInt 0; VInt 0xf4]
                   (set_pc (VInt 12) CPU_init) in
  exists s1,
    op_call (VInt 0) (VInt 0) s = Ok s1 /\
    reg s1 !! 7%nat = Some (VInt (0xf4 - 1)) /\
    ram s1 !! cell (0xf4 - 1) = Some (VInt (12 + 2)) /\
    reg s1 !! slot 0 = Some (pc s1) /\
    (slot 0 <> 7%nat -> reg s !! slot 0 = Some (pc s1)) /\
    forall (s2 : CPU) (a' b' : value),
      wf s2 ->
      reg s2 !! 7%nat = reg s1 !! 7%nat ->
      ram s2 !! cell (0xf4 - 1) = ram s1 !! cell (0xf4 - 1) ->
      exists s3,
        op_ret a' b' s2 = Ok s3 /\
        pc s3 = VInt (12 + 2) /\
        reg s3 !! 7%nat = Some (VInt 0xf4).
Proof.
  intros s.
  apply (call_ret_round_trip s 12 0xf4 0 (VInt 0)).
  - split; reflexivity.
  - reflexivity.
  - reflexivity.
  - lia.
  - lia.
Defined.

(** ** The fetch *)

Lemma execute_fetch (s : CPU) :
  fetch s = Raise IndexError -> execute s = Raise IndexError.
Proof.
  unfold fetch, execute.
  repeat lazymatch goal with
    | |- ?m ≫= _ = Raise IndexError -> ?m ≫= _ = Raise IndexError =>
        destruct m as [? | ?];
        [rewrite !bind_Ok
        | rewrite !bind_Raise; intros H; injection H as ->; reflexivity]
    end.
  intros H. discriminate H.
Qed.

Lemma fetch_int (s : CPU) (p : Z) :
  pc s = VInt p ->
  fetch s =
  ir ← ram_read (VInt p) s;
  operand_a ← ram_read (VInt (p + 1)) s;
  operand_b ← ram_read (VInt (p + 2)) s;
  Ok (ir, operand_a, operand_b).
Proof. intros Hpc. unfold fetch. rewrite Hpc. reflexivity. Qed.

(** C9 (as amended): every cycle reads memory at PC, [PC + 1] and [PC + 2]
    before anything is decoded or dispatched.  For an integer PC with
    [-256 <= PC <= 253] the three reads succeed (a negative subscript counts
    from the end of the 256-cell memory); for [PC >= 254], and for
    [PC < -256], a read raises [IndexError] and so does the cycle, whatever
    the memory holds. *)
Theorem fetch_reads_three_bytes (s : CPU) (p : Z) :
  wf s -> pc s = VInt p ->
  (-256 <= p <= 253 ->
   exists ir operand_a operand_b,
     ram s !! cell p = Some ir /\
     ram s !! cell (p + 1) = Some operand_a /\
     ram s !! cell (p + 2) = Some operand_b /\
     fetch s = Ok (ir, operand_a, operand_b)) /\
  (254 <= p -> fetch s = Raise IndexError /\ execute s = Raise IndexError) /\
  (p < -256 -> fetch s = Raise IndexError /\ execute s = Raise IndexError).
Proof.
  intros Hwf Hpc.
  assert (Hlen : length (ram s) = 256%nat) by apply Hwf.
  split; [| split].
  - intros Hp.
    destruct (ram_cell_is_Some s p Hwf) as [ir Hir]; [lia |].
    destruct (ram_cell_is_Some s (p + 1) Hwf) as [a Ha]; [lia |].
    destruct (ram_cell_is_Some s (p + 2) Hwf) as [b Hb]; [lia |].
    exists ir, a, b. repeat split; try assumption.
    rewrite (fetch_int s p Hpc).
    rewrite (ram_read_in_range s p ir), bind_Ok by (assumption || lia).
    rewrite (ram_read_in_range s (p + 1) a), bind_Ok by (assumption || lia).
    rewrite (ram_read_in_range s (p + 2) b), bind_Ok by (assumption || lia).
    reflexivity.
  - intros Hp.
    assert (Hfetch : fetch s = Raise IndexError); [| auto using execute_fetch].
    rewrite (fetch_int s p Hpc). unfold ram_read.
    destruct (Z_lt_le_dec p 256) as [Hlt | Hge].
    + destruct (ram_cell_is_Some s p Hwf) as [ir Hir]; [lia |].
      rewrite (getitem_in_range (ram s) p ir), bind_Ok
        by (rewrite Hlen; (lia || exact Hir)).
      destruct (Z_lt_le_dec p 255) as [Hlt' | Hge'].
      * destruct (ram_cell_is_Some s (p + 1) Hwf) as [a Ha]; [lia |].
        rewrite (getitem_in_range (ram s) (p + 1) a), bind_Ok
          by (rewrite Hlen; (lia || exact Ha)).
        rewrite (getitem_out_of_range (ram s) (p + 2)) by (rewrite Hlen; lia).
        reflexivity.
      * rewrite (getitem_out_of_range (ram s) (p + 1)) by (rewrite Hlen; lia).
        reflexivity.
    + rewrite (getitem_out_of_range (ram s) p) by (rewrite Hlen; lia).
      reflexivity.
  - intros Hp.
    assert (Hfetch : fetch s = Raise IndexError); [| auto using execute_fetch].
    rewrite (fetch_int s p Hpc). unfold ram_read.
    rewrite (getitem_out_of_range (ram s) p) by (rewrite Hlen; lia).
    reflexivity.
Qed.

Lemma fetch_reads_three_bytes_witness :
  (-256 <= 253 <= 253 ->
   exists ir operand_a operand_b,
     ram (set_pc (VInt 253) CPU_init) !! cell 253 = Some ir /\
     ram (set_pc (VInt 253) CPU_init) !! cell (253 + 1) = Some operand_a /\
     ram (set_pc (VInt 253) CPU_init) !! cell (253 + 2) = Some operand_b /\
     fetch (set_pc (VInt 253) CPU_init) = Ok (ir, operand_a, operand_b)) /\
  (254 <= 253 ->
   fetch (set_pc (VInt 253) CPU_init) = Raise IndexError /\
   execute (set_pc (VInt 253) CPU_init) = Raise IndexError) /\
  (253 < -256 ->
   fetch (set_pc (VInt 253) CPU_init) = Raise IndexError /\
   execute (set_pc (VInt 253) CPU_init) = Raise IndexError).
Proof.
  apply (fetch_reads_three_bytes (set_pc (VInt 253) CPU_init) 253).
  - split; reflexivity.
  - reflexivity.
Defined.

(** C9 fails as stated: a PC of -257 is at most 253, yet the read at PC is
    out of range; and with a PC of -1 the three reads succeed and address the
    last cell of memory and then cells 0 and 1.  A PC of -257 is reached by a
    program that jumps to a register it has decremented below zero. *)
Lemma fetch_reads_three_bytes_counterexample :
  (-257 <= 253 /\
   Py.getitem (ram (set_pc (VInt (-257)) CPU_init)) (VInt (-257))
   = Raise IndexError /\
   fetch (set_pc (VInt (-257)) CPU_init) = Raise IndexError) /\
  (let s := set_ram (<[255%nat := VInt 7]> (<[0%nat := VInt 8]>
                       (<[1%nat := VInt 9]> (ram CPU_init))))
                    (set_pc (VInt (-1)) CPU_init) in
   fetch s = Ok (VInt 7, VInt 8, VInt 9)) /\
  (exists s0,
      load [LDI; 0; 0; LDI; 1; 257; SUB; 0; 1; JMP; 0] CPU_init = Ok s0 /\
      run (replicate 5 (0, 0)) s0 = Some (Raise IndexError)).
Proof.
  split; [| split].
  - split; [lia |]. split; vm_compute; reflexivity.
  - vm_compute. reflexivity.
  - eexists. split; [vm_compute; reflexivity |]. vm_compute. reflexivity.
Qed.

(** ** Decoding and dispatch *)

Lemma set_pc_flag_bit (opcode : Z) :
  match Z.land (Z.shiftr opcode 4) 1 with 1 => true | _ => false end
  = Z.testbit opcode 4.
Proof.
  change 1 with (Z.ones 1) at 1. rewrite Z.land_ones by lia.
  change (2 ^ 1) with 2. rewrite <- Z.bit0_mod.
  rewrite Z.shiftr_spec by lia. change (0 + 4) with 4.
  destruct (Z.testbit opcode 4); reflexivity.
Qed.

(** The loop body once the three reads have returned the integer [opcode]
    and the operands: decode, trace, dispatch and advance. *)
Lemma execute_fetched (s : CPU) (p opcode : Z) (operand_a operand_b : value) :
  pc s = VInt p ->
  fetch s = Ok (VInt opcode, operand_a, operand_b) ->
  execute s =
  let s1 := set_inst_set_pc (Z.testbit opcode 4) s in
  _ ← trace (VInt opcode) operand_a operand_b s1;
  match branch_table opcode with
  | Some op =>
      s2 ← op operand_a operand_b s1;
      if inst_set_pc s2 then Ok s2
      else p' ← Py.add (pc s2) (VInt (inst_size opcode)); Ok (set_pc p' s2)
  | None => Raise (Exception (invalid_instruction opcode p))
  end.
Proof.
  intros Hpc Hfetch. unfold fetch in Hfetch. unfold execute.
  apply bind_ok in Hfetch. destruct Hfetch as (ir & H0 & Hfetch).
  apply bind_ok in Hfetch. destruct Hfetch as (pc1 & H1 & Hfetch).
  apply bind_ok in Hfetch. destruct Hfetch as (a & H2 & Hfetch).
  apply bind_ok in Hfetch. destruct Hfetch as (pc2 & H3 & Hfetch).
  apply bind_ok in Hfetch. destruct Hfetch as (b & H4 & Hfetch).
  injection Hfetch as -> -> ->.
  rewrite H0, bind_Ok, H1, bind_Ok, H2, bind_Ok, H3, bind_Ok, H4, bind_Ok.
  change (Py.rshift (VInt opcode) (VInt 6)) with (Ok (VInt (Z.shiftr opcode 6))).
  rewrite bind_Ok.
  change (Py.and_ (VInt (Z.shiftr opcode 6)) (VInt 3))
    with (Ok (VInt (Z.land (Z.shiftr opcode 6) 3))).
  rewrite bind_Ok.
  change (Py.add (VInt (Z.land (Z.shiftr opcode 6) 3)) (VInt 1))
    with (Ok (VInt (inst_size opcode))).
  rewrite bind_Ok.
  change (Py.rshift (VInt opcode) (VInt 4)) with (Ok (VInt (Z.shiftr opcode 4))).
  rewrite bind_Ok.
  change (Py.and_ (VInt (Z.shiftr opcode 4)) (VInt 1))
    with (Ok (VInt (Z.land (Z.shiftr opcode 4) 1))).
  rewrite bind_Ok. rewrite set_pc_flag_bit.
  cbv zeta.
  change (pc (set_inst_set_pc (Z.testbit opcode 4) s)) with (pc s).
  rewrite Hpc. reflexivity.
Qed.

(** C7 (as amended): when the three reads of the fetch return an integer
    opcode that is not a key of the branch table, and the trace dump of the
    cycle succeeds, the cycle raises an exception whose message holds the
    opcode in decimal and in hexadecimal and the address in PC in
    hexadecimal; no handler has run, and [run] ends with that exception. *)
Theorem unknown_opcode_is_fatal
    (s : CPU) (p opcode : Z) (operand_a operand_b : value) :
  pc s = VInt p ->
  fetch s = Ok (VInt opcode, operand_a, operand_b) ->
  trace (VInt opcode) operand_a operand_b s = Ok () ->
  branch_table opcode = None ->
  execute s = Raise (Exception (invalid_instruction opcode p)) /\
  invalid_instruction opcode p
  = ("Invalid Instruction IR: " ++ Py.str opcode ++ " HEX: " ++ Py.hex opcode
       ++ " at address " ++ Py.hex p)%string /\
  forall (s0 s' : CPU) (t0 t1 : Z) (clock : list (Z * Z)),
    halted s0 = false ->
    check_timer_interrupt t0 t1 s0 = Ok s' ->
    handle_interrupts s' = Ok s ->
    run ((t0, t1) :: clock) s0
    = Some (Raise (Exception (invalid_instruction opcode p))).
Proof.
  intros Hpc Hfetch Htrace Htable.
  assert (Hexec : execute s = Raise (Exception (invalid_instruction opcode p))).
  { rewrite (execute_fetched s p opcode operand_a operand_b Hpc Hfetch).
    cbv zeta.
    change (trace (VInt opcode) operand_a operand_b
              (set_inst_set_pc (Z.testbit opcode 4) s))
      with (trace (VInt opcode) operand_a operand_b s).
    rewrite Htrace, bind_Ok, Htable. reflexivity. }
  split; [exact Hexec |]. split; [reflexivity |].
  intros s0 s' t0 t1 clock Hrun Htimer Hint.
  unfold run. rewrite Hrun. unfold cycle.
  rewrite Htimer, bind_Ok, Hint, bind_Ok, Hexec. reflexivity.
Qed.

Lemma unknown_opcode_is_fatal_witness :
  execute (set_pc (VInt 200) CPU_init)
  = Raise (Exception (invalid_instruction 0 200)) /\
  invalid_instruction 0 200
  = ("Invalid Instruction IR: " ++ Py.str 0 ++ " HEX: " ++ Py.hex 0
       ++ " at address " ++ Py.hex 200)%string /\
  forall (s0 s' : CPU) (t0 t1 : Z) (clock : list (Z * Z)),
    halted s0 = false ->
    check_timer_interrupt t0 t1 s0 = Ok s' ->
    handle_interrupts s' = Ok (set_pc (VInt 200) CPU_init) ->
    run ((t0, t1) :: clock) s0
    = Some (Raise (Exception (invalid_instruction 0 200))).
Proof.
  apply (unknown_opcode_is_fatal (set_pc (VInt 200) CPU_init) 200 0
           (VInt 0) (VInt 0)).
  - reflexivity.
  - vm_compute. reflexivity.
  - vm_compute. reflexivity.
  - reflexivity.
Defined.

(** C7 fails as stated: with PC at 254 the opcode byte is read, it is 0,
    which is not in the branch table, and the cycle ends with the
    [IndexError] of the read at [PC + 2], whose message names neither the
    opcode nor the address.  A program reaches this state by jumping to
    address 254. *)
Lemma unknown_opcode_is_fatal_counterexample :
  let s := set_pc (VInt 254) CPU_init in
  (Py.getitem (ram s) (pc s) = Ok (VInt 0) /\
   branch_table 0 = None /\
   execute s = Raise IndexError /\
   Raise IndexError <> (Raise (Exception (invalid_instruction 0 254))
                        : result CPU)) /\
  (exists s0,
      load [LDI; 0; 254; JMP; 0] CPU_init = Ok s0 /\
      run (replicate 3 (0, 0)) s0 = Some (Raise IndexError)).
Proof.
  cbv zeta. split.
  - split; [vm_compute; reflexivity |]. split; [reflexivity |].
    split; [vm_compute; reflexivity | discriminate].
  - eexists. split; [vm_compute; reflexivity |]. vm_compute. reflexivity.
Qed.

Lemma pop_registers_control (ks : list Z) :
  forall s s' : CPU, pop_registers ks s = Ok s' -> control s' = control s.
Proof.
  induction ks as [| k ks IH]; intros s s' H; simpl in H.
  - injection H as <-. reflexivity.
  - apply bind_ok in H. destruct H as ([v s1] & Hpop & H). simpl in H.
    apply bind_ok in H. destruct H as (s2 & Hwrite & H).
    apply IH in H. apply pop_value_control in Hpop.
    apply reg_write_control in Hwrite. congruence.
Qed.

(** A handler whose opcode has bit 4 clear leaves PC and the flag
    [inst_set_pc] alone. *)
Lemma plain_handler_control
    (opcode : Z) (op : handler) (a b : value) (s s' : CPU) :
  branch_table opcode = Some op ->
  Z.testbit opcode 4 = false ->
  op a b s = Ok s' ->
  pc s' = pc s /\ inst_set_pc s' = inst_set_pc s.
Proof.
  intros Htable Hbit Hrun.
  table_cases Htable; try subst opcode; try discriminate Hbit;
    handler_frame Hrun.
Qed.

Lemma truthy_flag (f mask : Z) :
  Py.truthy (VInt (Z.land f mask)) = flag_set f mask.
Proof. reflexivity. Qed.

(** A handler whose opcode has bit 4 set either is a conditional jump that
    declines to jump, and then only clears [inst_set_pc], or leaves
    [inst_set_pc] alone. *)
Lemma jump_handler_control
    (opcode f : Z) (op : handler) (a b : value) (s s' : CPU) :
  branch_table opcode = Some op ->
  Z.testbit opcode 4 = true ->
  fl s = VInt f ->
  op a b s = Ok s' ->
  (jump_condition opcode f = Some false /\ s' = set_inst_set_pc false s) \/
  (jump_condition opcode f <> Some false /\ inst_set_pc s' = inst_set_pc s).
Proof.
  intros Htable Hbit Hfl Hrun.
  table_cases Htable; try subst opcode; try discriminate Hbit.
  - (* CALL *) right. split; [discriminate | handler_frame Hrun].
  - (* IRET *) right. split; [discriminate |].
    unfold op_iret in Hrun. ok_inv Hrun.
    repeat match goal with
      | E : pop_registers _ _ = Ok _ |- _ => apply pop_registers_control in E
      end.
    control_facts. unfold control in *. simpl in *. congruence.
  - (* JEQ *)
    unfold op_jeq, jump_if in Hrun. rewrite Hfl in Hrun.
    unfold Py.and_, Py.int_op in Hrun. rewrite bind_Ok, truthy_flag in Hrun.
    unfold jump_condition. simpl Z.eqb. cbv iota.
    destruct (flag_set f FL_EQ).
    + right. split; [discriminate |]. ok_inv Hrun. reflexivity.
    + left. split; [reflexivity |]. injection Hrun as <-. reflexivity.
  - (* JLE *)
    unfold op_jle, jump_if in Hrun. rewrite Hfl in Hrun.
    unfold Py.and_, Py.int_op in Hrun. rewrite bind_Ok, truthy_flag in Hrun.
    unfold jump_condition. simpl Z.eqb. cbv iota.
    destruct (flag_set f FL_LT).
    + right. split; [discriminate |]. ok_inv Hrun. reflexivity.
    + rewrite bind_Ok, truthy_flag in Hrun. simpl orb.
      destruct (flag_set f FL_EQ).
      * right. split; [discriminate |]. ok_inv Hrun. reflexivity.
      * left. split; [reflexivity |]. injection Hrun as <-. reflexivity.
  - (* JLT *)
    unfold op_jlt, jump_if in Hrun. rewrite Hfl in Hrun.
    unfold Py.and_, Py.int_op in Hrun. rewrite bind_Ok, truthy_flag in Hrun.
    unfold jump_condition. simpl Z.eqb. cbv iota.
    destruct (flag_set f FL_LT).
    + right. split; [discriminate |]. ok_inv Hrun. reflexivity.
    + left. split; [reflexivity |]. injection Hrun as <-. reflexivity.
  - (* JMP *) right. split; [discriminate | handler_frame Hrun].
  - (* JNE *)
    unfold op_jne, jump_if in Hrun. rewrite Hfl in Hrun.
    unfold Py.and_, Py.int_op in Hrun. rewrite bind_Ok, truthy_flag in Hrun.
    unfold jump_condition. simpl Z.eqb. cbv iota.
    destruct (flag_set f FL_EQ); simpl negb in *; cbv iota in Hrun.
    + left. split; [reflexivity |]. injection Hrun as <-. reflexivity.
    + right. split; [discriminate |]. ok_inv Hrun. reflexivity.
  - (* RET *) right. split; [discriminate | handler_frame Hrun].
Qed.

Lemma jump_condition_bit (opcode f : Z) (c : bool) :
  jump_condition opcode f = Some c -> Z.testbit opcode 4 = true.
Proof.
  unfold jump_condition. intros H.
  destruct (Z.eqb_spec opcode JEQ) as [-> |]; [reflexivity |].
  destruct (Z.eqb_spec opcode JNE) as [-> |]; [reflexivity |].
  destruct (Z.eqb_spec opcode JLT) as [-> |]; [reflexivity |].
  destruct (Z.eqb_spec opcode JLE) as [-> |]; [reflexivity |].
  discriminate H.
Qed.

(** C3: in a cycle that executes an opcode of the branch table, PC ends at
    its value before the dispatch plus [((opcode >> 6) & 3) + 1] when bit 4
    of the opcode is clear, and also when the opcode is a conditional jump
    (JEQ, JNE, JLT, JLE) whose condition is false; for the other opcodes
    with bit 4 set the cycle ends in the state the handler returns, with
    the PC the handler has set. *)
Theorem pc_after_cycle
    (s s' : CPU) (p opcode f : Z) (operand_a operand_b : value)
    (op : handler) :
  pc s = VInt p -> fl s = VInt f ->
  fetch s = Ok (VInt opcode, operand_a, operand_b) ->
  branch_table opcode = Some op ->
  execute s = Ok s' ->
  (Z.testbit opcode 4 = false -> pc s' = VInt (p + inst_size opcode)) /\
  (jump_condition opcode f = Some false ->
   pc s' = VInt (p + inst_size opcode)) /\
  (Z.testbit opcode 4 = true -> jump_condition opcode f <> Some false ->
   op operand_a operand_b (set_inst_set_pc true s) = Ok s').
Proof.
  intros Hpc Hfl Hfetch Htable Hexec.
  rewrite (execute_fetched s p opcode operand_a operand_b Hpc Hfetch) in Hexec.
  cbv zeta in Hexec. rewrite Htable in Hexec.
  apply bind_ok in Hexec. destruct Hexec as (u & _ & Hexec).
  apply bind_ok in Hexec. destruct Hexec as (s2 & Hop & Hexec).
  assert (Hadvance : pc s2 = VInt p -> inst_set_pc s2 = false ->
                     pc s' = VInt (p + inst_size opcode)).
  { intros Hpc2 Hflag. rewrite Hflag, Hpc2 in Hexec.
    injection Hexec as <-. reflexivity. }
  split; [| split].
  - intros Hbit. rewrite Hbit in Hop.
    destruct (plain_handler_control opcode op _ _ _ _ Htable Hbit Hop)
      as [Hpc2 Hflag].
    apply Hadvance; [rewrite Hpc2; exact Hpc | rewrite Hflag; reflexivity].
  - intros Hcond.
    pose proof (jump_condition_bit opcode f false Hcond) as Hbit.
    rewrite Hbit in Hop.
    destruct (jump_handler_control opcode f op operand_a operand_b
                (set_inst_set_pc true s) s2 Htable Hbit Hfl Hop)
      as [[_ ->] | [Hne _]]; [| contradiction].
    apply Hadvance; [exact Hpc | reflexivity].
  - intros Hbit Hcond. rewrite Hbit in Hop.
    destruct (jump_handler_control opcode f op operand_a operand_b
                (set_inst_set_pc true s) s2 Htable Hbit Hfl Hop)
      as [[Heq _] | [_ Hflag]]; [contradiction |].
    simpl in Hflag. rewrite Hflag in Hexec. injection Hexec as <-. exact Hop.
Qed.

Lemma pc_after_cycle_witness :
  let s0 := set_ram (<[0%nat := VInt LDI]> (<[1%nat := VInt 0]>
                       (<[2%nat := VInt 8]> (ram CPU_init)))) CPU_init in
  let s' := set_reg (<[0%nat := VInt 8]> (reg CPU_init))
                    (set_pc (VInt 3) s0) in
  (Z.testbit LDI 4 = false -> pc s' = VInt (0 + inst_size LDI)) /\
  (jump_condition LDI 0 = Some false -> pc s' = VInt (0 + inst_size LDI)) /\
  (Z.testbit LDI 4 = true -> jump_condition LDI 0 <> Some false ->
   op_ldi (VInt 0) (VInt 8) (set_inst_set_pc true s0) = Ok s').
Proof.
  intros s0 s'.
  apply (pc_after_cycle s0 s' 0 LDI 0 (VInt 0) (VInt 8) op_ldi).
  - reflexivity.
  - reflexivity.
  - vm_compute. reflexivity.
  - reflexivity.
  - vm_compute. reflexivity.
Defined.

(** Two cycles on a conditional jump at address 0, [JEQ R0] with 40 in
    register 0: with the EQ flag clear the jump is declined and PC moves to
    the next instruction at address 2; with the EQ flag set PC becomes 40. *)
Example jeq_declined :
  let s := set_ram (<[0%nat := VInt JEQ]> (ram CPU_init))
                   (set_reg (<[0%nat := VInt 40]> (reg CPU_init)) CPU_init) in
  pc <$> (match execute s with Ok s' => Some s' | Raise _ => None end)
  = Some (VInt 2).
Proof. vm_compute. reflexivity. Qed.

Example jeq_taken :
  let s := set_ram (<[0%nat := VInt JEQ]> (ram CPU_init))
                   (set_reg (<[0%nat := VInt 40]> (reg CPU_init))
                            (set_fl (VInt FL_EQ) CPU_init)) in
  pc <$> (match execute s with Ok s' => Some s' | Raise _ => None end)
  = Some (VInt 40).
Proof. vm_compute. reflexivity. Qed.

(** The scenario of the specification: [LDI R0,8; LDI R1,9; ADD R0,R1;
    PRN R0; HLT] prints 17 and halts. *)
Example print_17 :
  exists s0 s',
    load [LDI; 0; 8; LDI; 1; 9; ADD; 0; 1; PRN; 0; HLT] CPU_init = Ok s0 /\
    run (replicate 5 (0, 0)) s0 = Some (Ok s') /\
    stdout s' = [PrintLine (VInt 17)] /\ halted s' = true.
Proof.
  eexists. eexists. split; [vm_compute; reflexivity |].
  split; [vm_compute; reflexivity |]. split; reflexivity.
Qed.

(** ** Well-formedness is an invariant of the run *)

Lemma wf_init : wf CPU_init.
Proof. split; reflexivity. Qed.

Lemma setitem_length {A} (l l' : list A) (i : value) (x : A) :
  Py.setitem l i x = Ok l' -> length l' = length l.
Proof.
  unfold Py.setitem. intros H. apply bind_ok in H.
  destruct H as (k & _ & H). injection H as <-. apply length_insert.
Qed.

Lemma reg_write_wf (i v : value) (s s' : CPU) :
  wf s -> reg_write i v s = Ok s' -> wf s'.
Proof.
  intros [Hr Hm] H. unfold reg_write in H. apply bind_ok in H.
  destruct H as (r & Hset & H). injection H as <-.
  apply setitem_length in Hset. split; simpl; congruence.
Qed.

Lemma ram_write_wf (mdr mar : value) (s s' : CPU) :
  wf s -> ram_write mdr mar s = Ok s' -> wf s'.
Proof.
  intros [Hr Hm] H. unfold ram_write in H. apply bind_ok in H.
  destruct H as (m & Hset & H). injection H as <-.
  apply setitem_length in Hset. split; simpl; congruence.
Qed.

Lemma push_value_wf (v : value) (s s' : CPU) :
  wf s -> push_value v s = Ok s' -> wf s'.
Proof. intros Hwf H. exact (proj1 (push_value_regs v s s' Hwf H)). Qed.

Lemma pop_value_wf (s s' : CPU) (v : value) :
  wf s -> pop_value s = Ok (v, s') -> wf s'.
Proof.
  intros Hwf H. unfold pop_value in H. ok_inv H.
  eapply reg_write_wf; eassumption.
Qed.

Lemma reg_update_wf (op : value -> value -> result value)
    (reg_a : value) (rhs : CPU -> result value) (s s' : CPU) :
  wf s -> reg_update op reg_a rhs s = Ok s' -> wf s'.
Proof.
  intros Hwf H. unfold reg_update in H. ok_inv H.
  eapply reg_write_wf; eassumption.
Qed.

Lemma pop_registers_wf (ks : list Z) :
  forall s s' : CPU, wf s -> pop_registers ks s = Ok s' -> wf s'.
Proof.
  induction ks as [| k ks IH]; intros s s' Hwf H; simpl in H.
  - injection H as <-. exact Hwf.
  - apply bind_ok in H. destruct H as ([v s1] & Hpop & H). simpl in H.
    apply bind_ok in H. destruct H as (s2 & Hwrite & H).
    apply (IH s2 s'); [| exact H].
    eapply reg_write_wf; [| exact Hwrite]. eapply pop_value_wf; eassumption.
Qed.

Lemma push_registers_wf (ks : list Z) :
  forall s s' : CPU, wf s -> push_registers ks s = Ok s' -> wf s'.
Proof.
  induction ks as [| k ks IH]; intros s s' Hwf H; simpl in H.
  - injection H as <-. exact Hwf.
  - apply bind_ok in H. destruct H as (v & _ & H).
    apply bind_ok in H. destruct H as (s1 & Hpush & H).
    apply (IH s1 s'); [| exact H]. eapply push_value_wf; eassumption.
Qed.

Ltac wf_hyp := match goal with H : wf _ |- _ => exact H end.

Ltac wf_facts :=
  repeat match goal with
    | E : reg_write _ _ _ = Ok _ |- _ =>
        apply reg_write_wf in E; [| wf_hyp]
    | E : ram_write _ _ _ = Ok _ |- _ =>
        apply ram_write_wf in E; [| wf_hyp]
    | E : push_value _ _ = Ok _ |- _ =>
        apply push_value_wf in E; [| wf_hyp]
    | E : pop_value _ = Ok (_, _) |- _ =>
        apply pop_value_wf in E; [| wf_hyp]
    | E : reg_update _ _ _ _ = Ok _ |- _ =>
        apply reg_update_wf in E; [| wf_hyp]
    | E : pop_registers _ _ = Ok _ |- _ =>
        apply pop_registers_wf in E; [| wf_hyp]
    | E : push_registers _ _ = Ok _ |- _ =>
        apply push_registers_wf in E; [| wf_hyp]
    end.

Lemma handler_wf (opcode : Z) (op : handler) (a b : value) (s s' : CPU) :
  branch_table opcode = Some op -> wf s -> op a b s = Ok s' -> wf s'.
Proof.
  intros Htable Hwf Hrun.
  table_cases Htable;
    unfold op_add, op_and, op_call, op_cmp, op_dec, op_div, op_hlt, op_inc,
      op_iret, op_jeq, op_jle, op_jlt, op_jmp, op_jne, op_ld, op_ldi, op_mul,
      op_or, op_pop, op_pra, op_prn, op_push, op_ret, op_shl, op_st, op_sub,
      op_xor, alu, jump_if in Hrun;
    simpl String.eqb in Hrun; cbv iota in Hrun;
    ok_inv Hrun; wf_facts; wf_hyp.
Qed.

Lemma handle_interrupts_wf (s s' : CPU) :
  wf s -> handle_interrupts s = Ok s' -> wf s'.
Proof.
  intros Hwf H. unfold handle_interrupts in H.
  destruct (ie s =? 0); [injection H as <-; exact Hwf |].
  apply bind_ok in H. destruct H as (mask & _ & H).
  apply bind_ok in H. destruct H as (status & _ & H).
  apply bind_ok in H. destruct H as (masked & _ & H).
  revert H. generalize (range 8). intros lines.
  induction lines as [| i lines IH]; simpl; intros H.
  - injection H as <-. exact Hwf.
  - apply bind_ok in H. destruct H as (t & _ & H).
    destruct (Py.truthy t); [| exact (IH H)].
    unfold service_interrupt in H. cbv zeta in H.
    apply bind_ok in H. destruct H as (st & _ & H).
    apply bind_ok in H. destruct H as (st' & _ & H).
    apply bind_ok in H. destruct H as (s1 & H1 & H).
    apply bind_ok in H. destruct H as (s2 & H2 & H).
    apply bind_ok in H. destruct H as (s3 & H3 & H).
    apply bind_ok in H. destruct H as (s4 & H4 & H).
    apply bind_ok in H. destruct H as (v & _ & H). injection H as <-.
    wf_facts. wf_hyp.
Qed.

Lemma check_timer_interrupt_wf (t0 t1 : Z) (s s' : CPU) :
  wf s -> check_timer_interrupt t0 t1 s = Ok s' -> wf s'.
Proof.
  intros Hwf H. unfold check_timer_interrupt in H.
  destruct (1 <=? _); [| injection H as <-; exact Hwf].
  apply bind_ok in H. destruct H as (status & _ & H).
  apply bind_ok in H. destruct H as (status' & _ & H).
  eapply reg_write_wf; [| exact H]. exact Hwf.
Qed.

Lemma execute_wf (s s' : CPU) : wf s -> execute s = Ok s' -> wf s'.
Proof.
  intros Hwf H. unfold execute in H.
  repeat (apply bind_ok in H; destruct H as (? & _ & H)).
  destruct x as [opcode |]; [| discriminate H].
  simpl pc in H. destruct (pc s) as [address |]; [| discriminate H].
  destruct (branch_table opcode) as [op |] eqn:Htable; [| discriminate H].
  apply bind_ok in H. destruct H as (s2 & Hop & H).
  apply (handler_wf opcode op _ _ _ _ Htable) in Hop; [| exact Hwf].
  destruct (inst_set_pc s2); [injection H as <-; exact Hop |].
  apply bind_ok in H. destruct H as (p' & _ & H). injection H as <-.
  exact Hop.
Qed.

(** Every state the loop passes through has eight registers and 256 memory
    cells. *)
Lemma cycle_wf (t0 t1 : Z) (s s' : CPU) :
  wf s -> cycle t0 t1 s = Ok s' -> wf s'.
Proof.
  intros Hwf H. unfold cycle in H.
  apply bind_ok in H. destruct H as (s1 & Htimer & H).
  apply bind_ok in H. destruct H as (s2 & Hint & H).
  apply (execute_wf s2 s'); [| exact H].
  apply (handle_interrupts_wf s1 s2); [| exact Hint].
  apply (check_timer_interrupt_wf t0 t1 s s1 Hwf Htimer).
Qed.

Lemma run_wf (clock : list (Z * Z)) :
  forall s s' : CPU, wf s -> run clock s = Some (Ok s') -> wf s'.
Proof.
  induction clock as [| [t0 t1] clock IH]; intros s s' Hwf H; simpl in H.
  - destruct (halted s); [| discriminate H]. injection H as <-. exact Hwf.
  - destruct (halted s); [injection H as <-; exact Hwf |].
    destruct (cycle t0 t1 s) as [s1 |] eqn:Hcycle; [| discriminate H].
    apply (IH s1 s'); [| exact H]. exact (cycle_wf t0 t1 s s1 Hwf Hcycle).
Qed.

Lemma load_wf (program : list Z) (s s' : CPU) :
  wf s -> load program s = Ok s' -> wf s'.
Proof.
  unfold load. generalize 0. revert s.
  induction program as [| val rest IH]; intros s address Hwf H; simpl in H.
  - injection H as <-. exact Hwf.
  - apply bind_ok in H. destruct H as (m & Hset & H).
    apply (IH (set_ram m s) (address + 1)); [| exact H].
    apply setitem_length in Hset. destruct Hwf as [Hr Hm].
    split; simpl; congruence.
Qed.

(** * Further properties of the code *)

(** ** Memory cells and their addresses *)

Lemma cell_alias (a b : Z) :
  -256 <= a < 256 -> -256 <= b < 256 ->
  (cell a = cell b <-> b = a \/ b = a + 256 \/ b = a - 256).
Proof.
  intros Ha Hb. unfold cell, at_index.
  destruct (Z.ltb_spec a 0), (Z.ltb_spec b 0); lia.
Qed.

(** X1: a write to a valid address followed by a read at that address
    returns the value written; the addresses [a], [a + 256] and [a - 256]
    name the same cell, every other cell keeps its content, and nothing but
    the memory changes.  Outside [-256, 256) both the write and the read
    raise [IndexError]. *)
Theorem ram_write_then_read (s : CPU) (v : value) (a : Z) :
  wf s ->
  (-256 <= a < 256 ->
   exists s',
     ram_write v (VInt a) s = Ok s' /\
     wf s' /\ s' = set_ram (ram s') s /\
     ram_read (VInt a) s' = Ok v /\
     forall b, -256 <= b < 256 ->
       ((b = a \/ b = a + 256 \/ b = a - 256) -> ram_read (VInt b) s' = Ok v) /\
       (~ (b = a \/ b = a + 256 \/ b = a - 256) ->
        ram_read (VInt b) s' = ram_read (VInt b) s)) /\
  (a < -256 \/ 256 <= a ->
   ram_write v (VInt a) s = Raise IndexError /\
   ram_read (VInt a) s = Raise IndexError).
Proof.
  intros Hwf. assert (Hm : length (ram s) = 256%nat) by apply Hwf.
  split.
  - intros Ha. exists (set_ram (<[cell a := v]> (ram s)) s).
    assert (Hwf' : wf (set_ram (<[cell a := v]> (ram s)) s))
      by (apply wf_set_ram, Hwf).
    assert (Hself : forall b, -256 <= b < 256 -> cell b = cell a ->
              ram_read (VInt b) (set_ram (<[cell a := v]> (ram s)) s) = Ok v).
    { intros b Hb Heq. apply ram_read_in_range; try assumption.
      simpl. rewrite Heq. apply list_lookup_insert_eq. rewrite Hm.
      apply (at_index_lt 256). lia. }
    split; [apply ram_write_in_range; assumption |].
    split; [exact Hwf' |]. split; [reflexivity |].
    split; [apply Hself; [assumption | reflexivity] |].
    intros b Hb. split.
    + intros Halias. apply Hself; [assumption |].
      symmetry. apply cell_alias; assumption.
    + intros Hother. unfold ram_read.
      change (ram (set_ram (<[cell a := v]> (ram s)) s))
        with (<[cell a := v]> (ram s)).
      unfold Py.getitem. rewrite length_insert.
      rewrite index_in_range by (rewrite Hm; lia). rewrite !bind_Ok.
      rewrite list_lookup_insert_ne; [reflexivity |].
      rewrite Hm. intros Heq. apply Hother.
      apply cell_alias; [assumption | assumption | exact Heq].
  - intros Ha. split.
    + unfold ram_write, Py.setitem.
      rewrite index_out_of_range by (rewrite Hm; lia). reflexivity.
    + apply getitem_out_of_range. rewrite Hm. lia.
Qed.

Lemma ram_write_then_read_witness :
  (-256 <= -1 < 256 ->
   exists s',
     ram_write (VInt 42) (VInt (-1)) CPU_init = Ok s' /\
     wf s' /\ s' = set_ram (ram s') CPU_init /\
     ram_read (VInt (-1)) s' = Ok (VInt 42) /\
     forall b, -256 <= b < 256 ->
       ((b = -1 \/ b = -1 + 256 \/ b = -1 - 256) ->
        ram_read (VInt b) s' = Ok (VInt 42)) /\
       (~ (b = -1 \/ b = -1 + 256 \/ b = -1 - 256) ->
        ram_read (VInt b) s' = ram_read (VInt b) CPU_init)) /\
  (-1 < -256 \/ 256 <= -1 ->
   ram_write (VInt 42) (VInt (-1)) CPU_init = Raise IndexError /\
   ram_read (VInt (-1)) CPU_init = Raise IndexError).
Proof.
  apply (ram_write_then_read CPU_init (VInt 42) (-1)).
  split; reflexivity.
Defined.

(** ** Store and load instructions *)

(** X2: ST writes the content of the second operand register at the address
    held by the first; an LD through the same address register then yields
    that content in its destination register.  The pair changes that one
    memory cell and that one register, and leaves PC and FL alone. *)
Theorem st_then_ld (s : CPU) (a b c addr : Z) (v : value) :
  wf s ->
  -8 <= a < 8 -> -8 <= b < 8 -> -8 <= c < 8 ->
  reg s !! slot a = Some (VInt addr) ->
  reg s !! slot b = Some v ->
  -256 <= addr < 256 ->
  exists s1 s2,
    op_st (VInt a) (VInt b) s = Ok s1 /\
    op_ld (VInt c) (VInt a) s1 = Ok s2 /\
    reg s2 !! slot c = Some v /\
    (forall k : nat, k <> slot c -> reg s2 !! k = reg s !! k) /\
    ram s2 = <[cell addr := v]> (ram s) /\
    control s2 = control s.
Proof.
  intros Hwf Ha Hb Hc Haddr Hv Hrange.
  set (s1 := set_ram (<[cell addr := v]> (ram s)) s).
  assert (Hwf1 : wf s1) by (apply wf_set_ram, Hwf).
  exists s1, (set_reg (<[slot c := v]> (reg s1)) s1).
  split; [| split; [| split; [| split; [| split]]]].
  - unfold op_st.
    rewrite (reg_getitem s b v Hwf), bind_Ok by assumption.
    rewrite (reg_getitem s a (VInt addr) Hwf), bind_Ok by assumption.
    apply ram_write_in_range; assumption.
  - unfold op_ld.
    rewrite (reg_getitem s1 a (VInt addr) Hwf1), bind_Ok by assumption.
    rewrite (ram_read_in_range s1 addr v Hwf1), bind_Ok.
    + apply reg_write_in_range; assumption.
    + assumption.
    + simpl. apply list_lookup_insert_eq. destruct Hwf as [_ ->].
      apply (at_index_lt 256). lia.
  - simpl. apply list_lookup_insert_eq. destruct Hwf as [-> _].
    apply (at_index_lt 8). lia.
  - intros k Hk. simpl. apply list_lookup_insert_ne. congruence.
  - reflexivity.
  - reflexivity.
Qed.

Lemma st_then_ld_witness :
  let s := set_reg [VInt 200; VInt 99; VInt 0; VInt 0;
                    VInt 0; VInt 0; VInt 0; VInt 0xf4] CPU_init in
  exists s1 s2,
    op_st (VInt 0) (VInt 1) s = Ok s1 /\
    op_ld (VInt 2) (VInt 0) s1 = Ok s2 /\
    reg s2 !! slot 2 = Some (VInt 99) /\
    (forall k : nat, k <> slot 2 -> reg s2 !! k = reg s !! k) /\
    ram s2 = <[cell 200 := VInt 99]> (ram s) /\
    control s2 = control s.
Proof.
  intros s. apply (st_then_ld s 0 1 2 200 (VInt 99)).
  - split; reflexivity.
  - lia.
  - lia.
  - lia.
  - reflexivity.
  - reflexivity.
  - lia.
Defined.

(** ** Register operands *)

(** X3: for the instructions that begin by reading or writing the register
    named by their first operand (the ALU operations but CMP, LDI, PRN, PRA,
    PUSH and JMP), a register number outside [-8, 8) raises [IndexError];
    nothing checks that an operand byte is below 8. *)
Theorem register_operand_out_of_range
    (opcode a : Z) (op : handler) (b : value) (s : CPU) :
  wf s ->
  branch_table opcode = Some op ->
  In opcode [ADD; AND; SUB; MUL; DIV; DEC; INC; OR; SHL; XOR;
             LDI; PRN; PRA; PUSH; JMP] ->
  a < -8 \/ 8 <= a ->
  op (VInt a) b s = Raise IndexError.
Proof.
  intros Hwf Htable Hin Ha.
  assert (Hr : length (reg s) = 8%nat) by apply Hwf.
  assert (Hget : Py.getitem (reg s) (VInt a) = Raise IndexError)
    by (apply getitem_out_of_range; rewrite Hr; lia).
  table_cases Htable; try subst opcode;
    first
      [ solve
          [ unfold op_add, op_and, op_sub, op_mul, op_div, op_dec, op_inc,
              op_or, op_shl, op_xor, op_ldi, op_prn, op_pra, op_push, op_jmp,
              alu, reg_update, reg_write, Py.setitem;
            simpl String.eqb; cbv iota;
            rewrite ?Hget, ?index_out_of_range by (rewrite Hr; lia);
            reflexivity ]
      | exfalso; simpl in Hin;
        repeat (destruct Hin as [Hin | Hin]; [discriminate Hin |]);
        exact Hin ].
Qed.

Lemma register_operand_out_of_range_witness :
  op_ldi (VInt 8) (VInt 5) CPU_init = Raise IndexError.
Proof.
  apply (register_operand_out_of_range LDI 8 op_ldi (VInt 5) CPU_init).
  - split; reflexivity.
  - reflexivity.
  - simpl. tauto.
  - lia.
Defined.

(** ** Bitwise operations *)

Lemma byte_iff_land (x : Z) : byte x <-> Z.land x 255 = x.
Proof.
  unfold byte. change 255 with (Z.ones 8). rewrite Z.land_ones by lia.
  change (2 ^ 8) with 256. split.
  - intros Hx. apply Z.mod_small, Hx.
  - intros Hx. rewrite <- Hx. apply Z.mod_pos_bound. lia.
Qed.

Lemma bitwise_byte (f : Z -> Z -> Z) (g : bool -> bool -> bool) (x y : Z) :
  (forall a b n, 0 <= n -> Z.testbit (f a b) n = g (Z.testbit a n) (Z.testbit b n)) ->
  g false false = false ->
  byte x -> byte y -> byte (f x y).
Proof.
  intros Hspec Hg Hx Hy. apply byte_iff_land in Hx, Hy. apply byte_iff_land.
  apply Z.bits_inj'. intros n Hn. rewrite Z.land_spec, Hspec by exact Hn.
  assert (Hxn : Z.testbit x n = Z.testbit x n && Z.testbit 255 n)
    by (rewrite <- Z.land_spec, Hx; reflexivity).
  assert (Hyn : Z.testbit y n = Z.testbit y n && Z.testbit 255 n)
    by (rewrite <- Z.land_spec, Hy; reflexivity).
  destruct (Z.testbit 255 n).
  - apply andb_true_r.
  - rewrite andb_false_r in Hxn, Hyn. rewrite Hxn, Hyn, Hg. reflexivity.
Qed.

(** X4: AND, OR and XOR store the bitwise combination of the two registers
    in the first; unlike the arithmetic operations they keep bytes bytes:
    from two values in 0..255 the result is in 0..255. *)
Theorem bitwise_results_stay_bytes (s : CPU) (a b x y : Z) :
  wf s -> -8 <= a < 8 -> -8 <= b < 8 ->
  reg s !! slot a = Some (VInt x) ->
  reg s !! slot b = Some (VInt y) ->
  byte x -> byte y ->
  let stores (r : Z) := Ok (set_reg (<[slot a := VInt r]> (reg s)) s) in
  op_and (VInt a) (VInt b) s = stores (Z.land x y) /\ byte (Z.land x y) /\
  op_or (VInt a) (VInt b) s = stores (Z.lor x y) /\ byte (Z.lor x y) /\
  op_xor (VInt a) (VInt b) s = stores (Z.lxor x y) /\ byte (Z.lxor x y).
Proof.
  intros Hwf Ha Hb Hx Hy Hbx Hby stores. subst stores. cbv beta.
  assert (Hrb : reg_read (Some (VInt b)) s = Ok (VInt y))
    by (apply reg_getitem; assumption).
  unfold op_and, op_or, op_xor, alu. simpl String.eqb. cbv iota.
  split; [| split; [| split; [| split; [| split]]]].
  - apply (reg_update_ok _ _ s a (VInt x) (VInt y)); auto.
  - apply (bitwise_byte Z.land andb); auto using Z.land_spec.
  - apply (reg_update_ok _ _ s a (VInt x) (VInt y)); auto.
  - apply (bitwise_byte Z.lor orb); auto using Z.lor_spec.
  - apply (reg_update_ok _ _ s a (VInt x) (VInt y)); auto.
  - apply (bitwise_byte Z.lxor xorb); auto using Z.lxor_spec.
Qed.

Lemma bitwise_results_stay_bytes_witness :
  let s := set_reg [VInt 0xf0; VInt 0x3c; VInt 0; VInt 0;
                    VInt 0; VInt 0; VInt 0; VInt 0xf4] CPU_init in
  let stores (r : Z) := Ok (set_reg (<[slot 0 := VInt r]> (reg s)) s) in
  op_and (VInt 0) (VInt 1) s = stores (Z.land 0xf0 0x3c) /\
  byte (Z.land 0xf0 0x3c) /\
  op_or (VInt 0) (VInt 1) s = stores (Z.lor 0xf0 0x3c) /\
  byte (Z.lor 0xf0 0x3c) /\
  op_xor (VInt 0) (VInt 1) s = stores (Z.lxor 0xf0 0x3c) /\
  byte (Z.lxor 0xf0 0x3c).
Proof.
  apply (bitwise_results_stay_bytes
           (set_reg [VInt 0xf0; VInt 0x3c; VInt 0; VInt 0;
                     VInt 0; VInt 0; VInt 0; VInt 0xf4] CPU_init)
           0 1 0xf0 0x3c).
  - split; reflexivity.
  - lia.
  - lia.
  - reflexivity.
  - reflexivity.
  - unfold byte. lia.
  - unfold byte. lia.
Defined.

(** ** Division and floats *)

Lemma getitem_int_inv {A} (l : list A) (n : Z) (x : A) :
  Py.getitem l (VInt n) = Ok x ->
  - Z.of_nat (length l) <= n < Z.of_nat (length l) /\
  l !! at_index (Z.of_nat (length l)) n = Some x.
Proof.
  intros H.
  destruct (Z_lt_le_dec n (- Z.of_nat (length l))) as [Hlo | Hlo].
  { rewrite getitem_out_of_range in H by lia. discriminate H. }
  destruct (Z_lt_le_dec n (Z.of_nat (length l))) as [Hhi | Hhi].
  - split; [lia |]. unfold Py.getitem in H.
    rewrite index_in_range, bind_Ok in H by lia.
    destruct (l !! at_index (Z.of_nat (length l)) n);
      [injection H as <-; reflexivity | discriminate H].
  - rewrite getitem_out_of_range in H by lia. discriminate H.
Qed.

Lemma getitem_float_index {A} (l : list A) (x : spec_float) :
  Py.getitem l (VFloat x) = Raise TypeError.
Proof. reflexivity. Qed.

Lemma reg_lookup_getitem (s : CPU) (k : nat) (v : value) :
  reg s !! k = Some v -> Py.getitem (reg s) (VInt (Z.of_nat k)) = Ok v.
Proof.
  intros Hk. pose proof (lookup_lt_Some _ _ _ Hk) as Hlt.
  apply getitem_in_range; [lia |].
  unfold at_index. rewrite (proj2 (Z.ltb_ge (Z.of_nat k) 0)) by lia.
  rewrite Nat2Z.id. exact Hk.
Qed.

(** A push with a float in SP does not return: the float is the subscript of
    the memory write. *)
Lemma push_value_float_sp (v : value) (s : CPU) (x : spec_float) :
  wf s -> reg s !! 7%nat = Some (VFloat x) ->
  exists e, push_value v s = Raise e.
Proof.
  intros Hwf Hsp. unfold push_value.
  rewrite (reg_getitem s SP (VFloat x) Hwf)
    by first [exact Hsp | unfold SP; lia].
  rewrite bind_Ok.
  destruct (Py.sub (VFloat x) (VInt 1)) as [sp' |] eqn:Hsub;
    [| eexists; reflexivity].
  assert (Hfloat : exists y, sp' = VFloat y).
  { unfold Py.sub, Py.float_op in Hsub.
    apply bind_ok in Hsub. destruct Hsub as (x' & _ & Hsub).
    apply bind_ok in Hsub. destruct Hsub as (y' & _ & Hsub).
    injection Hsub as <-. eexists. reflexivity. }
  destruct Hfloat as [y ->]. rewrite bind_Ok.
  rewrite (reg_write_in_range s SP _ Hwf), bind_Ok by (unfold SP; lia).
  rewrite (getitem_in_range _ 7 (VFloat y)).
  - eexists. reflexivity.
  - simpl. rewrite length_insert. destruct Hwf as [-> _]. lia.
  - simpl. rewrite length_insert. destruct Hwf as [Hl _]. rewrite Hl.
    change (slot SP) with 7%nat. change (at_index (Z.of_nat 8) 7) with 7%nat.
    apply list_lookup_insert_eq. lia.
Qed.

Lemma push_value_has_float (v : value) (s s' : CPU) :
  wf s -> has_float_register s -> push_value v s = Ok s' ->
  has_float_register s'.
Proof.
  intros Hwf (k & x & Hk) Hpush.
  destruct (Nat.eq_dec k 7%nat) as [-> | Hne].
  - destruct (push_value_float_sp v s x Hwf Hk) as [e He]. congruence.
  - exists k, x.
    rewrite (proj2 (push_value_regs v s s' Hwf Hpush) k Hne). exact Hk.
Qed.

Lemma push_registers_has_float (ks : list Z) :
  forall s s' : CPU,
    wf s -> has_float_register s -> push_registers ks s = Ok s' ->
    has_float_register s'.
Proof.
  induction ks as [| k ks IH]; intros s s' Hwf Hfloat H; simpl in H.
  - injection H as <-. exact Hfloat.
  - apply bind_ok in H. destruct H as (v & _ & H).
    apply bind_ok in H. destruct H as (s1 & Hpush & H).
    apply (IH s1 s'); [| | exact H].
    + eapply push_value_wf; eassumption.
    + eapply push_value_has_float; eassumption.
Qed.

(** Writing an integer operation's result to IS keeps a float held by some
    register: the operation returns only when IS itself holds an integer. *)
Lemma status_update_has_float
    (op : value -> value -> result value) (w : value) (s s' : CPU) :
  (forall x, op (VFloat x) w = Raise TypeError) ->
  wf s -> has_float_register s ->
  (status ← Py.getitem (reg s) (VInt IS);
   status' ← op status w;
   reg_write (VInt IS) status' s) = Ok s' ->
  has_float_register s'.
Proof.
  intros Hop Hwf (k & x & Hk) H.
  apply bind_ok in H. destruct H as (status & Hget & H).
  apply bind_ok in H. destruct H as (status' & Hstatus' & H).
  apply getitem_int_inv in Hget. destruct Hget as [_ Hget].
  destruct Hwf as [Hr Hm]. rewrite Hr in Hget.
  change (at_index (Z.of_nat 8) IS) with 6%nat in Hget.
  rewrite (reg_write_in_range s IS status') in H
    by (try (split; assumption); unfold IS; lia).
  injection H as <-. exists k, x. simpl.
  rewrite list_lookup_insert_ne; [exact Hk |].
  change (slot IS) with 6%nat. intros <-.
  rewrite Hk in Hget. injection Hget as <-.
  rewrite Hop in Hstatus'. discriminate Hstatus'.
Qed.

Lemma check_timer_interrupt_has_float (t0 t1 : Z) (s s' : CPU) :
  wf s -> has_float_register s ->
  check_timer_interrupt t0 t1 s = Ok s' -> has_float_register s'.
Proof.
  intros Hwf Hfloat H. unfold check_timer_interrupt in H.
  destruct (1 <=? _); [| injection H as <-; exact Hfloat].
  revert H. apply (status_update_has_float Py.or_); auto.
Qed.

Lemma handle_interrupts_has_float (s s' : CPU) :
  wf s -> has_float_register s ->
  handle_interrupts s = Ok s' -> has_float_register s'.
Proof.
  intros Hwf Hfloat H. unfold handle_interrupts in H.
  destruct (ie s =? 0); [injection H as <-; exact Hfloat |].
  apply bind_ok in H. destruct H as (mask & _ & H).
  apply bind_ok in H. destruct H as (status & _ & H).
  apply bind_ok in H. destruct H as (masked & _ & H).
  revert H. generalize (range 8). intros lines.
  induction lines as [| i lines IH]; simpl; intros H.
  - injection H as <-. exact Hfloat.
  - apply bind_ok in H. destruct H as (t & _ & H).
    destruct (Py.truthy t); [| exact (IH H)].
    unfold service_interrupt in H. cbv zeta in H.
    destruct (Py.getitem (reg (set_ie 0 s)) (VInt IS)
              ≫= (fun status =>
                    Py.and_ status (VInt (Z.lnot (Z.shiftl 1 i)))
                    ≫= fun status' => reg_write (VInt IS) status' (set_ie 0 s)))
      as [s1 |] eqn:Hs1.
    + assert (Hwf1 : wf s1).
      { apply bind_ok in Hs1. destruct Hs1 as (st & _ & Hs1).
        apply bind_ok in Hs1. destruct Hs1 as (st' & _ & Hs1).
        eapply reg_write_wf; [| exact Hs1]. exact Hwf. }
      assert (Hfloat1 : has_float_register s1).
      { revert Hs1. apply (status_update_has_float Py.and_); auto. }
      apply bind_ok in H. destruct H as (st & Hst & H).
      apply bind_ok in H. destruct H as (st' & Hst' & H).
      rewrite Hst, bind_Ok, Hst', bind_Ok in Hs1.
      rewrite Hs1, bind_Ok in H.
      apply bind_ok in H. destruct H as (s2 & H2 & H).
      apply bind_ok in H. destruct H as (s3 & H3 & H).
      apply bind_ok in H. destruct H as (s4 & H4 & H).
      apply bind_ok in H. destruct H as (v & _ & H). injection H as <-.
      pose proof (push_value_wf _ _ _ Hwf1 H2) as Hwf2.
      pose proof (push_value_has_float _ _ _ Hwf1 Hfloat1 H2) as Hfloat2.
      pose proof (push_value_wf _ _ _ Hwf2 H3) as Hwf3.
      pose proof (push_value_has_float _ _ _ Hwf2 Hfloat2 H3) as Hfloat3.
      exact (push_registers_has_float _ _ _ Hwf3 Hfloat3 H4).
    + apply bind_ok in H. destruct H as (st & Hst & H).
      apply bind_ok in H. destruct H as (st' & Hst' & H).
      rewrite Hst, bind_Ok, Hst', bind_Ok in Hs1.
      rewrite Hs1 in H. discriminate H.
Qed.

Lemma trace_registers_float (ks : list Z) (s : CPU) (k : nat) (x : spec_float) :
  reg s !! k = Some (VFloat x) -> Z.of_nat k ∈ ks ->
  exists e, trace_registers ks s = Raise e.
Proof.
  intros Hk. induction ks as [| i ks IH]; intros Hin.
  - apply elem_of_nil in Hin. contradiction.
  - simpl. destruct (Z.eq_dec i (Z.of_nat k)) as [-> | Hne].
    + rewrite (reg_lookup_getitem s k (VFloat x) Hk). eexists. reflexivity.
    + destruct (Py.getitem (reg s) (VInt i)) as [[n | y] |];
        try (eexists; reflexivity).
      rewrite !bind_Ok. apply IH.
      apply elem_of_cons in Hin. destruct Hin as [Heq | Hin];
        [congruence | exact Hin].
Qed.

Lemma trace_float (ir operand_a operand_b : value) (s : CPU) :
  wf s -> has_float_register s ->
  exists e, trace ir operand_a operand_b s = Raise e.
Proof.
  intros Hwf (k & x & Hk). unfold trace.
  do 11 lazymatch goal with
    | |- exists e, ?m ≫= _ = Raise e =>
        let r := fresh "r" in
        destruct m as [r | ?];
        [rewrite bind_Ok | eexists; reflexivity]
    end.
  apply (trace_registers_float _ s k x Hk).
  pose proof (lookup_lt_Some _ _ _ Hk) as Hlt.
  destruct Hwf as [Hr _]. rewrite Hr in Hlt.
  unfold range. apply list_elem_of_fmap. exists k. split; [reflexivity |].
  apply list_elem_of_In, in_seq. lia.
Qed.

Lemma execute_float (s : CPU) :
  wf s -> has_float_register s -> exists e, execute s = Raise e.
Proof.
  intros Hwf Hfloat. unfold execute.
  do 10 lazymatch goal with
    | |- exists e, ?m ≫= _ = Raise e =>
        let r := fresh "r" in
        destruct m as [r | ?];
        [rewrite bind_Ok | eexists; reflexivity]
    end.
  cbv zeta.
  match goal with
  | |- exists e, trace ?ir ?a ?b ?st ≫= _ = Raise e =>
      destruct (trace_float ir a b st Hwf Hfloat) as [e ->]
  end.
  eexists. reflexivity.
Qed.

Lemma cycle_float (t0 t1 : Z) (s : CPU) :
  wf s -> has_float_register s -> exists e, cycle t0 t1 s = Raise e.
Proof.
  intros Hwf Hfloat. unfold cycle.
  destruct (check_timer_interrupt t0 t1 s) as [s1 |] eqn:H1;
    [rewrite bind_Ok | eexists; reflexivity].
  pose proof (check_timer_interrupt_wf _ _ _ _ Hwf H1) as Hwf1.
  pose proof (check_timer_interrupt_has_float _ _ _ _ Hwf Hfloat H1) as Hf1.
  destruct (handle_interrupts s1) as [s2 |] eqn:H2;
    [rewrite bind_Ok | eexists; reflexivity].
  apply execute_float.
  - exact (handle_interrupts_wf _ _ Hwf1 H2).
  - exact (handle_interrupts_has_float _ _ Hwf1 Hf1 H2).
Qed.

(** X6: once a register holds a float, the next cycle raises an exception
    before any handler is dispatched (at the latest, [trace] formats every
    register with [%02X]); a run that is not halted therefore ends with an
    exception and never reaches HLT. *)
Theorem float_register_ends_the_run
    (s : CPU) (t0 t1 : Z) (clock : list (Z * Z)) :
  wf s -> has_float_register s ->
  (exists e, cycle t0 t1 s = Raise e) /\
  (halted s = false -> exists e, run ((t0, t1) :: clock) s = Some (Raise e)).
Proof.
  intros Hwf Hfloat.
  destruct (cycle_float t0 t1 s Hwf Hfloat) as [e He].
  split; [exists e; exact He |].
  intros Hrun. exists e. simpl. rewrite Hrun, He. reflexivity.
Qed.

Lemma float_register_ends_the_run_witness :
  let s := set_reg [VFloat (S754_finite false 4503599627370496 (-50));
                    VInt 2; VInt 0; VInt 0;
                    VInt 0; VInt 0; VInt 0; VInt 0xf4] CPU_init in
  (exists e, cycle 0 0 s = Raise e) /\
  (halted s = false -> exists e, run [(0, 0)] s = Some (Raise e)).
Proof.
  intros s. apply (float_register_ends_the_run s 0 0 []).
  - split; reflexivity.
  - exists 0%nat. eexists. reflexivity.
Defined.

(** X5: DIV is true division.  A zero divisor raises [ZeroDivisionError];
    any other integer divisor either raises [OverflowError] or leaves a
    float in the destination register, never an integer, and then the cycle
    that follows raises an exception whatever PC and the clock are. *)
Theorem div_stores_a_float (s : CPU) (a b x y : Z) :
  wf s -> -8 <= a < 8 -> -8 <= b < 8 ->
  reg s !! slot a = Some (VInt x) ->
  reg s !! slot b = Some (VInt y) ->
  (y = 0 -> op_div (VInt a) (VInt b) s = Raise ZeroDivisionError) /\
  (y <> 0 ->
   op_div (VInt a) (VInt b) s = Raise OverflowError \/
   exists q,
     op_div (VInt a) (VInt b) s
     = Ok (set_reg (<[slot a := VFloat q]> (reg s)) s) /\
     forall p t0 t1,
     exists e,
       cycle t0 t1 (set_pc p (set_reg (<[slot a := VFloat q]> (reg s)) s))
       = Raise e).
Proof.
  intros Hwf Ha Hb Hx Hy.
  unfold op_div, alu. simpl String.eqb. cbv iota.
  assert (Hrb : reg_read (Some (VInt b)) s = Ok (VInt y))
    by (apply reg_getitem; assumption).
  split.
  - intros ->. unfold reg_update.
    rewrite (reg_getitem s a (VInt x) Hwf), bind_Ok by assumption.
    rewrite Hrb, bind_Ok. reflexivity.
  - intros Hy0.
    destruct (Py.truediv (VInt x) (VInt y)) as [q |] eqn:Hdiv.
    + right. unfold Py.truediv in Hdiv.
      rewrite (proj2 (Z.eqb_neq y 0) Hy0) in Hdiv.
      assert (Hq : exists q', q = VFloat q').
      { destruct (SFdiv Py.prec Py.emax (Py.exact x) (Py.exact y));
          try discriminate Hdiv; injection Hdiv as <-; eexists; reflexivity. }
      destruct Hq as [q' ->]. exists q'. split.
      * apply (reg_update_ok _ _ s a (VInt x) (VInt y)); auto.
        unfold Py.truediv. rewrite (proj2 (Z.eqb_neq y 0) Hy0). exact Hdiv.
      * intros p t0 t1. apply cycle_float.
        -- split; simpl; [rewrite length_insert |]; apply Hwf.
        -- exists (slot a), q'. simpl. apply list_lookup_insert_eq.
           destruct Hwf as [-> _]. apply (at_index_lt 8). lia.
    + left. unfold reg_update.
      rewrite (reg_getitem s a (VInt x) Hwf), bind_Ok by assumption.
      rewrite Hrb, bind_Ok, Hdiv.
      unfold Py.truediv in Hdiv.
      rewrite (proj2 (Z.eqb_neq y 0) Hy0) in Hdiv.
      destruct (SFdiv Py.prec Py.emax (Py.exact x) (Py.exact y));
        try discriminate Hdiv; injection Hdiv as <-; reflexivity.
Qed.

Lemma div_stores_a_float_witness :
  let s := set_reg [VInt 8; VInt 2; VInt 0; VInt 0;
                    VInt 0; VInt 0; VInt 0; VInt 0xf4] CPU_init in
  (2 = 0 -> op_div (VInt 0) (VInt 1) s = Raise ZeroDivisionError) /\
  (2 <> 0 ->
   op_div (VInt 0) (VInt 1) s = Raise OverflowError \/
   exists q,
     op_div (VInt 0) (VInt 1) s
     = Ok (set_reg (<[slot 0 := VFloat q]> (reg s)) s) /\
     forall p t0 t1,
     exists e,
       cycle t0 t1 (set_pc p (set_reg (<[slot 0 := VFloat q]> (reg s)) s))
       = Raise e).
Proof.
  intros s. apply (div_stores_a_float s 0 1 8 2).
  - split; reflexivity.
  - lia.
  - lia.
  - reflexivity.
  - reflexivity.
Defined.

(** The program [LDI R0,8; LDI R1,2; DIV R0,R1; PRN R0; HLT] prints nothing:
    the cycle after DIV raises [TypeError]. *)
Example div_then_prn :
  exists s0,
    load [LDI; 0; 8; LDI; 1; 2; DIV; 0; 1; PRN; 0; HLT] CPU_init = Ok s0 /\
    run (replicate 5 (0, 0)) s0 = Some (Raise TypeError).
Proof.
  eexists. split; [vm_compute; reflexivity |]. vm_compute. reflexivity.
Qed.

(** ** Compare and branch *)

(** X7: after CMP of two registers holding the integers [x] and [y], JEQ
    jumps to the address in its operand register exactly when [x = y], JNE
    when [x <> y], JLT when [x < y] and JLE when [x <= y]; a jump that is not
    taken only clears [inst_set_pc], so that the loop advances PC.  What FL
    held before the CMP does not matter. *)
Theorem cmp_then_jump (s : CPU) (a b c x y f : Z) (target o : value) :
  wf s -> -8 <= a < 8 -> -8 <= b < 8 -> -8 <= c < 8 ->
  reg s !! slot a = Some (VInt x) ->
  reg s !! slot b = Some (VInt y) ->
  reg s !! slot c = Some target ->
  fl s = VInt f ->
  exists s1,
    op_cmp (VInt a) (VInt b) s = Ok s1 /\
    op_jeq (VInt c) o s1
    = Ok (if x =? y then set_pc target s1 else set_inst_set_pc false s1) /\
    op_jne (VInt c) o s1
    = Ok (if x =? y then set_inst_set_pc false s1 else set_pc target s1) /\
    op_jlt (VInt c) o s1
    = Ok (if x <? y then set_pc target s1 else set_inst_set_pc false s1) /\
    op_jle (VInt c) o s1
    = Ok (if x <=? y then set_pc target s1 else set_inst_set_pc false s1).
Proof.
  intros Hwf Ha Hb Hc Hx Hy Htarget Hf.
  rewrite (op_cmp_ok s a b x y f) by assumption.
  eexists. split; [reflexivity |].
  match goal with
  | |- context [set_fl (VInt ?v) s] => set (f' := v); set (s1 := set_fl (VInt f') s)
  end.
  assert (Hwf1 : wf s1) by exact Hwf.
  assert (Hget : Py.getitem (reg s1) (VInt c) = Ok target)
    by (apply (reg_getitem s1 c target Hwf1); assumption).
  assert (Hflag : forall m, Z.land 0x11111000 m = 0 ->
            Py.and_ (fl s1) (VInt m)
            = Ok (VInt (Z.land (if x <? y then FL_LT
                                else if x >? y then FL_GT else FL_EQ) m))).
  { intros m Hm. subst s1 f'. simpl. unfold Py.and_, Py.int_op.
    rewrite flags_after_mask by exact Hm. reflexivity. }
  unfold op_jeq, op_jne, op_jlt, op_jle, jump_if.
  rewrite !Hflag by reflexivity. rewrite !bind_Ok, Hget, !bind_Ok.
  assert (Hcases : (x <? y) = true /\ (x =? y) = false /\ (x <=? y) = true \/
                   (x <? y) = false /\ (x >? y) = true /\
                   (x =? y) = false /\ (x <=? y) = false \/
                   (x <? y) = false /\ (x >? y) = false /\
                   (x =? y) = true /\ (x <=? y) = true).
  { destruct (Z.ltb_spec x y), (Z.gtb_spec x y), (Z.eqb_spec x y),
      (Z.leb_spec x y); try lia; auto 10. }
  destruct Hcases as [(-> & -> & ->) | [(-> & -> & -> & ->) | (-> & -> & -> & ->)]];
    repeat split; reflexivity.
Qed.

Lemma cmp_then_jump_witness :
  let s := set_reg [VInt 3; VInt 5; VInt 40; VInt 0;
                    VInt 0; VInt 0; VInt 0; VInt 0xf4] CPU_init in
  exists s1,
    op_cmp (VInt 0) (VInt 1) s = Ok s1 /\
    op_jeq (VInt 2) (VInt 0) s1
    = Ok (if 3 =? 5 then set_pc (VInt 40) s1 else set_inst_set_pc false s1) /\
    op_jne (VInt 2) (VInt 0) s1
    = Ok (if 3 =? 5 then set_inst_set_pc false s1 else set_pc (VInt 40) s1) /\
    op_jlt (VInt 2) (VInt 0) s1
    = Ok (if 3 <? 5 then set_pc (VInt 40) s1 else set_inst_set_pc false s1) /\
    op_jle (VInt 2) (VInt 0) s1
    = Ok (if 3 <=? 5 then set_pc (VInt 40) s1 else set_inst_set_pc false s1).
Proof.
  intros s. apply (cmp_then_jump s 0 1 2 3 5 0 (VInt 40) (VInt 0)).
  - split; reflexivity.
  - lia.
  - lia.
  - lia.
  - reflexivity.
  - reflexivity.
  - reflexivity.
  - reflexivity.
Defined.

(** ** What the handlers write *)

Lemma reg_write_rest (i v : value) (s s' : CPU) :
  reg_write i v s = Ok s' -> others s' = others s /\ ram s' = ram s.
Proof. unfold reg_write. intros H. ok_inv H. split; reflexivity. Qed.

Lemma ram_write_others (mdr mar : value) (s s' : CPU) :
  ram_write mdr mar s = Ok s' -> others s' = others s.
Proof. unfold ram_write. intros H. ok_inv H. reflexivity. Qed.

Lemma push_value_others (v : value) (s s' : CPU) :
  push_value v s = Ok s' -> others s' = others s.
Proof.
  unfold push_value. intros H.
  apply bind_ok in H. destruct H as (sp & _ & H).
  apply bind_ok in H. destruct H as (sp' & _ & H).
  apply bind_ok in H. destruct H as (s1 & H1 & H).
  apply bind_ok in H. destruct H as (mar & _ & H).
  apply reg_write_rest in H1. apply ram_write_others in H.
  destruct H1 as [H1 _]. congruence.
Qed.

Lemma pop_value_rest (s s' : CPU) (v : value) :
  pop_value s = Ok (v, s') -> others s' = others s /\ ram s' = ram s.
Proof.
  unfold pop_value. intros H.
  apply bind_ok in H. destruct H as (mar & _ & H).
  apply bind_ok in H. destruct H as (w & _ & H).
  apply bind_ok in H. destruct H as (sp & _ & H).
  apply bind_ok in H. destruct H as (sp' & _ & H).
  apply bind_ok in H. destruct H as (s1 & H1 & H).
  injection H as _ <-. exact (reg_write_rest _ _ _ _ H1).
Qed.

Lemma reg_update_rest (op : value -> value -> result value)
    (reg_a : value) (rhs : CPU -> result value) (s s' : CPU) :
  reg_update op reg_a rhs s = Ok s' -> others s' = others s /\ ram s' = ram s.
Proof.
  unfold reg_update. intros H.
  apply bind_ok in H. destruct H as (x & _ & H).
  apply bind_ok in H. destruct H as (y & _ & H).
  apply bind_ok in H. destruct H as (z & _ & H).
  exact (reg_write_rest _ _ _ _ H).
Qed.

Lemma pop_registers_rest (ks : list Z) :
  forall s s' : CPU,
    pop_registers ks s = Ok s' -> others s' = others s /\ ram s' = ram s.
Proof.
  induction ks as [| k ks IH]; intros s s' H; simpl in H.
  - injection H as <-. split; reflexivity.
  - apply bind_ok in H. destruct H as ([v s1] & Hpop & H). simpl in H.
    apply bind_ok in H. destruct H as (s2 & Hwrite & H).
    apply IH in H. apply pop_value_rest in Hpop.
    apply reg_write_rest in Hwrite.
    destruct H as [-> ->], Hwrite as [-> ->], Hpop as [-> ->].
    split; reflexivity.
Qed.

Lemma push_registers_others (ks : list Z) :
  forall s s' : CPU, push_registers ks s = Ok s' -> others s' = others s.
Proof.
  induction ks as [| k ks IH]; intros s s' H; simpl in H.
  - injection H as <-. reflexivity.
  - apply bind_ok in H. destruct H as (v & _ & H).
    apply bind_ok in H. destruct H as (s1 & Hpush & H).
    apply IH in H. apply push_value_others in Hpush. congruence.
Qed.

Ltac rest_facts :=
  repeat match goal with
    | E : reg_write _ _ _ = Ok _ |- _ => apply reg_write_rest in E
    | E : ram_write _ _ _ = Ok _ |- _ => apply ram_write_others in E
    | E : push_value _ _ = Ok _ |- _ => apply push_value_others in E
    | E : pop_value _ = Ok (_, _) |- _ => apply pop_value_rest in E
    | E : reg_update _ _ _ _ = Ok _ |- _ => apply reg_update_rest in E
    | E : pop_registers _ _ = Ok _ |- _ => apply pop_registers_rest in E
    | E : _ /\ _ |- _ => destruct E
    end.

Ltac unfold_handlers H :=
  unfold op_add, op_and, op_call, op_cmp, op_dec, op_div, op_hlt, op_inc,
    op_iret, op_jeq, op_jle, op_jlt, op_jmp, op_jne, op_ld, op_ldi, op_mul,
    op_or, op_pop, op_pra, op_prn, op_push, op_ret, op_shl, op_st, op_sub,
    op_xor, alu, jump_if in H;
  simpl String.eqb in H; cbv iota in H.

(** X8: among the handlers only ST, PUSH and CALL write memory: every other
    handler that returns leaves all 256 cells as they were. *)
Theorem memory_frame (opcode : Z) (op : handler) (a b : value) (s s' : CPU) :
  branch_table opcode = Some op ->
  opcode <> ST -> opcode <> PUSH -> opcode <> CALL ->
  op a b s = Ok s' ->
  ram s' = ram s.
Proof.
  intros Htable Hst Hpush Hcall Hrun.
  table_cases Htable; try contradiction;
    unfold_handlers Hrun; ok_inv Hrun; rest_facts;
    unfold others in *; simpl in *; congruence.
Qed.

Lemma memory_frame_witness :
  ram (set_reg (<[0%nat := VInt 8]> (reg CPU_init)) CPU_init) = ram CPU_init.
Proof.
  apply (memory_frame LDI op_ldi (VInt 0) (VInt 8) CPU_init).
  - reflexivity.
  - discriminate.
  - discriminate.
  - discriminate.
  - vm_compute. reflexivity.
Defined.

(** X9: a handler that returns has appended to the output only if it is PRN
    or PRA, has set [halted] only if it is HLT, has written IE only if it is
    IRET, and has not touched the timer's [last_interrupt]. *)
Theorem output_halt_ie_frame
    (opcode : Z) (op : handler) (a b : value) (s s' : CPU) :
  branch_table opcode = Some op ->
  op a b s = Ok s' ->
  (opcode <> PRN -> opcode <> PRA -> stdout s' = stdout s) /\
  (opcode <> HLT -> halted s' = halted s) /\
  (opcode <> IRET -> ie s' = ie s) /\
  last_interrupt s' = last_interrupt s.
Proof.
  intros Htable Hrun.
  table_cases Htable;
    unfold_handlers Hrun; ok_inv Hrun; rest_facts;
    unfold others in *; simpl in *;
    repeat split; intros; try contradiction; congruence.
Qed.

Lemma output_halt_ie_frame_witness :
  let s' := set_reg (<[0%nat := VInt 8]> (reg CPU_init)) CPU_init in
  (LDI <> PRN -> LDI <> PRA -> stdout s' = stdout CPU_init) /\
  (LDI <> HLT -> halted s' = halted CPU_init) /\
  (LDI <> IRET -> ie s' = ie CPU_init) /\
  last_interrupt s' = last_interrupt CPU_init.
Proof.
  intros s'.
  apply (output_halt_ie_frame LDI op_ldi (VInt 0) (VInt 8) CPU_init).
  - reflexivity.
  - vm_compute. reflexivity.
Defined.

(** ** Output of a run *)

Lemma handler_output (opcode : Z) (op : handler) (a b : value) (s s' : CPU) :
  branch_table opcode = Some op ->
  op a b s = Ok s' ->
  stdout s' = stdout s \/ exists o, stdout s' = stdout s ++ [o].
Proof.
  intros Htable Hrun.
  table_cases Htable;
    unfold_handlers Hrun; ok_inv Hrun; rest_facts;
    unfold others in *; simpl in *;
    first [ left; congruence | right; eexists; reflexivity ].
Qed.

Lemma check_timer_interrupt_others (t0 t1 : Z) (s s' : CPU) :
  check_timer_interrupt t0 t1 s = Ok s' ->
  stdout s' = stdout s /\ halted s' = halted s /\ ie s' = ie s.
Proof.
  intros H. unfold check_timer_interrupt in H.
  destruct (1 <=? _); [| injection H as <-; repeat split].
  apply bind_ok in H. destruct H as (status & _ & H).
  apply bind_ok in H. destruct H as (status' & _ & H).
  apply reg_write_rest in H. destruct H as [H _].
  unfold others in H. simpl in H. injection H. intros.
  repeat split; congruence.
Qed.

Lemma service_interrupt_others (i : Z) (s s' : CPU) :
  service_interrupt i s = Ok s' ->
  stdout s' = stdout s /\ halted s' = halted s /\ ie s' = 0.
Proof.
  intros H. unfold service_interrupt in H. cbv zeta in H.
  apply bind_ok in H. destruct H as (st & _ & H).
  apply bind_ok in H. destruct H as (st' & _ & H).
  apply bind_ok in H. destruct H as (s1 & H1 & H).
  apply bind_ok in H. destruct H as (s2 & H2 & H).
  apply bind_ok in H. destruct H as (s3 & H3 & H).
  apply bind_ok in H. destruct H as (s4 & H4 & H).
  apply bind_ok in H. destruct H as (v & _ & H). injection H as <-.
  apply reg_write_rest in H1. destruct H1 as [H1 _].
  apply push_value_others in H2, H3. apply push_registers_others in H4.
  assert (Hall : others s4 = others (set_ie 0 s)) by congruence.
  unfold others in Hall. simpl in Hall. injection Hall. intros.
  repeat split; simpl; assumption.
Qed.

Lemma handle_interrupts_cases (s s' : CPU) :
  handle_interrupts s = Ok s' ->
  s' = s \/ exists i, service_interrupt i s = Ok s'.
Proof.
  intros H. unfold handle_interrupts in H.
  destruct (ie s =? 0); [injection H as <-; left; reflexivity |].
  apply bind_ok in H. destruct H as (mask & _ & H).
  apply bind_ok in H. destruct H as (status & _ & H).
  apply bind_ok in H. destruct H as (masked & _ & H).
  revert H. generalize (range 8). intros lines.
  induction lines as [| i lines IH]; simpl; intros H.
  - injection H as <-. left. reflexivity.
  - apply bind_ok in H. destruct H as (t & _ & H).
    destruct (Py.truthy t); [right; exists i; exact H | exact (IH H)].
Qed.

Lemma handle_interrupts_others (s s' : CPU) :
  handle_interrupts s = Ok s' ->
  stdout s' = stdout s /\ halted s' = halted s.
Proof.
  intros H. apply handle_interrupts_cases in H.
  destruct H as [-> | [i H]]; [split; reflexivity |].
  apply service_interrupt_others in H. tauto.
Qed.

Lemma execute_output (s s' : CPU) :
  execute s = Ok s' ->
  stdout s' = stdout s \/ exists o, stdout s' = stdout s ++ [o].
Proof.
  intros H. unfold execute in H.
  repeat (apply bind_ok in H; destruct H as (? & _ & H)).
  destruct x as [opcode |]; [| discriminate H].
  simpl pc in H. destruct (pc s) as [address |]; [| discriminate H].
  destruct (branch_table opcode) as [op |] eqn:Htable; [| discriminate H].
  apply bind_ok in H. destruct H as (s2 & Hop & H).
  apply (handler_output opcode op _ _ _ _ Htable) in Hop. simpl in Hop.
  destruct (inst_set_pc s2); [injection H as <-; exact Hop |].
  apply bind_ok in H. destruct H as (p' & _ & H). injection H as <-.
  exact Hop.
Qed.

Lemma cycle_output (t0 t1 : Z) (s s' : CPU) :
  cycle t0 t1 s = Ok s' ->
  stdout s' = stdout s \/ exists o, stdout s' = stdout s ++ [o].
Proof.
  intros H. unfold cycle in H.
  apply bind_ok in H. destruct H as (s1 & H1 & H).
  apply bind_ok in H. destruct H as (s2 & H2 & H).
  apply check_timer_interrupt_others in H1. destruct H1 as (<- & _).
  apply handle_interrupts_others in H2. destruct H2 as (<- & _).
  apply execute_output, H.
Qed.

(** X10: when [run] returns, the machine is halted and the output it
    started with is a prefix of the final output: output is only appended,
    at most one item per cycle. *)
Theorem run_appends_output (clock : list (Z * Z)) (s s' : CPU) :
  run clock s = Some (Ok s') ->
  halted s' = true /\
  exists l, stdout s' = stdout s ++ l /\ (length l <= length clock)%nat.
Proof.
  revert s. induction clock as [| [t0 t1] clock IH]; intros s H; simpl in H.
  - destruct (halted s) eqn:Hh; [| discriminate H]. injection H as <-.
    split; [exact Hh |]. exists []. rewrite app_nil_r. split; [reflexivity |].
    simpl. lia.
  - destruct (halted s) eqn:Hh.
    + injection H as <-. split; [exact Hh |]. exists [].
      rewrite app_nil_r. split; [reflexivity |]. simpl. lia.
    + destruct (cycle t0 t1 s) as [s1 |] eqn:Hcycle; [| discriminate H].
      destruct (IH s1 H) as (Hhalt & l & Hl & Hlen).
      split; [exact Hhalt |].
      destruct (cycle_output t0 t1 s s1 Hcycle) as [Heq | [o Heq]];
        rewrite Heq in Hl.
      * exists l. split; [exact Hl |]. simpl. lia.
      * exists (o :: l). rewrite <- app_assoc in Hl.
        split; [exact Hl |]. simpl. lia.
Qed.

Lemma run_appends_output_witness :
  let s0 := set_ram (<[0%nat := VInt PRN]> (<[2%nat := VInt HLT]>
                       (ram CPU_init))) CPU_init in
  let s' := set_halted true (set_pc (VInt 3)
              (print (PrintLine (VInt 0))
                 (set_last_interrupt (Some 0) s0))) in
  halted s' = true /\
  exists l, stdout s' = stdout s0 ++ l /\
            (length l <= length [(0, 0); (0, 0)])%nat.
Proof.
  intros s0 s'. apply (run_appends_output [(0, 0); (0, 0)] s0 s').
  vm_compute. reflexivity.
Defined.

(** ** Interrupts are not nested *)

(** X11: a second call of [handle_interrupts] on the state the first one
    returned changes nothing: after an interrupt entry IE is 0, so no line is
    serviced before IRET enables interrupts again, whatever is pending. *)
Theorem interrupts_do_not_nest (s s1 : CPU) :
  handle_interrupts s = Ok s1 ->
  handle_interrupts s1 = Ok s1 /\
  (s1 = s \/ ie s1 = 0).
Proof.
  intros H. pose proof (handle_interrupts_cases s s1 H) as [-> | [i Hi]].
  - split; [exact H | left; reflexivity].
  - apply service_interrupt_others in Hi. destruct Hi as (_ & _ & Hie).
    split; [| right; exact Hie].
    unfold handle_interrupts. rewrite Hie. reflexivity.
Qed.

Lemma interrupts_do_not_nest_witness :
  let s := set_reg [VInt 0; VInt 0; VInt 0; VInt 0;
                    VInt 0; VInt 3; VInt 3; VInt 0xf4] CPU_init in
  exists s1,
    handle_interrupts s = Ok s1 /\
    handle_interrupts s1 = Ok s1 /\
    (s1 = s \/ ie s1 = 0).
Proof.
  intros s. eexists. split; [vm_compute; reflexivity |].
  apply (interrupts_do_not_nest s). vm_compute. reflexivity.
Defined.

(** ** The timer *)

Lemma check_timer_interrupt_quiet (t0 t1 : Z) (s : CPU) :
  ((t1 - default t0 (last_interrupt s)) / 1000000) mod 86400 = 0 ->
  check_timer_interrupt t0 t1 s
  = Ok (set_last_interrupt (Some (default t0 (last_interrupt s))) s).
Proof.
  intros H. unfold check_timer_interrupt. rewrite H. reflexivity.
Qed.

Lemma check_timer_interrupt_fires (t0 t1 status : Z) (s : CPU) :
  wf s -> reg s !! 6%nat = Some (VInt status) ->
  ((t1 - default t0 (last_interrupt s)) / 1000000) mod 86400 <> 0 ->
  check_timer_interrupt t0 t1 s
  = Ok (set_reg (<[6%nat := VInt (Z.lor status IS_TIMER)]> (reg s))
                (set_last_interrupt (Some t1) s)).
Proof.
  intros Hwf Hstatus H. unfold check_timer_interrupt.
  pose proof (Z.mod_pos_bound
                ((t1 - default t0 (last_interrupt s)) / 1000000) 86400
                ltac:(lia)) as Hbound.
  rewrite (proj2 (Z.leb_le 1 _)) by lia.
  cbv zeta.
  assert (Hwf' : wf (set_last_interrupt (Some t1)
                       (set_last_interrupt
                          (Some (default t0 (last_interrupt s))) s)))
    by exact Hwf.
  rewrite (reg_getitem _ IS (VInt status) Hwf')
    by first [exact Hstatus | unfold IS; lia].
  rewrite bind_Ok. unfold Py.or_, Py.int_op. rewrite bind_Ok.
  rewrite (reg_write_in_range _ IS _ Hwf') by (unfold IS; lia).
  reflexivity.
Qed.

(** X12: the timer fires exactly when the seconds field of the time elapsed
    since [last_interrupt], [(elapsed / 10^6) mod 86400] for an elapsed time
    in microseconds, is not zero.  When it fires it sets bit 0 of IS, leaves
    the other bits, and records the new time; otherwise it only records the
    first reading.  So it fires for an elapsed time from one second up to one
    day, and does not fire during the first second, nor during the first
    second after a whole day (the days of the difference are ignored). *)
Theorem timer_fires_on_seconds_field (s : CPU) (t0 t1 status : Z) :
  wf s -> reg s !! 6%nat = Some (VInt status) ->
  let last := default t0 (last_interrupt s) in
  let elapsed := t1 - last in
  let seconds := (elapsed / 1000000) mod 86400 in
  (seconds = 0 ->
   check_timer_interrupt t0 t1 s = Ok (set_last_interrupt (Some last) s)) /\
  (seconds <> 0 ->
   check_timer_interrupt t0 t1 s
   = Ok (set_reg (<[6%nat := VInt (Z.lor status IS_TIMER)]> (reg s))
                 (set_last_interrupt (Some t1) s)) /\
   Z.testbit (Z.lor status IS_TIMER) 0 = true /\
   forall i, i <> 0 ->
             Z.testbit (Z.lor status IS_TIMER) i = Z.testbit status i) /\
  (0 <= elapsed < 1000000 -> seconds = 0) /\
  (1000000 <= elapsed < 86400000000 -> seconds <> 0) /\
  (86400000000 <= elapsed < 86401000000 -> seconds = 0).
Proof.
  intros Hwf Hstatus last elapsed seconds.
  split; [| split; [| split; [| split]]].
  - intros H. apply check_timer_interrupt_quiet. exact H.
  - intros H. split; [apply check_timer_interrupt_fires; assumption |].
    split.
    + rewrite Z.lor_spec. apply orb_true_r.
    + intros i Hi. rewrite Z.lor_spec.
      change IS_TIMER with (2 ^ 0). rewrite Z.pow2_bits_eqb by lia.
      rewrite (proj2 (Z.eqb_neq 0 i)) by lia. apply orb_false_r.
  - intros H. subst seconds. rewrite (Z.div_small elapsed) by lia.
    reflexivity.
  - intros H. subst seconds.
    assert (1 <= elapsed / 1000000)
      by (apply Z.div_le_lower_bound; lia).
    assert (elapsed / 1000000 < 86400)
      by (apply Z.div_lt_upper_bound; lia).
    rewrite Z.mod_small by lia. lia.
  - intros H. subst seconds.
    assert (86400 <= elapsed / 1000000)
      by (apply Z.div_le_lower_bound; lia).
    assert (elapsed / 1000000 < 86401)
      by (apply Z.div_lt_upper_bound; lia).
    replace (elapsed / 1000000) with 86400 by lia. reflexivity.
Qed.

Lemma timer_fires_on_seconds_field_witness :
  let s := set_last_interrupt (Some 5000000) CPU_init in
  let last := default 0 (last_interrupt s) in
  let elapsed := 6500000 - last in
  let seconds := (elapsed / 1000000) mod 86400 in
  (seconds = 0 ->
   check_timer_interrupt 0 6500000 s = Ok (set_last_interrupt (Some last) s)) /\
  (seconds <> 0 ->
   check_timer_interrupt 0 6500000 s
   = Ok (set_reg (<[6%nat := VInt (Z.lor 0 IS_TIMER)]> (reg s))
                 (set_last_interrupt (Some 6500000) s)) /\
   Z.testbit (Z.lor 0 IS_TIMER) 0 = true /\
   forall i, i <> 0 -> Z.testbit (Z.lor 0 IS_TIMER) i = Z.testbit 0 i) /\
  (0 <= elapsed < 1000000 -> seconds = 0) /\
  (1000000 <= elapsed < 86400000000 -> seconds <> 0) /\
  (86400000000 <= elapsed < 86401000000 -> seconds = 0).
Proof.
  apply (timer_fires_on_seconds_field
           (set_last_interrupt (Some 5000000) CPU_init) 0 6500000 0).
  - split; reflexivity.
  - reflexivity.
Defined.

(** X13: when the timer fires with interrupts enabled, bit 0 set in IM and
    room for nine values on the stack, the same cycle enters the timer
    interrupt: IE becomes 0, the old PC is on top of the saved frame, PC is
    loaded from address [0xF8], and bit 0 of IS is clear again. *)
Theorem timer_interrupt_is_serviced (s : CPU) (t0 t1 mask status sp : Z) :
  wf s -> ie s <> 0 ->
  reg s !! 5%nat = Some (VInt mask) ->
  reg s !! 6%nat = Some (VInt status) ->
  reg s !! 7%nat = Some (VInt sp) ->
  Z.testbit mask 0 = true ->
  -256 <= sp - 9 -> sp <= 256 ->
  ((t1 - default t0 (last_interrupt s)) / 1000000) mod 86400 <> 0 ->
  exists s1 s2,
    check_timer_interrupt t0 t1 s = Ok s1 /\
    handle_interrupts s1 = Ok s2 /\
    ie s2 = 0 /\
    ram s2 !! cell 0xf8 = Some (pc s2) /\
    ram s2 !! cell (sp - 1) = Some (pc s) /\
    reg s2 !! 7%nat = Some (VInt (sp - 9)) /\
    (exists status', reg s2 !! 6%nat = Some (VInt status') /\
                     Z.testbit status' 0 = false) /\
    last_interrupt s2 = Some t1.
Proof.
  intros Hwf Hie Hmask Hstatus Hsp Hbit Hlo Hhi Hfire.
  assert (Hlen : length (reg s) = 8%nat) by apply Hwf.
  set (s1 := set_reg (<[6%nat := VInt (Z.lor status IS_TIMER)]> (reg s))
                     (set_last_interrupt (Some t1) s)).
  assert (Hwf1 : wf s1).
  { split; simpl; [rewrite length_insert |]; apply Hwf. }
  assert (Hmask1 : reg s1 !! 5%nat = Some (VInt mask)).
  { simpl. rewrite list_lookup_insert_ne by lia. exact Hmask. }
  assert (Hstatus1 : reg s1 !! 6%nat = Some (VInt (Z.lor status IS_TIMER))).
  { simpl. apply list_lookup_insert_eq. lia. }
  assert (Hsp1 : reg s1 !! 7%nat = Some (VInt sp)).
  { simpl. rewrite list_lookup_insert_ne by lia. exact Hsp. }
  assert (Hmasked : Z.testbit (Z.land mask (Z.lor status IS_TIMER)) 0 = true).
  { rewrite Z.land_spec, Z.lor_spec, Hbit. apply orb_true_r. }
  destruct (service_interrupt_ok s1 (Z.lor status IS_TIMER) sp 0
              Hwf1 Hstatus1 Hsp1 Hlo Hhi ltac:(lia))
    as (s2 & v & Hrun & Hwf2 & Hsame & Hreg & Hvals & Hrest & Hv).
  exists s1, (set_pc v s2).
  split; [apply check_timer_interrupt_fires; assumption |].
  split.
  { rewrite (handle_interrupts_scan s1 mask (Z.lor status IS_TIMER))
      by assumption.
    rewrite (scan_interrupts_lowest _ 0); [exact Hrun | lia | exact Hmasked |].
    intros j Hj. lia. }
  unfold same_but_lists in Hsame.
  split; [rewrite Hsame; reflexivity |].
  split; [exact Hv |].
  split.
  { simpl. replace (sp - 1) with (sp - 1 - Z.of_nat 0) by lia.
    apply Hvals. reflexivity. }
  split.
  { simpl. rewrite Hreg. apply list_lookup_insert_eq. simpl.
    rewrite !length_insert. lia. }
  split.
  { exists (Z.clearbit (Z.lor status IS_TIMER) 0). split.
    - simpl. rewrite Hreg. rewrite list_lookup_insert_ne by lia.
      simpl. apply list_lookup_insert_eq. rewrite length_insert. lia.
    - apply Z.clearbit_eq. }
  rewrite Hsame. reflexivity.
Qed.

Lemma timer_interrupt_is_serviced_witness :
  let s := set_reg [VInt 0; VInt 0; VInt 0; VInt 0;
                    VInt 0; VInt 1; VInt 0; VInt 0xf4]
                   (set_last_interrupt (Some 0) (set_pc (VInt 33) CPU_init)) in
  exists s1 s2,
    check_timer_interrupt 0 1000000 s = Ok s1 /\
    handle_interrupts s1 = Ok s2 /\
    ie s2 = 0 /\
    ram s2 !! cell 0xf8 = Some (pc s2) /\
    ram s2 !! cell (0xf4 - 1) = Some (pc s) /\
    reg s2 !! 7%nat = Some (VInt (0xf4 - 9)) /\
    (exists status', reg s2 !! 6%nat = Some (VInt status') /\
                     Z.testbit status' 0 = false) /\
    last_interrupt s2 = Some 1000000.
Proof.
  intros s. apply (timer_interrupt_is_serviced s 0 1000000 1 0 0xf4).
  - split; reflexivity.
  - discriminate.
  - reflexivity.
  - reflexivity.
  - reflexivity.
  - reflexivity.
  - lia.
  - lia.
  - vm_compute. discriminate.
Defined.

(** ** Loading a program *)

Lemma setitem_nat {A} (l : list A) (k : nat) (x : A) :
  (k < length l)%nat -> Py.setitem l (VInt (Z.of_nat k)) x = Ok (<[k := x]> l).
Proof.
  intros Hk. rewrite setitem_in_range by lia. unfold at_index.
  rewrite (proj2 (Z.ltb_ge (Z.of_nat k) 0)) by lia. rewrite Nat2Z.id.
  reflexivity.
Qed.

Lemma load_from_ok (program : list Z) :
  forall (s : CPU) (k : nat),
    wf s -> (k + length program <= 256)%nat ->
    exists s',
      load_from (Z.of_nat k) program s = Ok s' /\
      s' = set_ram (ram s') s /\ wf s' /\
      (forall (j : nat) v, program !! j = Some v ->
                           ram s' !! (k + j)%nat = Some (VInt v)) /\
      (forall j : nat, (j < k \/ k + length program <= j)%nat ->
                       ram s' !! j = ram s !! j).
Proof.
  induction program as [| val rest IH]; intros s k Hwf Hlen.
  - exists s. simpl. repeat split; try apply Hwf.
    + destruct s; reflexivity.
    + intros j v Hj. rewrite lookup_nil in Hj. discriminate.
  - simpl length in Hlen. assert (Hm : length (ram s) = 256%nat) by apply Hwf.
    simpl. rewrite setitem_nat, bind_Ok by lia.
    replace (Z.of_nat k + 1) with (Z.of_nat (S k)) by lia.
    destruct (IH (set_ram (<[k := VInt val]> (ram s)) s) (S k))
      as (s' & Hload & Hsame & Hwf' & Hvals & Hrest).
    { apply wf_set_ram, Hwf. }
    { lia. }
    exists s'. split; [exact Hload |]. split; [| split; [exact Hwf' | split]].
    + rewrite Hsame at 1. reflexivity.
    + intros [| j] v Hj; simpl in Hj.
      * injection Hj as <-. rewrite Nat.add_0_r.
        rewrite Hrest by lia. simpl. apply list_lookup_insert_eq. lia.
      * replace (k + S j)%nat with (S k + j)%nat by lia. apply Hvals, Hj.
    + intros j Hj. simpl length in Hj. rewrite Hrest by lia. simpl.
      apply list_lookup_insert_ne. lia.
Qed.

Lemma load_from_overflow (program : list Z) :
  forall (s : CPU) (k : nat),
    wf s -> (k <= 256)%nat -> (256 < k + length program)%nat ->
    load_from (Z.of_nat k) program s = Raise IndexError.
Proof.
  induction program as [| val rest IH]; intros s k Hwf Hk Hlen.
  - simpl in Hlen. lia.
  - simpl length in Hlen. assert (Hm : length (ram s) = 256%nat) by apply Hwf.
    simpl. destruct (Nat.eq_dec k 256%nat) as [-> | Hne].
    + unfold Py.setitem. rewrite index_out_of_range by (rewrite Hm; lia).
      reflexivity.
    + rewrite setitem_nat, bind_Ok by lia.
      replace (Z.of_nat k + 1) with (Z.of_nat (S k)) by lia.
      apply IH; [apply wf_set_ram, Hwf | lia | lia].
Qed.

(** X14: the values read from the program file are stored in memory from
    address 0 upwards, in file order, leaving the cells after them and every
    other field as they were.  A program of more than 256 values does not
    wrap and is not truncated: the store of the 257th value raises
    [IndexError]. *)
Theorem load_stores_the_program (program : list Z) (s : CPU) :
  wf s ->
  ((length program <= 256)%nat ->
   exists s',
     load program s = Ok s' /\
     s' = set_ram (ram s') s /\ wf s' /\
     (forall (j : nat) v, program !! j = Some v ->
                          ram s' !! j = Some (VInt v)) /\
     (forall j : nat, (length program <= j)%nat -> ram s' !! j = ram s !! j)) /\
  ((256 < length program)%nat -> load program s = Raise IndexError).
Proof.
  intros Hwf. split.
  - intros Hlen.
    destruct (load_from_ok program s 0 Hwf) as (s' & H1 & H2 & H3 & H4 & H5);
      [lia |].
    exists s'. split; [exact H1 |]. split; [exact H2 |]. split; [exact H3 |].
    split; [exact H4 |]. intros j Hj. apply H5. lia.
  - intros Hlen. apply (load_from_overflow program s 0 Hwf); lia.
Qed.

Lemma load_stores_the_program_witness :
  ((length [LDI; 0%Z; 8%Z; HLT] <= 256)%nat ->
   exists s',
     load [LDI; 0; 8; HLT] CPU_init = Ok s' /\
     s' = set_ram (ram s') CPU_init /\ wf s' /\
     (forall (j : nat) v, [LDI; 0; 8; HLT] !! j = Some v ->
                          ram s' !! j = Some (VInt v)) /\
     (forall j : nat, (length [LDI; 0%Z; 8%Z; HLT] <= j)%nat ->
                      ram s' !! j = ram CPU_init !! j)) /\
  ((256 < length [LDI; 0%Z; 8%Z; HLT])%nat ->
   load [LDI; 0; 8; HLT] CPU_init = Raise IndexError).
Proof.
  apply (load_stores_the_program [LDI; 0; 8; HLT] CPU_init).
  split; reflexivity.
Defined.

(** ** The stack pointer as an operand *)

(** X15: POP into register 7 leaves SP holding the popped value, not the
    incremented stack pointer, because the register is assigned after
    [pop_value] has incremented it; PUSH of register 7 stores the value SP
    had before the decrement. *)
Theorem stack_pointer_as_operand (s : CPU) (sp : Z) (v o : value) :
  wf s -> reg s !! 7%nat = Some (VInt sp) ->
  (-256 <= sp < 256 -> ram s !! cell sp = Some v ->
   op_pop (VInt SP) o s = Ok (set_reg (<[7%nat := v]> (reg s)) s)) /\
  (-256 <= sp - 1 < 256 ->
   op_push (VInt SP) o s = Ok (pushed sp (VInt sp) s)).
Proof.
  intros Hwf Hsp. split.
  - intros Hrange Hv. unfold op_pop.
    rewrite (pop_value_ok s sp v Hwf Hsp Hrange Hv), bind_Ok.
    cbv beta iota.
    rewrite reg_write_in_range by (try apply wf_popped; (assumption || unfold SP; lia)).
    change (slot SP) with 7%nat. simpl.
    rewrite list_insert_insert_eq. reflexivity.
  - intros Hrange. unfold op_push.
    rewrite (reg_getitem s SP (VInt sp) Hwf), bind_Ok
      by first [exact Hsp | unfold SP; lia].
    apply push_value_ok; assumption.
Qed.

Lemma stack_pointer_as_operand_witness :
  (-256 <= 0xf4 < 256 -> ram CPU_init !! cell 0xf4 = Some (VInt 0) ->
   op_pop (VInt SP) (VInt 0) CPU_init
   = Ok (set_reg (<[7%nat := VInt 0]> (reg CPU_init)) CPU_init)) /\
  (-256 <= 0xf4 - 1 < 256 ->
   op_push (VInt SP) (VInt 0) CPU_init
   = Ok (pushed 0xf4 (VInt 0xf4) CPU_init)).
Proof.
  apply (stack_pointer_as_operand CPU_init 0xf4 (VInt 0) (VInt 0)).
  - split; reflexivity.
  - reflexivity.
Defined.

(** ** Integers and floats *)

Lemma add_int (x y z : value) :
  is_int x -> is_int y -> Py.add x y = Ok z -> is_int z.
Proof.
  destruct x, y; simpl; try contradiction.
  intros _ _ H. injection H as <-. exact I.
Qed.

Lemma sub_int (x y z : value) :
  is_int x -> is_int y -> Py.sub x y = Ok z -> is_int z.
Proof.
  destruct x, y; simpl; try contradiction.
  intros _ _ H. injection H as <-. exact I.
Qed.

Lemma mul_int (x y z : value) :
  is_int x -> is_int y -> Py.mul x y = Ok z -> is_int z.
Proof.
  destruct x, y; simpl; try contradiction.
  intros _ _ H. injection H as <-. exact I.
Qed.

Lemma int_op_int (op : Z -> Z -> Z) (x y z : value) :
  Py.int_op op x y = Ok z -> is_int z.
Proof.
  destruct x, y; simpl; intros H; try discriminate H.
  injection H as <-. exact I.
Qed.

Lemma and_int (x y z : value) : Py.and_ x y = Ok z -> is_int z.
Proof. apply int_op_int. Qed.

Lemma or_int (x y z : value) : Py.or_ x y = Ok z -> is_int z.
Proof. apply int_op_int. Qed.

Lemma xor_int (x y z : value) : Py.xor x y = Ok z -> is_int z.
Proof. apply int_op_int. Qed.

Lemma lshift_int (x y z : value) : Py.lshift x y = Ok z -> is_int z.
Proof.
  destruct x as [a |], y as [b |]; simpl; intros H; try discriminate H.
  destruct (b <? 0); [discriminate H |]. injection H as <-. exact I.
Qed.

Lemma rshift_int (x y z : value) : Py.rshift x y = Ok z -> is_int z.
Proof.
  destruct x as [a |], y as [b |]; simpl; intros H; try discriminate H.
  destruct (b <? 0); [discriminate H |]. injection H as <-. exact I.
Qed.

Lemma truediv_float (x y z : value) :
  Py.truediv x y = Ok z -> exists q, z = VFloat q.
Proof.
  unfold Py.truediv. intros H.
  destruct x as [a | x], y as [b | y].
  - destruct (b =? 0); [discriminate H |].
    destruct (SFdiv _ _ _ _); try discriminate H;
      injection H as <-; eexists; reflexivity.
  - ok_inv H; eexists; reflexivity.
  - ok_inv H; eexists; reflexivity.
  - ok_inv H; eexists; reflexivity.
Qed.

Lemma index_lt (len : nat) (i : value) (k : nat) :
  Py.index len i = Ok k -> (k < len)%nat.
Proof.
  destruct i as [n |]; simpl; [| discriminate].
  destruct (_ || _) eqn:E; [discriminate |]. intros H. injection H as <-.
  apply orb_false_iff in E. destruct E as [E1 E2].
  apply Z.ltb_ge in E1. apply Z.leb_gt in E2. lia.
Qed.

Lemma getitem_Forall {A} (P : A -> Prop) (l : list A) (i : value) (x : A) :
  Forall P l -> Py.getitem l i = Ok x -> P x.
Proof.
  intros HP H. unfold Py.getitem in H.
  apply bind_ok in H. destruct H as (k & _ & H).
  destruct (l !! k) eqn:E; [| discriminate H]. injection H as <-.
  exact (Forall_lookup_1 _ _ _ _ HP E).
Qed.

Lemma setitem_Forall {A} (P : A -> Prop) (l l' : list A) (i : value) (x : A) :
  Forall P l -> P x -> Py.setitem l i x = Ok l' -> Forall P l'.
Proof.
  intros HP Hx H. unfold Py.setitem in H.
  apply bind_ok in H. destruct H as (k & _ & H). injection H as <-.
  apply Forall_insert; assumption.
Qed.

Lemma getitem_reg_int (s : CPU) (i x : value) :
  int_state s -> Py.getitem (reg s) i = Ok x -> is_int x.
Proof. intros (_ & _ & Hr & _). apply getitem_Forall, Hr. Qed.

Lemma ram_read_int (s : CPU) (i x : value) :
  int_state s -> ram_read i s = Ok x -> is_int x.
Proof. intros (_ & _ & _ & Hm). apply getitem_Forall, Hm. Qed.

Lemma reg_write_int (i v : value) (s s' : CPU) :
  int_state s -> is_int v -> reg_write i v s = Ok s' -> int_state s'.
Proof.
  intros (Hp & Hf & Hr & Hm) Hv H. unfold reg_write in H.
  apply bind_ok in H. destruct H as (r & E & H). injection H as <-.
  split; [exact Hp |]. split; [exact Hf |]. split; [| exact Hm].
  exact (setitem_Forall _ _ _ _ _ Hr Hv E).
Qed.

Lemma ram_write_int (mdr mar : value) (s s' : CPU) :
  int_state s -> is_int mdr -> ram_write mdr mar s = Ok s' -> int_state s'.
Proof.
  intros (Hp & Hf & Hr & Hm) Hv H. unfold ram_write in H.
  apply bind_ok in H. destruct H as (m & E & H). injection H as <-.
  split; [exact Hp |]. split; [exact Hf |]. split; [exact Hr |].
  exact (setitem_Forall _ _ _ _ _ Hm Hv E).
Qed.

Lemma push_value_int (v : value) (s s' : CPU) :
  int_state s -> is_int v -> push_value v s = Ok s' -> int_state s'.
Proof.
  intros Hs Hv H. unfold push_value in H.
  apply bind_ok in H. destruct H as (sp & E1 & H).
  apply bind_ok in H. destruct H as (sp' & E2 & H).
  apply bind_ok in H. destruct H as (s1 & E3 & H).
  apply bind_ok in H. destruct H as (mar & _ & H).
  apply (getitem_reg_int _ _ _ Hs) in E1.
  apply (sub_int _ (VInt 1) _ E1 I) in E2.
  apply (reg_write_int _ _ _ _ Hs E2) in E3.
  exact (ram_write_int _ _ _ _ E3 Hv H).
Qed.

Lemma pop_value_int (s s' : CPU) (v : value) :
  int_state s -> pop_value s = Ok (v, s') -> is_int v /\ int_state s'.
Proof.
  intros Hs H. unfold pop_value in H.
  apply bind_ok in H. destruct H as (mar & _ & H).
  apply bind_ok in H. destruct H as (v' & E1 & H).
  apply bind_ok in H. destruct H as (sp & E2 & H).
  apply bind_ok in H. destruct H as (sp' & E3 & H).
  apply bind_ok in H. destruct H as (s1 & E4 & H).
  injection H as -> ->.
  apply (ram_read_int _ _ _ Hs) in E1.
  apply (getitem_reg_int _ _ _ Hs) in E2.
  apply (add_int _ (VInt 1) _ E2 I) in E3.
  split; [exact E1 |]. exact (reg_write_int _ _ _ _ Hs E3 E4).
Qed.

Lemma push_registers_int (ks : list Z) :
  forall s s', int_state s -> push_registers ks s = Ok s' -> int_state s'.
Proof.
  induction ks as [| k ks IH]; intros s s' Hs H; simpl in H.
  - injection H as <-. exact Hs.
  - apply bind_ok in H. destruct H as (v & E & H).
    apply bind_ok in H. destruct H as (s1 & Hpush & H).
    apply (getitem_reg_int _ _ _ Hs) in E.
    exact (IH _ _ (push_value_int _ _ _ Hs E Hpush) H).
Qed.

Lemma pop_registers_int (ks : list Z) :
  forall s s', int_state s -> pop_registers ks s = Ok s' -> int_state s'.
Proof.
  induction ks as [| k ks IH]; intros s s' Hs H; simpl in H.
  - injection H as <-. exact Hs.
  - apply bind_ok in H. destruct H as ([v s1] & Hpop & H).
    apply bind_ok in H. destruct H as (s2 & Hw & H).
    apply (pop_value_int _ _ _ Hs) in Hpop. destruct Hpop as [Hv Hs1].
    exact (IH _ _ (reg_write_int _ _ _ _ Hs1 Hv Hw) H).
Qed.

Lemma reg_update_int (op : value -> value -> result value)
    (reg_a : value) (rhs : CPU -> result value) (s s' : CPU) :
  int_state s ->
  (forall x y z, is_int x -> is_int y -> op x y = Ok z -> is_int z) ->
  (forall y, rhs s = Ok y -> is_int y) ->
  reg_update op reg_a rhs s = Ok s' -> int_state s'.
Proof.
  intros Hs Hop Hrhs H. unfold reg_update in H.
  apply bind_ok in H. destruct H as (x & Ex & H).
  apply bind_ok in H. destruct H as (y & Ey & H).
  apply bind_ok in H. destruct H as (z & Ez & H).
  apply (getitem_reg_int _ _ _ Hs) in Ex. apply Hrhs in Ey.
  exact (reg_write_int _ _ _ _ Hs (Hop _ _ _ Ex Ey Ez) H).
Qed.

Lemma int_state_set_pc (v : value) (s : CPU) :
  int_state s -> is_int v -> int_state (set_pc v s).
Proof. intros (_ & Hf & Hr & Hm) Hv. repeat split; assumption. Qed.

Lemma int_state_set_fl (v : value) (s : CPU) :
  int_state s -> is_int v -> int_state (set_fl v s).
Proof. intros (Hp & _ & Hr & Hm) Hv. repeat split; assumption. Qed.

Ltac int_facts :=
  repeat match goal with
    | E : _ /\ _ |- _ => destruct E
    | Hs : int_state ?s, E : Py.getitem (reg ?s) _ = Ok _ |- _ =>
        apply (getitem_reg_int _ _ _ Hs) in E
    | Hs : int_state ?s, E : ram_read _ ?s = Ok _ |- _ =>
        apply (ram_read_int _ _ _ Hs) in E
    | Hs : int_state ?s, E : Py.add (pc ?s) (VInt ?n) = Ok _ |- _ =>
        apply (add_int _ (VInt n) _ (proj1 Hs) I) in E
    | Hs : int_state ?s, E : Py.and_ _ _ = Ok _ |- _ => apply and_int in E
    | Hs : int_state ?s, E : Py.or_ _ _ = Ok _ |- _ => apply or_int in E
    | Hs : int_state ?s, Hv : is_int ?v, E : reg_write _ ?v ?s = Ok _ |- _ =>
        apply (reg_write_int _ _ _ _ Hs Hv) in E
    | Hs : int_state ?s, Hv : is_int ?v, E : ram_write ?v _ ?s = Ok _ |- _ =>
        apply (ram_write_int _ _ _ _ Hs Hv) in E
    | Hs : int_state ?s, Hv : is_int ?v, E : push_value ?v ?s = Ok _ |- _ =>
        apply (push_value_int _ _ _ Hs Hv) in E
    | Hs : int_state ?s, E : pop_value ?s = Ok (_, _) |- _ =>
        apply (pop_value_int _ _ _ Hs) in E
    | Hs : int_state ?s, Hv : is_int ?v,
      E : pop_value (set_fl ?v ?s) = Ok (_, _) |- _ =>
        apply (pop_value_int _ _ _ (int_state_set_fl _ _ Hs Hv)) in E
    | Hs : int_state ?s, E : pop_registers _ ?s = Ok _ |- _ =>
        apply (pop_registers_int _ _ _ Hs) in E
    end.

Ltac int_goal :=
  repeat match goal with
    | |- is_int _ => first [assumption | exact I]
    | |- int_state (set_pc _ _) => apply int_state_set_pc
    | |- int_state (set_fl _ _) => apply int_state_set_fl
    | |- int_state (set_inst_set_pc _ ?s) => change (int_state s)
    | |- int_state (set_halted _ ?s) => change (int_state s)
    | |- int_state (set_ie _ ?s) => change (int_state s)
    | |- int_state (print _ ?s) => change (int_state s)
    | |- int_state _ => assumption
    end.

Lemma handler_int (opcode : Z) (op : handler) (a b : value) (s s' : CPU) :
  branch_table opcode = Some op ->
  opcode <> DIV ->
  int_state s -> is_int a -> is_int b ->
  op a b s = Ok s' ->
  int_state s'.
Proof.
  intros Htable Hdiv Hs Ha Hb Hrun.
  assert (Hread : forall y, reg_read (Some b) s = Ok y -> is_int y).
  { intros y Hy. exact (getitem_reg_int _ _ _ Hs Hy). }
  assert (Hone : forall y, (fun _ : CPU => Ok (VInt 1)) s = Ok y -> is_int y).
  { intros y Hy. injection Hy as <-. exact I. }
  table_cases Htable; try contradiction;
    unfold_handlers Hrun;
    first
      [ refine (reg_update_int _ _ _ _ _ Hs _ _ Hrun);
        [ intros x y z Hx Hy Hz;
          first [ exact (add_int _ _ _ Hx Hy Hz)
                | exact (sub_int _ _ _ Hx Hy Hz)
                | exact (mul_int _ _ _ Hx Hy Hz)
                | exact (and_int _ _ _ Hz)
                | exact (or_int _ _ _ Hz)
                | exact (xor_int _ _ _ Hz)
                | exact (lshift_int _ _ _ Hz) ]
        | first [exact Hread | exact Hone] ]
      | ok_inv Hrun; int_facts; int_goal ].
Qed.

Lemma branch_table_DIV : branch_table DIV = Some op_div.
Proof. reflexivity. Qed.

Lemma op_div_float (a b : value) (s s' : CPU) :
  op_div a b s = Ok s' ->
  has_float_register s' /\ halted s' = halted s /\ pc s' = pc s /\
  inst_set_pc s' = inst_set_pc s.
Proof.
  intros H. unfold op_div, alu in H. simpl String.eqb in H. cbv iota in H.
  unfold reg_update in H.
  apply bind_ok in H. destruct H as (x & _ & H).
  apply bind_ok in H. destruct H as (y & _ & H).
  apply bind_ok in H. destruct H as (z & Ez & H).
  apply truediv_float in Ez. destruct Ez as [q ->].
  unfold reg_write, Py.setitem in H.
  apply bind_ok in H. destruct H as (r & Er & H).
  apply bind_ok in Er. destruct Er as (k & Ek & Er).
  injection Er as <-. injection H as <-.
  split; [| repeat split].
  exists k, q. simpl. apply list_lookup_insert_eq.
  exact (index_lt _ _ _ Ek).
Qed.

Lemma execute_int (s s' : CPU) :
  int_state s -> execute s = Ok s' ->
  int_state s' \/ (has_float_register s' /\ halted s' = halted s).
Proof.
  intros Hs H. unfold execute in H.
  apply bind_ok in H. destruct H as (ir & _ & H).
  apply bind_ok in H. destruct H as (pc1 & _ & H).
  apply bind_ok in H. destruct H as (a & Ea & H).
  apply bind_ok in H. destruct H as (pc2 & _ & H).
  apply bind_ok in H. destruct H as (b & Eb & H).
  apply bind_ok in H. destruct H as (t & _ & H).
  apply bind_ok in H. destruct H as (t' & Et & H).
  apply bind_ok in H. destruct H as (size & Esize & H).
  apply bind_ok in H. destruct H as (u & _ & H).
  apply bind_ok in H. destruct H as (u' & _ & H).
  cbv zeta in H.
  apply bind_ok in H. destruct H as (? & _ & H).
  apply (ram_read_int _ _ _ Hs) in Ea, Eb.
  apply and_int in Et. apply (add_int _ (VInt 1) _ Et I) in Esize.
  destruct ir as [opcode |]; [| discriminate H].
  simpl pc in H. destruct (pc s) as [address |]; [| discriminate H].
  destruct (branch_table opcode) as [op |] eqn:Htable; [| discriminate H].
  apply bind_ok in H. destruct H as (s2 & Hop & H).
  destruct (Z.eq_dec opcode DIV) as [-> | Hdiv].
  - right. rewrite branch_table_DIV in Htable. injection Htable as <-.
    apply op_div_float in Hop. destruct Hop as ((k & q & Hk) & Hh & _).
    simpl in Hh.
    destruct (inst_set_pc s2).
    + injection H as <-. split; [exists k, q; exact Hk | exact Hh].
    + apply bind_ok in H. destruct H as (p & _ & H). injection H as <-.
      split; [exists k, q; exact Hk | exact Hh].
  - left.
    assert (Hs2 : int_state s2).
    { apply (handler_int opcode op a b _ s2 Htable Hdiv) in Hop;
        [exact Hop | exact Hs | exact Ea | exact Eb]. }
    destruct (inst_set_pc s2).
    + injection H as <-. exact Hs2.
    + apply bind_ok in H. destruct H as (p & Ep & H). injection H as <-.
      apply int_state_set_pc; [exact Hs2 |].
      exact (add_int _ _ _ (proj1 Hs2) Esize Ep).
Qed.

Lemma check_timer_interrupt_int (t0 t1 : Z) (s s' : CPU) :
  int_state s -> check_timer_interrupt t0 t1 s = Ok s' -> int_state s'.
Proof.
  intros Hs H. unfold check_timer_interrupt in H. cbv zeta in H.
  destruct (1 <=? _); [| injection H as <-; exact Hs].
  apply bind_ok in H. destruct H as (status & _ & H).
  apply bind_ok in H. destruct H as (status' & E & H).
  apply or_int in E.
  refine (reg_write_int _ _ _ _ _ E H). exact Hs.
Qed.

Lemma service_interrupt_int (i : Z) (s s' : CPU) :
  int_state s -> service_interrupt i s = Ok s' -> int_state s'.
Proof.
  intros Hs H. unfold service_interrupt in H. cbv zeta in H.
  apply bind_ok in H. destruct H as (st & _ & H).
  apply bind_ok in H. destruct H as (st' & E & H).
  apply bind_ok in H. destruct H as (s1 & H1 & H).
  apply bind_ok in H. destruct H as (s2 & H2 & H).
  apply bind_ok in H. destruct H as (s3 & H3 & H).
  apply bind_ok in H. destruct H as (s4 & H4 & H).
  apply bind_ok in H. destruct H as (v & Ev & H). injection H as <-.
  apply and_int in E.
  assert (Hs1 : int_state s1) by (refine (reg_write_int _ _ _ _ _ E H1); exact Hs).
  pose proof (push_value_int _ _ _ Hs1 (proj1 Hs1) H2) as Hs2.
  pose proof (push_value_int _ _ _ Hs2 (proj1 (proj2 Hs2)) H3) as Hs3.
  pose proof (push_registers_int _ _ _ Hs3 H4) as Hs4.
  apply int_state_set_pc; [exact Hs4 |].
  exact (ram_read_int _ _ _ Hs4 Ev).
Qed.

Lemma handle_interrupts_int (s s' : CPU) :
  int_state s -> handle_interrupts s = Ok s' -> int_state s'.
Proof.
  intros Hs H. apply handle_interrupts_cases in H.
  destruct H as [-> | [i H]]; [exact Hs |].
  exact (service_interrupt_int _ _ _ Hs H).
Qed.

Lemma cycle_int (t0 t1 : Z) (s s' : CPU) :
  int_state s -> cycle t0 t1 s = Ok s' ->
  int_state s' \/ (has_float_register s' /\ halted s' = halted s).
Proof.
  intros Hs H. unfold cycle in H.
  apply bind_ok in H. destruct H as (s1 & H1 & H).
  apply bind_ok in H. destruct H as (s2 & H2 & H).
  pose proof (check_timer_interrupt_int _ _ _ _ Hs H1) as Hs1.
  pose proof (handle_interrupts_int _ _ Hs1 H2) as Hs2.
  apply check_timer_interrupt_others in H1. destruct H1 as (_ & Hh1 & _).
  apply handle_interrupts_others in H2. destruct H2 as (_ & Hh2).
  apply (execute_int _ _ Hs2) in H.
  destruct H as [H | [Hf Hh]]; [left; exact H | right].
  split; [exact Hf | congruence].
Qed.

Lemma run_int (clock : list (Z * Z)) :
  forall s s' : CPU,
    wf s -> int_state s -> run clock s = Some (Ok s') -> int_state s'.
Proof.
  induction clock as [| [t0 t1] clock IH]; intros s s' Hwf Hs H; simpl in H.
  - destruct (halted s); [| discriminate H]. injection H as <-. exact Hs.
  - destruct (halted s) eqn:Hh; [injection H as <-; exact Hs |].
    destruct (cycle t0 t1 s) as [s1 |] eqn:Hc; [| discriminate H].
    pose proof (cycle_wf _ _ _ _ Hwf Hc) as Hwf1.
    apply (cycle_int _ _ _ _ Hs) in Hc. destruct Hc as [Hs1 | [Hf Hh1]].
    + exact (IH _ _ Hwf1 Hs1 H).
    + exfalso. rewrite Hh in Hh1.
      destruct clock as [| [u0 u1] clock]; simpl in H; rewrite Hh1 in H.
      * discriminate H.
      * destruct (cycle_float u0 u1 s1 Hwf1 Hf) as [e He].
        rewrite He in H. discriminate H.
Qed.

(** X16: in a machine that holds only integers, every handler except DIV
    leaves only integers behind, while DIV leaves a float in a register;
    and since a float ends the run with an exception, a run that returns
    has only integers in PC, FL, the registers and memory. *)
Theorem integers_unless_div
    (opcode : Z) (op : handler) (a b : value) (s s1 s' : CPU)
    (clock : list (Z * Z)) :
  wf s -> int_state s ->
  (branch_table opcode = Some op -> is_int a -> is_int b ->
   op a b s = Ok s1 ->
   (opcode <> DIV -> int_state s1) /\
   (opcode = DIV -> has_float_register s1)) /\
  (run clock s = Some (Ok s') -> int_state s').
Proof.
  intros Hwf Hs. split.
  - intros Htable Ha Hb Hop. split.
    + intros Hdiv. exact (handler_int _ _ _ _ _ _ Htable Hdiv Hs Ha Hb Hop).
    + intros ->. rewrite branch_table_DIV in Htable. injection Htable as <-.
      apply op_div_float in Hop. apply Hop.
  - apply run_int; assumption.
Qed.

Lemma integers_unless_div_witness :
  let s := set_ram (<[0%nat := VInt LDI]> (<[2%nat := VInt 8]>
                      (<[3%nat := VInt HLT]> (ram CPU_init)))) CPU_init in
  let s1 := set_reg (<[0%nat := VInt 8]> (reg s)) s in
  let s' := set_halted true (set_pc (VInt 4) (set_last_interrupt (Some 0) s1)) in
  (branch_table LDI = Some op_ldi -> is_int (VInt 0) -> is_int (VInt 8) ->
   op_ldi (VInt 0) (VInt 8) s = Ok s1 ->
   (LDI <> DIV -> int_state s1) /\ (LDI = DIV -> has_float_register s1)) /\
  (run [(0, 0); (0, 0)] s = Some (Ok s') -> int_state s').
Proof.
  intros s s1 s'.
  apply (integers_unless_div LDI op_ldi (VInt 0) (VInt 8) s s1 s'
           [(0, 0); (0, 0)]).
  - split; reflexivity.
  - repeat split; repeat constructor.
Defined.

(** ** Which registers a handler assigns *)

Lemma reg_write_regs (i v : value) (s s' : CPU) :
  reg_write i v s = Ok s' ->
  exists k, Py.index (length (reg s)) i = Ok k /\ reg s' = <[k := v]> (reg s).
Proof.
  unfold reg_write, Py.setitem. intros H.
  apply bind_ok in H. destruct H as (r & Er & H).
  apply bind_ok in Er. destruct Er as (k & Ek & Er).
  injection Er as <-. injection H as <-. exists k. split; [exact Ek | reflexivity].
Qed.

Lemma ram_write_regs (mdr mar : value) (s s' : CPU) :
  ram_write mdr mar s = Ok s' -> reg s' = reg s.
Proof. unfold ram_write. intros H. ok_inv H. reflexivity. Qed.

Lemma index_SP (len k : nat) : Py.index len (VInt SP) = Ok k -> k = 7%nat.
Proof.
  unfold Py.index, SP. simpl (7 <? 0). cbv iota zeta.
  destruct (_ || _); [discriminate |]. intros H. injection H as <-. reflexivity.
Qed.

Lemma push_value_assigns_sp (v : value) (s s' : CPU) :
  push_value v s = Ok s' -> exists w, reg s' = <[7%nat := w]> (reg s).
Proof.
  unfold push_value. intros H.
  apply bind_ok in H. destruct H as (sp & _ & H).
  apply bind_ok in H. destruct H as (sp' & _ & H).
  apply bind_ok in H. destruct H as (s1 & E & H).
  apply bind_ok in H. destruct H as (mar & _ & H).
  apply reg_write_regs in E. destruct E as (k & Hk & E).
  apply index_SP in Hk. subst k. apply ram_write_regs in H.
  exists sp'. congruence.
Qed.

Lemma pop_value_assigns_sp (s s' : CPU) (v : value) :
  pop_value s = Ok (v, s') -> exists w, reg s' = <[7%nat := w]> (reg s).
Proof.
  unfold pop_value. intros H.
  apply bind_ok in H. destruct H as (mar & _ & H).
  apply bind_ok in H. destruct H as (v' & _ & H).
  apply bind_ok in H. destruct H as (sp & _ & H).
  apply bind_ok in H. destruct H as (sp' & _ & H).
  apply bind_ok in H. destruct H as (s1 & E & H).
  injection H as _ <-.
  apply reg_write_regs in E. destruct E as (k & Hk & E).
  apply index_SP in Hk. subst k. exists sp'. exact E.
Qed.

Lemma reg_update_regs (op : value -> value -> result value)
    (reg_a : value) (rhs : CPU -> result value) (s s' : CPU) :
  reg_update op reg_a rhs s = Ok s' ->
  exists k w, Py.index (length (reg s)) reg_a = Ok k /\
              reg s' = <[k := w]> (reg s).
Proof.
  unfold reg_update. intros H.
  apply bind_ok in H. destruct H as (x & _ & H).
  apply bind_ok in H. destruct H as (y & _ & H).
  apply bind_ok in H. destruct H as (z & _ & H).
  apply reg_write_regs in H. destruct H as (k & Hk & H).
  exists k, z. split; assumption.
Qed.

Ltac regs_facts :=
  repeat match goal with
    | E : reg_write _ _ _ = Ok _ |- _ =>
        apply reg_write_regs in E; destruct E as (? & ? & ?)
    | E : ram_write _ _ _ = Ok _ |- _ => apply ram_write_regs in E
    | E : push_value _ _ = Ok _ |- _ =>
        apply push_value_assigns_sp in E; destruct E as (? & ?)
    | E : pop_value _ = Ok (_, _) |- _ =>
        apply pop_value_assigns_sp in E; destruct E as (? & ?)
    | E : reg_update _ _ _ _ = Ok _ |- _ =>
        apply reg_update_regs in E; destruct E as (? & ? & ? & ?)
    end.

Ltac not_listed H :=
  exfalso; simpl in H;
  repeat (destruct H as [H | H]; [discriminate H |]); exact H.

(** X17: the registers a handler assigns.  CMP, HLT, the five jumps, PRA,
    PRN and ST leave all registers as they were; PUSH, CALL and RET assign
    register 7 only; the ALU operations but CMP, LDI and LD assign only the
    register named by the first operand. *)
Theorem register_frame (opcode : Z) (op : handler) (a b : value) (s s' : CPU) :
  branch_table opcode = Some op ->
  op a b s = Ok s' ->
  (In opcode [CMP; HLT; JEQ; JLE; JLT; JMP; JNE; PRA; PRN; ST] ->
   reg s' = reg s) /\
  (In opcode [PUSH; CALL; RET] ->
   exists w, reg s' = <[7%nat := w]> (reg s)) /\
  (In opcode [ADD; AND; SUB; MUL; DIV; DEC; INC; OR; SHL; XOR; LDI; LD] ->
   exists k w, Py.index (length (reg s)) a = Ok k /\
               reg s' = <[k := w]> (reg s)).
Proof.
  intros Htable Hrun.
  table_cases Htable; try subst opcode;
    (split; [| split]); intros Hin;
    first
      [ solve [not_listed Hin]
      | solve [ unfold_handlers Hrun; ok_inv Hrun; regs_facts;
                simpl in *; eauto; congruence ] ].
Qed.

Lemma register_frame_witness :
  let s' := set_reg (<[0%nat := VInt 8]> (reg CPU_init)) CPU_init in
  (In LDI [CMP; HLT; JEQ; JLE; JLT; JMP; JNE; PRA; PRN; ST] ->
   reg s' = reg CPU_init) /\
  (In LDI [PUSH; CALL; RET] ->
   exists w, reg s' = <[7%nat := w]> (reg CPU_init)) /\
  (In LDI [ADD; AND; SUB; MUL; DIV; DEC; INC; OR; SHL; XOR; LDI; LD] ->
   exists k w, Py.index (length (reg CPU_init)) (VInt 0) = Ok k /\
               reg s' = <[k := w]> (reg CPU_init)).
Proof.
  intros s'. apply (register_frame LDI op_ldi (VInt 0) (VInt 8) CPU_init).
  - reflexivity.
  - vm_compute. reflexivity.
Defined.

(** ** The sizes of the register file and of memory *)

(** X18: no handler, no cycle and no run changes the number of registers
    (8) or of memory cells (256): memory never grows, and an address is valid
    at the end of a run exactly when it was valid at the start. *)
Theorem lists_keep_their_length
    (opcode : Z) (op : handler) (a b : value) (t0 t1 : Z)
    (clock : list (Z * Z)) (s s1 s2 s3 : CPU) :
  wf s ->
  (branch_table opcode = Some op -> op a b s = Ok s1 -> wf s1) /\
  (cycle t0 t1 s = Ok s2 -> wf s2) /\
  (run clock s = Some (Ok s3) -> wf s3).
Proof.
  intros Hwf. split; [| split].
  - intros Htable Hop. exact (handler_wf _ _ _ _ _ _ Htable Hwf Hop).
  - exact (cycle_wf _ _ _ _ Hwf).
  - exact (run_wf _ _ _ Hwf).
Qed.

Lemma lists_keep_their_length_witness :
  let s := set_ram (<[0%nat := VInt LDI]> (<[2%nat := VInt 8]>
                      (<[3%nat := VInt HLT]> (ram CPU_init)))) CPU_init in
  let s1 := set_reg (<[0%nat := VInt 8]> (reg s)) s in
  let s2 := set_pc (VInt 3) (set_last_interrupt (Some 0) s1) in
  let s3 := set_halted true (set_pc (VInt 4) s2) in
  (branch_table LDI = Some op_ldi -> op_ldi (VInt 0) (VInt 8) s = Ok s1 ->
   wf s1) /\
  (cycle 0 0 s = Ok s2 -> wf s2) /\
  (run [(0, 0); (0, 0)] s = Some (Ok s3) -> wf s3).
Proof.
  intros s s1 s2 s3.
  apply (lists_keep_their_length LDI op_ldi (VInt 0) (VInt 8) 0 0
           [(0, 0); (0, 0)] s s1 s2 s3).
  split; reflexivity.
Defined.
